(** * Idle-cash detection and recommendation ranking: a shallow embedding

    The development embeds the decision logic of the repository
    ([src/mock_portfolio.py], [src/portfolio_monitor.py],
    [src/investment_analyzer.py], [src/news_analyzer.py], [config/config.py])
    and proves the properties stated about it.

    Conventions of the embedding.
    - A number the code is handed (a price, a share count, a close of the
      history, a cash amount) is finite and is the rational it denotes, in
      [Q]; arithmetic on it is exact, and equalities between computed amounts
      are stated with [==].  Where the code can produce an IEEE special value
      out of finite ones (a division by a zero close, the volatility that
      pandas returns) the value has type [Py.float], which adds the two
      infinities and NaN to the rationals.
    - [datetime] values are integers: microseconds since 0001-01-01T00:00.
      [datetime.now()] is an argument [now] of every function that reads the
      clock.
    - A call that may raise returns a [Py.result]; statements in a [try]
      block are sequenced with [x ← e; k], and [try/except] is
      [Py.try_except].
    - Collaborators outside the repository (yfinance, the pandas statistics,
      the Google search client) are fields of interface records that the
      functions receive; a collaborator answers equal requests equally.
    - Suggestion dictionaries are mutated in place by the enrichment step, so
      they live in a store and lists hold their addresses.
    - Log output and the refresh of the market overview do not influence any
      result and are left out. *)

From Stdlib Require Import QArith Qminmax Qround ZArith Lia Lqa Ascii String.
From Stdlib Require Import Sorting.Sorted.
From stdpp Require Import gmap strings list pretty.

Open Scope string_scope.
Open Scope list_scope.
Open Scope Z_scope.

(** ** Python values *)

Module Py.

(** Outcome of a call that may raise. *)
Inductive result (A : Type) : Type :=
| Ok (a : A)
| Raise (exn : string).
Arguments Ok {A} a.
Arguments Raise {A} exn.

(** Sequencing of calls that may raise: the first raise ends the block. *)
#[global] Instance result_ret : MRet result := fun A a => Ok a.
#[global] Instance result_bind : MBind result := fun A B f r =>
  match r with
  | Ok a => f a
  | Raise exn => Raise exn
  end.

(** [try: body / except Exception: handler]. *)
Definition try_except {A : Type} (body : result A) (handler : string -> A)
    : A :=
  match body with
  | Ok a => a
  | Raise exn => handler exn
  end.

(** [x < y] on finite numbers. *)
Definition Qltb (x y : Q) : bool := negb (Qle_bool y x).

(** [max(a, b)]: the first argument unless the second is strictly greater. *)
Definition max (a b : Q) : Q := if Qltb a b then b else a.

(** [min(a, b)]: the first argument unless the second is strictly smaller. *)
Definition min (a b : Q) : Q := if Qltb b a then b else a.

(** [sum(xs)] over numbers. *)
Definition sum (xs : list Q) : Q := foldl Qplus 0%Q xs.

(** Truncation of a finite number toward zero. *)
Definition trunc (x : Q) : Z := Z.quot (Qnum x) (Zpos (Qden x)).

(** [x in xs] for a list of strings. *)
Definition str_in (x : string) (xs : list string) : bool :=
  existsb (String.eqb x) xs.

(** [sub in s] for strings: substring test. *)
Fixpoint contains (sub s : string) : bool :=
  String.prefix sub s ||
  match s with
  | EmptyString => false
  | String _ rest => contains sub rest
  end.

(** [s.lower()] on the ASCII range. *)
Definition lower_ascii (c : ascii) : ascii :=
  let n := N_of_ascii c in
  if ((65 <=? n) && (n <=? 90))%N then ascii_of_N (n + 32) else c.

Fixpoint lower (s : string) : string :=
  match s with
  | EmptyString => EmptyString
  | String c rest => String (lower_ascii c) (lower rest)
  end.

(** Floats that may be special: a finite value, an infinity, or NaN. *)
Inductive float : Type :=
| Fin (q : Q)
| PInf
| NInf
| NaN.

(** Unary minus. *)
Definition fneg (x : float) : float :=
  match x with
  | Fin q => Fin (- q)%Q
  | PInf => NInf
  | NInf => PInf
  | NaN => NaN
  end.

(** [x == y] on floats: NaN is equal to nothing. *)
Definition feqb (x y : float) : bool :=
  match x, y with
  | Fin a, Fin b => Qeq_bool a b
  | PInf, PInf => true
  | NInf, NInf => true
  | _, _ => false
  end.

(** [x < y] on floats: false whenever a NaN is involved. *)
Definition fltb (x y : float) : bool :=
  match x, y with
  | Fin a, Fin b => Qltb a b
  | Fin _, PInf => true
  | NInf, Fin _ => true
  | NInf, PInf => true
  | _, _ => false
  end.

(** [x <= y] on floats. *)
Definition fleb (x y : float) : bool := fltb x y || feqb x y.

(** [x / y] for finite [x] and [y] as numpy computes it: no exception on a
    zero divisor (taken as +0.0), but an infinity or NaN. *)
Definition fdiv (x y : Q) : float :=
  if Qeq_bool y 0 then
    if Qltb 0 x then PInf else if Qltb x 0 then NInf else NaN
  else Fin (x / y)%Q.


(** [int(x)] on a float: truncation toward zero; an infinity raises
    OverflowError and NaN raises ValueError. *)
Definition int (x : float) : result Z :=
  match x with
  | Fin q => Ok (trunc q)
  | PInf | NInf => Raise "OverflowError"
  | NaN => Raise "ValueError"
  end.

(** [x + y] on floats: NaN is absorbing and opposite infinities give NaN. *)
Definition fadd (x y : float) : float :=
  match x, y with
  | NaN, _ | _, NaN => NaN
  | Fin a, Fin b => Fin (a + b)%Q
  | PInf, NInf | NInf, PInf => NaN
  | PInf, _ | _, PInf => PInf
  | NInf, _ | _, NInf => NInf
  end.

(** [x - y] on floats. *)
Definition fsub (x y : float) : float := fadd x (fneg y).

(** [x * y] on floats: zero times an infinity is NaN. *)
Definition fmul (x y : float) : float :=
  let scaled (inf : float) (a : Q) : float :=
    if Qltb 0 a then inf else if Qltb a 0 then fneg inf else NaN in
  match x, y with
  | NaN, _ | _, NaN => NaN
  | Fin a, Fin b => Fin (a * b)%Q
  | Fin a, PInf | PInf, Fin a => scaled PInf a
  | Fin a, NInf | NInf, Fin a => scaled NInf a
  | PInf, PInf | NInf, NInf => PInf
  | PInf, NInf | NInf, PInf => NaN
  end.

(** [x / y] on floats as numpy computes it: a finite value over an infinity
    is zero, an infinity over an infinity is NaN, and a zero divisor is
    taken as +0.0 as in [fdiv]. *)
Definition fdivf (x y : float) : float :=
  match x, y with
  | NaN, _ | _, NaN => NaN
  | Fin a, Fin b => fdiv a b
  | Fin _, PInf | Fin _, NInf => Fin 0
  | PInf, Fin b => if Qltb b 0 then NInf else PInf
  | NInf, Fin b => if Qltb b 0 then PInf else NInf
  | _, _ => NaN
  end.

(** [sep.join(parts)]. *)
Fixpoint join (sep : string) (parts : list string) : string :=
  match parts with
  | [] => EmptyString
  | [part] => part
  | part :: rest => part +:+ sep +:+ join sep rest
  end.

End Py.

(** ** [config/config.py] *)

Module Config.

Definition UNUSED_BALANCE_THRESHOLD : Q := 0.5.
Definition MIN_INVESTMENT_AMOUNT : Q := 100.
Definition MAX_INVESTMENT_AMOUNT : Q := 10000.

End Config.

(** ** [datetime] arithmetic used by the ledger

    A [datetime] is its distance from 0001-01-01T00:00 in microseconds; the
    calendar functions follow the algorithms of Python's [datetime] module. *)

Module Datetime.

(** Microseconds in a day. *)
Definition MICROS_PER_DAY : Z := 86400000000.

(** [timedelta(days=d)]. *)
Definition timedelta_days (d : Z) : Z := d * MICROS_PER_DAY.

(** [t.date()], as the proleptic Gregorian ordinal [date.toordinal()]. *)
Definition date (t : Z) : Z := t / MICROS_PER_DAY + 1.

(** Number of days before January 1st of [year]. *)
Definition days_before_year (year : Z) : Z :=
  let y := year - 1 in
  y * 365 + y / 4 - y / 100 + y / 400.

(** The year of an ordinal (the year component of [date.fromordinal]). *)
Definition year_of_ordinal (ordinal : Z) : Z :=
  let n := ordinal - 1 in
  let n400 := n / 146097 in
  let n := n mod 146097 in
  let n100 := n / 36524 in
  let n := n mod 36524 in
  let n4 := n / 1461 in
  let n := n mod 1461 in
  let n1 := n / 365 in
  let year := n400 * 400 + 1 + n100 * 100 + n4 * 4 + n1 in
  if (n1 =? 4) || (n100 =? 4) then year - 1 else year.

(** Ordinal of the Monday that starts ISO week 1 of [year]. *)
Definition isoweek1monday (year : Z) : Z :=
  let firstday := days_before_year year + 1 in
  let firstweekday := (firstday + 6) mod 7 in
  let week1monday := firstday - firstweekday in
  if 3 <? firstweekday then week1monday + 7 else week1monday.

(** [isocalendar().week] of the date with the given ordinal. *)
Definition isoweek (ordinal : Z) : Z :=
  let year := year_of_ordinal ordinal in
  let week := (ordinal - isoweek1monday year) / 7 in
  if week <? 0 then (ordinal - isoweek1monday (year - 1)) / 7 + 1
  else if (52 <=? week) && (isoweek1monday (year + 1) <=? ordinal) then 1
  else week + 1.

End Datetime.

(** ** [src/mock_portfolio.py]: the ledger *)

Module MockPortfolio.

(** One entry of [self.transactions]. *)
Record Transaction : Type := mkTransaction {
  id : string;
  symbol : string;
  action : string;
  shares : Q;
  price : Q;
  timestamp : Z;
  total_value : Q
}.

(** The fields of a [MockPortfolio] object. *)
Record t : Type := mkPortfolio {
  initial_cash : Q;
  cash_balance : Q;
  holdings : gmap string Q;
  transactions : list Transaction;
  _last_reset_time : Z
}.

(** [_get_mock_price]. *)
Definition mock_prices : list (string * Q) :=
  [ ("AAPL", 175.50%Q); ("MSFT", 380.25%Q); ("GOOGL", 140.75%Q);
    ("TSLA", 245.30%Q); ("SPY", 450.80%Q); ("NVDA", 875.20%Q);
    ("AMZN", 155.40%Q); ("META", 485.60%Q); ("NFLX", 425.90%Q);
    ("AMD", 142.35%Q) ].

Fixpoint assoc_get {V : Type} (k : string) (d : list (string * V)) : option V :=
  match d with
  | [] => None
  | (k', v) :: rest => if String.eqb k k' then Some v else assoc_get k rest
  end.

Definition _get_mock_price (sym : string) : Q :=
  default 100%Q (assoc_get sym mock_prices).

Definition get_cash_balance (self : t) : Q := cash_balance self.

(** [update_cash_balance]: a bare overwrite. *)
Definition update_cash_balance (self : t) (new_balance : Q) : t :=
  {| initial_cash := initial_cash self;
     cash_balance := new_balance;
     holdings := holdings self;
     transactions := transactions self;
     _last_reset_time := _last_reset_time self |}.

(** [add_transaction(symbol, action, shares, price=None)].  The object after
    the call; [now] is the value [datetime.now()] returns. *)
Definition add_transaction (now : Z) (self : t)
    (sym act : string) (shrs : Q) (prc : option Q) : t :=
  let prc := match prc with None => _get_mock_price sym | Some p => p end in
  let total := if Py.str_in act ["buy"; "sell"] then (shrs * prc)%Q else shrs in
  let transaction :=
    {| id := "manual_" +:+ pretty (length (transactions self));
       symbol := sym;
       action := act;
       shares := shrs;
       price := prc;
       timestamp := now;
       total_value := total |} in
  let txs := transactions self ++ [transaction] in
  if String.eqb act "buy" then
    {| initial_cash := initial_cash self;
       cash_balance := (cash_balance self - total)%Q;
       holdings :=
         <[sym := (default 0%Q (holdings self !! sym) + shrs)%Q]>
           (holdings self);
       transactions := txs;
       _last_reset_time := _last_reset_time self |}
  else if String.eqb act "sell" then
    {| initial_cash := initial_cash self;
       cash_balance := (cash_balance self + total)%Q;
       holdings :=
         <[sym := Py.max 0 (default 0%Q (holdings self !! sym) - shrs)%Q]>
           (holdings self);
       transactions := txs;
       _last_reset_time := _last_reset_time self |}
  else if String.eqb act "dividend" then
    {| initial_cash := initial_cash self;
       cash_balance := (cash_balance self + total)%Q;
       holdings := holdings self;
       transactions := txs;
       _last_reset_time := _last_reset_time self |}
  else
    {| initial_cash := initial_cash self;
       cash_balance := cash_balance self;
       holdings := holdings self;
       transactions := txs;
       _last_reset_time := _last_reset_time self |}.

(** [get_transaction_history(days)]: the rows of the returned data frame. *)
Definition get_transaction_history (now : Z) (self : t) (days : Z)
    : list Transaction :=
  let end_date := now in
  let start_date := end_date - Datetime.timedelta_days days in
  List.filter
    (fun tx => (start_date <=? timestamp tx) && (timestamp tx <=? end_date))
    (transactions self).

(** The dictionary [calculate_spending_patterns] returns. *)
Record SpendingPatterns : Type := mkSpendingPatterns {
  daily_average : Q;
  weekly_average : Q;
  monthly_average : Q
}.

(** [groupby(key)['total_value'].sum()]: one entry per distinct key, holding
    the sum of the group.  Groups are kept in order of first appearance;
    pandas orders them by key, which [mean] does not observe. *)
Fixpoint group_add (k : Z) (v : Q) (groups : list (Z * Q)) : list (Z * Q) :=
  match groups with
  | [] => [(k, v)]
  | (k', v') :: rest =>
      if k =? k' then (k', (v' + v)%Q) :: rest
      else (k', v') :: group_add k v rest
  end.

Definition groupby_sum (key : Transaction -> Z) (txs : list Transaction)
    : list (Z * Q) :=
  foldl (fun groups tx => group_add (key tx) (total_value tx) groups) [] txs.

(** [Series.mean()] of a series that is not empty. *)
Definition mean (series : list (Z * Q)) : Q :=
  (Py.sum (map snd series) / inject_Z (Z.of_nat (length series)))%Q.

Definition is_empty {A : Type} (l : list A) : bool :=
  match l with [] => true | _ => false end.

(** [calculate_spending_patterns(days=30)]. *)
Definition calculate_spending_patterns (now : Z) (self : t) (days : Z)
    : option SpendingPatterns :=
  let txs := get_transaction_history now self days in
  if is_empty txs then None
  else
    let spending_transactions :=
      List.filter
        (fun tx => String.eqb (action tx) "buy"
                   || String.eqb (action tx) "dividend_reinvest")
        txs in
    if is_empty spending_transactions then
      Some {| daily_average := 50; weekly_average := 350;
              monthly_average := 1500 |}
    else
      let daily_spending :=
        groupby_sum (fun tx => Datetime.date (timestamp tx))
                    spending_transactions in
      let weekly_spending :=
        groupby_sum (fun tx => Datetime.isoweek (Datetime.date (timestamp tx)))
                    spending_transactions in
      Some {| daily_average :=
                if negb (is_empty daily_spending) then mean daily_spending
                else 150;
              weekly_average :=
                if negb (is_empty weekly_spending) then mean weekly_spending
                else 1050;
              monthly_average :=
                if negb (is_empty daily_spending)
                then (mean daily_spending * 30)%Q
                else 4500 |}.

(** [get_portfolio_value]: cash plus the holdings at their mock prices.  The
    generator runs over [self.holdings.items()]; the order of a sum of exact
    numbers is not observable, so the items are taken in the order
    [map_to_list] gives them. *)
Definition holdings_value (self : t) : Q :=
  Py.sum (map (fun '(sym, shrs) => (shrs * _get_mock_price sym)%Q)
              (map_to_list (holdings self))).

Definition get_portfolio_value (self : t) : Q :=
  (cash_balance self + holdings_value self)%Q.



(** [get_idle_cash]; the estimate is asked with its default window of 30
    days. *)
Definition get_idle_cash (now : Z) (self : t) : Q :=
  match calculate_spending_patterns now self 30 with
  | None => Py.max 0 (cash_balance self - 1000)%Q
  | Some spending_patterns =>
      let monthly_spending := monthly_average spending_patterns in
      let emergency_fund := (monthly_spending * 1)%Q in
      Py.max 0 (cash_balance self - emergency_fund)%Q
  end.

(** The random numbers one round of [_generate_initial_transactions] draws
    from [np.random], in the order of the calls: [random()],
    [uniform(25.0, 150.0)], [random()], [choice(symbols)], [randint(1, 3)],
    [choice(['buy', 'sell'])], [uniform(0.95, 1.05)].  A draw the round does
    not make is not read. *)
Record random_draws : Type := mkDraws {
  dividend_draw : Q;
  dividend_amount : Q;
  trade_draw : Q;
  trade_symbol : string;
  trade_shares : Q;
  trade_action : string;
  price_factor : Q
}.

(** The transactions round [i] of [_generate_initial_transactions]
    appends. *)
Definition initial_round (start_date : Z) (draws : nat -> random_draws)
    (i : nat) : list Transaction :=
  let date := start_date + Datetime.timedelta_days (Z.of_nat i * 3) in
  let d := draws i in
  (if Py.Qltb 0.7 (dividend_draw d) then
     [ {| id := "dividend_" +:+ pretty i;
          symbol := "DIVIDEND";
          action := "dividend";
          shares := 0;
          price := 0;
          timestamp := date;
          total_value := dividend_amount d |} ]
   else [])
  ++
  (if Py.Qltb 0.6 (trade_draw d) then
     let price := (_get_mock_price (trade_symbol d) * price_factor d)%Q in
     [ {| id := "trade_" +:+ pretty i;
          symbol := trade_symbol d;
          action := trade_action d;
          shares := trade_shares d;
          price := price;
          timestamp := date;
          total_value := (trade_shares d * price)%Q |} ]
   else []).

(** [_generate_initial_transactions]; [now] is the clock reading of its
    first statement. *)
Definition _generate_initial_transactions (now : Z)
    (draws : nat -> random_draws) (self : t) : t :=
  let start_date := now - Datetime.timedelta_days 30 in
  {| initial_cash := initial_cash self;
     cash_balance := cash_balance self;
     holdings := holdings self;
     transactions :=
       transactions self
       ++ flat_map (initial_round start_date draws) (seq 0 10);
     _last_reset_time := _last_reset_time self |}.

(** [_generate_initial_holdings]; the loop reads the clock once per stock,
    [clock k] being the reading of round [k]. *)
Definition initial_stocks : list (string * Q) :=
  [ ("AAPL", 5%Q); ("MSFT", 3%Q); ("GOOGL", 2%Q); ("TSLA", 1%Q);
    ("SPY", 10%Q) ].

Definition initial_holding_transaction (clock : nat -> Z) (k : nat)
    (stock : string * Q) : Transaction :=
  let '(sym, shrs) := stock in
  {| id := "initial_" +:+ sym;
     symbol := sym;
     action := "buy";
     shares := shrs;
     price := _get_mock_price sym;
     timestamp := clock k - Datetime.timedelta_days 30;
     total_value := (shrs * _get_mock_price sym)%Q |}.

Definition _generate_initial_holdings (clock : nat -> Z) (self : t) : t :=
  {| initial_cash := initial_cash self;
     cash_balance := cash_balance self;
     holdings := list_to_map initial_stocks;
     transactions :=
       transactions self
       ++ imap (initial_holding_transaction clock) initial_stocks;
     _last_reset_time := _last_reset_time self |}.

(** [MockPortfolio(initial_cash)].  The constructor reads the clock seven
    times: [clock 0] is stored as [_last_reset_time], [clock 1] is the
    reading of [_generate_initial_transactions], and [clock 2] to [clock 6]
    are the readings of [_generate_initial_holdings]. *)
Definition __init__ (clock : nat -> Z) (draws : nat -> random_draws)
    (initial_cash : Q) : t :=
  let self :=
    {| initial_cash := initial_cash;
       cash_balance := initial_cash;
       holdings := ∅;
       transactions := [];
       _last_reset_time := clock 0%nat |} in
  let self := _generate_initial_transactions (clock 1%nat) draws self in
  _generate_initial_holdings (fun k => clock (2 + k)%nat) self.

End MockPortfolio.

(** ** [src/portfolio_monitor.py]: a wrapper that delegates to the ledger *)

Module PortfolioMonitor.

Record t : Type := mkMonitor { mock_portfolio : MockPortfolio.t }.

Definition get_cash_balance (self : t) : Q :=
  MockPortfolio.get_cash_balance (mock_portfolio self).

Definition calculate_spending_patterns (now : Z) (self : t) (days : Z)
    : option MockPortfolio.SpendingPatterns :=
  MockPortfolio.calculate_spending_patterns now (mock_portfolio self) days.

Definition update_cash_balance (self : t) (new_balance : Q) : t :=
  {| mock_portfolio :=
       MockPortfolio.update_cash_balance (mock_portfolio self) new_balance |}.

Definition add_transaction (now : Z) (self : t)
    (sym act : string) (shrs : Q) (prc : option Q) : t :=
  {| mock_portfolio :=
       MockPortfolio.add_transaction now (mock_portfolio self)
                                     sym act shrs prc |}.

(** [PortfolioMonitor()]: a ledger that starts with 50000. *)
Definition __init__ (clock : nat -> Z)
    (draws : nat -> MockPortfolio.random_draws) : t :=
  {| mock_portfolio := MockPortfolio.__init__ clock draws 50000 |}.


Definition get_portfolio_value (self : t) : Q :=
  MockPortfolio.get_portfolio_value (mock_portfolio self).

Definition get_transaction_history (now : Z) (self : t) (days : Z)
    : list MockPortfolio.Transaction :=
  MockPortfolio.get_transaction_history now (mock_portfolio self) days.

Definition get_idle_cash (now : Z) (self : t) : Q :=
  MockPortfolio.get_idle_cash now (mock_portfolio self).






End PortfolioMonitor.

(** ** [src/news_analyzer.py] *)

Module NewsAnalyzer.

(** The request [search_stock_news] sends to the search client. *)
Record cse_request : Type := mkRequest {
  q : string;
  cx : option string;
  num : Z;
  dateRestrict : string;
  sort : string
}.

(** One entry of the response's ['items'], with the keys the code reads; an
    absent key is [None].  [item_metatags] is [pagemap.metatags] when both
    keys are present, each entry reduced to its ['article:published_time']. *)
Record cse_item : Type := mkItem {
  item_title : option string;
  item_snippet : option string;
  item_link : option string;
  item_displayLink : option string;
  item_metatags : option (list (option string))
}.

(** The response of the client; [items] is [None] when the key is absent. *)
Record cse_response : Type := mkResponse { items : option (list cse_item) }.

(** The fields of a [NewsAnalyzer] object; [service] is [None] when the
    search API is not configured or failed to initialise. *)
Record t : Type := mkAnalyzer {
  search_engine_id : option string;
  service : option (cse_request -> Py.result cse_response)
}.

(** A dictionary of [news_items]. *)
Record news_item : Type := mkNews {
  title : string;
  snippet : string;
  link : string;
  source : string;
  date : string
}.

(** The dictionary appended for one entry of the response;
    [metatags[0]] raises on an empty list. *)
Definition news_item_of (item : cse_item) : Py.result news_item :=
  published ←
    match item_metatags item with
    | None => mret None
    | Some [] => Py.Raise "IndexError"
    | Some (first :: _) => mret first
    end;
  mret {| title := default "" (item_title item);
          snippet := default "" (item_snippet item);
          link := default "" (item_link item);
          source := default "" (item_displayLink item);
          date := default "" published |}.

(** The [try] block of [search_stock_news], for a configured service. *)
Definition search_stock_news_try (self : t)
    (svc : cse_request -> Py.result cse_response)
    (symbol : string) (company_name : option string) (days_back : Z)
    : Py.result (list news_item) :=
  let company_term :=
    match company_name with
    | Some c => if String.eqb c "" then symbol else c
    | None => symbol
    end in
  let query := symbol +:+ " " +:+ company_term +:+ " stock news" in
  let date_restrict := "d" +:+ pretty days_back in
  result ← svc {| q := query; cx := search_engine_id self; num := 10;
                  dateRestrict := date_restrict; sort := "date" |};
  match items result with
  | None => mret []
  | Some its => mapM news_item_of its
  end.

(** [search_stock_news(symbol, company_name=None, days_back=7)]. *)
Definition search_stock_news (self : t)
    (symbol : string) (company_name : option string) (days_back : Z)
    : list news_item :=
  match service self with
  | None => []
  | Some svc =>
      Py.try_except
        (search_stock_news_try self svc symbol company_name days_back)
        (fun _ => [])
  end.

Definition positive_keywords : list string :=
  [ "growth"; "profit"; "gain"; "rise"; "increase"; "bullish"; "optimistic";
    "strong"; "beat"; "exceed"; "outperform"; "upgrade"; "buy"; "positive";
    "rally"; "surge"; "boom"; "recovery"; "expansion" ].

Definition negative_keywords : list string :=
  [ "loss"; "decline"; "fall"; "drop"; "bearish"; "pessimistic"; "weak";
    "miss"; "underperform"; "downgrade"; "sell"; "negative"; "crash";
    "plunge"; "recession"; "crisis"; "concern"; "risk"; "volatility" ].

(** An entry of [sentiment_scores]. *)
Record scored_item : Type := mkScored {
  scored_title : string;
  scored_sentiment : string;
  score : Q;
  scored_source : string
}.

(** [sum(1 for keyword in keywords if keyword in text)]. *)
Definition keyword_count (keywords : list string) (text : string) : Z :=
  Z.of_nat
    (length (List.filter (fun keyword => Py.contains keyword text) keywords)).

(** The body of the loop of [analyze_sentiment]. *)
Definition score_item (item : news_item) : scored_item :=
  let text := Py.lower (title item +:+ " " +:+ snippet item) in
  let positive_count := keyword_count positive_keywords text in
  let negative_count := keyword_count negative_keywords text in
  if negative_count <? positive_count then
    {| scored_title := title item; scored_sentiment := "positive";
       score := (inject_Z (Z.min (positive_count - negative_count) 5) / 5)%Q;
       scored_source := source item |}
  else if positive_count <? negative_count then
    {| scored_title := title item; scored_sentiment := "negative";
       score := (- inject_Z (Z.min (negative_count - positive_count) 5) / 5)%Q;
       scored_source := source item |}
  else
    {| scored_title := title item; scored_sentiment := "neutral";
       score := 0; scored_source := source item |}.

(** The dictionary [analyze_sentiment] returns. *)
Record sentiment_analysis : Type := mkAnalysis {
  overall_sentiment : string;
  average_score : Q;
  individual_scores : list scored_item;
  total_articles : nat
}.

(** [analyze_sentiment(news_items)]. *)
Definition analyze_sentiment (news_items : list news_item)
    : sentiment_analysis :=
  let sentiment_scores := map score_item news_items in
  match sentiment_scores with
  | [] =>
      {| overall_sentiment := "neutral"; average_score := 0;
         individual_scores := sentiment_scores;
         total_articles := length sentiment_scores |}
  | _ =>
      let avg_score :=
        (Py.sum (map score sentiment_scores)
         / inject_Z (Z.of_nat (length sentiment_scores)))%Q in
      {| overall_sentiment :=
           if Py.Qltb 0.2 avg_score then "positive"
           else if Py.Qltb avg_score (-0.2) then "negative"
           else "neutral";
         average_score := avg_score;
         individual_scores := sentiment_scores;
         total_articles := length sentiment_scores |}
  end.

(** The dictionary [get_stock_news_summary] returns. *)
Record news_summary : Type := mkSummary {
  summary_symbol : string;
  news_available : bool;
  sentiment : string;
  sentiment_score : Q;
  summary_total_articles : nat;
  recent_headlines : list string;
  summary : string
}.

(** [get_stock_news_summary(symbol, company_name=None)]. *)
Definition get_stock_news_summary (self : t)
    (symbol : string) (company_name : option string) : news_summary :=
  let news_items := search_stock_news self symbol company_name 7 in
  match news_items with
  | [] =>
      {| summary_symbol := symbol;
         news_available := false;
         sentiment := "neutral";
         sentiment_score := 0;
         summary_total_articles := 0;
         recent_headlines := [];
         summary := "No recent news found" |}
  | _ =>
      let analysis := analyze_sentiment news_items in
      let headlines := map title (take 3 news_items) in
      {| summary_symbol := symbol;
         news_available := true;
         sentiment := overall_sentiment analysis;
         sentiment_score := average_score analysis;
         summary_total_articles := total_articles analysis;
         recent_headlines := headlines;
         summary := "Found " +:+ pretty (length news_items)
                    +:+ " recent articles with "
                    +:+ overall_sentiment analysis +:+ " sentiment" |}
  end.

(** The dictionary [market_queries] of [search_market_news]. *)
Definition market_queries : list (string * string) :=
  [ ("global", "global stock market news financial markets");
    ("us", "US stock market NYSE NASDAQ S&P 500 Dow Jones");
    ("eu", "European stock market FTSE DAX CAC 40 Euro Stoxx");
    ("asia", "Asian stock market Nikkei Hang Seng Shanghai Composite") ].

(** The [try] block of [search_market_news], for a configured service. *)
Definition search_market_news_try (self : t)
    (svc : cse_request -> Py.result cse_response)
    (market_type : string) (days_back : Z) : Py.result (list news_item) :=
  let query :=
    default (default "" (MockPortfolio.assoc_get "global" market_queries))
            (MockPortfolio.assoc_get market_type market_queries) in
  let date_restrict := "d" +:+ pretty days_back in
  result ← svc {| q := query; cx := search_engine_id self; num := 8;
                  dateRestrict := date_restrict; sort := "date" |};
  match items result with
  | None => mret []
  | Some its => mapM news_item_of its
  end.

(** [search_market_news(market_type="global", days_back=3)]. *)
Definition search_market_news (self : t)
    (market_type : string) (days_back : Z) : list news_item :=
  match service self with
  | None => []
  | Some svc =>
      Py.try_except
        (search_market_news_try self svc market_type days_back)
        (fun _ => [])
  end.

(** A value of [market_sentiments]: the keys ['sentiment'], ['score'] and
    ['articles_count']. *)
Record regional_sentiment : Type := mkRegional {
  regional_label : string;
  regional_score : Q;
  articles_count : nat
}.

(** The dictionary [get_market_sentiment] returns; [regional_sentiments]
    keeps the order in which the keys are inserted. *)
Record market_sentiment : Type := mkMarketSentiment {
  market_overall_sentiment : string;
  overall_score : Q;
  regional_sentiments : list (string * regional_sentiment);
  timestamp : string
}.

Definition market_types : list string := ["global"; "us"; "eu"; "asia"].

(** The body of the loop of [get_market_sentiment] for one market. *)
Definition regional_sentiment_of (self : t) (market : string)
    : regional_sentiment :=
  let news_items := search_market_news self market 3 in
  match news_items with
  | [] =>
      {| regional_label := "neutral"; regional_score := 0;
         articles_count := 0 |}
  | _ =>
      let analysis := analyze_sentiment news_items in
      {| regional_label := overall_sentiment analysis;
         regional_score := average_score analysis;
         articles_count := length news_items |}
  end.

(** [get_market_sentiment]; [now_isoformat] is
    [datetime.now().isoformat()]. *)
Definition get_market_sentiment (now_isoformat : string) (self : t)
    : market_sentiment :=
  let market_sentiments :=
    map (fun market => (market, regional_sentiment_of self market))
        market_types in
  let all_scores :=
    map regional_score
        (List.filter (fun data => (0 <? articles_count data)%nat)
                     (map snd market_sentiments)) in
  match all_scores with
  | [] =>
      {| market_overall_sentiment := "neutral"; overall_score := 0;
         regional_sentiments := market_sentiments;
         timestamp := now_isoformat |}
  | _ =>
      let overall :=
        (Py.sum all_scores / inject_Z (Z.of_nat (length all_scores)))%Q in
      {| market_overall_sentiment :=
           if Py.Qltb 0.1 overall then "positive"
           else if Py.Qltb overall (-0.1) then "negative"
           else "neutral";
         overall_score := overall;
         regional_sentiments := market_sentiments;
         timestamp := now_isoformat |}
  end.

End NewsAnalyzer.

(** ** The pandas operations of [investment_analyzer.py]

    A series is the list of its values, oldest first.  The operations follow
    the pandas definitions on values that may be NaN. *)

Module Pandas.

Abbreviation series := (list Py.float).

(** The series of a column of finite numbers. *)
Definition of_numbers (xs : list Q) : series := map Py.Fin xs.

(** [s.iloc[-1]]: raises on an empty series. *)
Definition iloc_last {A : Type} (s : list A) : Py.result A :=
  match last s with
  | Some x => Py.Ok x
  | None => Py.Raise "IndexError"
  end.

(** [s.diff()]: NaN at the first position, then the difference to the
    previous value. *)
Fixpoint diff_from (previous : Py.float) (s : series) : series :=
  match s with
  | [] => []
  | x :: rest => Py.fsub x previous :: diff_from x rest
  end.

Definition diff (s : series) : series :=
  match s with
  | [] => []
  | x :: rest => Py.NaN :: diff_from x rest
  end.

(** [s.where(cond, other)]: the value where the condition holds, [other]
    elsewhere; a comparison with NaN does not hold. *)
Definition where_ (cond : Py.float -> bool) (other : Py.float) (s : series)
    : series :=
  map (fun x => if cond x then x else other) s.

(** The sum of a window. *)
Definition fsum (s : series) : Py.float := foldl Py.fadd (Py.Fin 0) s.

(** [s.rolling(window=w).mean()]: NaN until [w] values are seen (and when
    the window holds a NaN), then the mean of the last [w] values. *)
Definition rolling_mean (window : nat) (s : series) : series :=
  imap
    (fun i _ =>
       if (window <=? S i)%nat then
         Py.fdivf (fsum (take window (drop (S i - window) s)))
                  (Py.Fin (inject_Z (Z.of_nat window)))
       else Py.NaN)
    s.

(** [s.mean()] of a column of finite numbers that is not empty. *)
Definition mean (xs : list Q) : Q :=
  (Py.sum xs / inject_Z (Z.of_nat (length xs)))%Q.

End Pandas.

(** ** [src/investment_analyzer.py] *)

Module InvestmentAnalyzer.

(** The dictionary [identify_unused_funds] returns. *)
Record UnusedFunds : Type := mkUnusedFunds {
  total_balance : Q;
  monthly_average : Q;
  unused_funds : Q;
  threshold : Q;
  available_for_investment : Q
}.

(** [identify_unused_funds]; [pm] is [self.portfolio_monitor].  No statement
    of the body raises on these values, so the [except] branch is absent. *)
Definition identify_unused_funds (now : Z) (pm : PortfolioMonitor.t)
    : option UnusedFunds :=
  let current_balance := PortfolioMonitor.get_cash_balance pm in
  let spending_patterns :=
    PortfolioMonitor.calculate_spending_patterns now pm 30 in
  let monthly_average :=
    match spending_patterns with
    | None => 1500%Q
    | Some sp => MockPortfolio.monthly_average sp
    end in
  let threshold :=
    (monthly_average * (1 + Config.UNUSED_BALANCE_THRESHOLD))%Q in
  let safety_net := (monthly_average * 1)%Q in
  let unused_funds := (current_balance - safety_net)%Q in
  if Qle_bool Config.MIN_INVESTMENT_AMOUNT unused_funds then
    Some {| total_balance := current_balance;
            monthly_average := monthly_average;
            unused_funds := unused_funds;
            threshold := threshold;
            available_for_investment := unused_funds |}
  else None.

(** *** Market data *)

(** The keys of [ticker.info] that the code reads; [None] is an absent key. *)
Record ticker_info : Type := mkInfo {
  longName : option string;
  info_sector : option string;
  info_industry : option string;
  marketCap : option Q;
  trailingPE : option Q;
  dividendYield : option Q
}.

(** What [yf.Ticker(symbol)] delivers: the rows of [history(period="30d")],
    oldest first, each with its [Close] and [Volume], and [info]. *)
Record ticker_data : Type := mkTicker {
  hist : list (Q * Q);
  info : ticker_info
}.

(** The market-data collaborator.  [ticker] is the fetch of history and info,
    which may raise; [annualized_volatility] stands for
    [hist['Close'].pct_change().std() * np.sqrt(252)], which pandas computes
    and which is NaN when fewer than two returns exist. *)
Record market : Type := mkMarket {
  ticker : string -> Py.result ticker_data;
  annualized_volatility : list Q -> Py.float
}.

(** *** Suggestions *)

(** A suggestion dictionary.  The first nineteen fields are the keys of the
    dictionary literal in [get_investment_suggestions]; the last five are the
    keys [enhance_suggestions_with_news] may add, [None] while absent.
    [pe_ratio] is [None] for the string ['N/A']. *)
Record Suggestion : Type := mkSuggestion {
  symbol : string;
  company_name : string;
  price : Q;
  currency : string;
  region : string;
  category : string;
  sector : string;
  industry : string;
  risk_level : string;
  daily_return : Py.float;
  volatility : Py.float;
  volume : Q;
  market_cap : Q;
  pe_ratio : option Q;
  dividend_yield : Q;
  is_growth_stock : bool;
  risk_warning : option string;
  shares_affordable : Z;
  investment_amount : Q;
  news_sentiment : option string;
  news_score : option Q;
  news_available : option bool;
  recent_headlines : option (list string);
  recommendation_strength : option Q
}.

Definition global_stocks : list (string * list string) :=
  [ ("US_BlueChip", ["AAPL"; "MSFT"; "GOOGL"; "AMZN"; "TSLA"; "NVDA"; "META";
                     "JPM"; "JNJ"; "PG"]);
    ("US_Growth", ["PLTR"; "ROKU"; "SQ"; "SHOP"; "ZM"; "NFLX"; "AMD"; "CRM";
                   "SNOW"; "COIN"]);
    ("EU_BlueChip", ["ASML"; "SAP"; "LVMH.PA"; "NVO"; "MC.PA"; "OR.PA";
                     "SAN.PA"; "TTE.PA"]);
    ("UK_BlueChip", ["SHEL.L"; "AZN.L"; "ULVR.L"; "BP.L"; "VOD.L"; "HSBA.L"]);
    ("Asia_BlueChip", ["TSM"; "BABA"; "7203.T"; "005930.KS"; "TM"; "6758.T"]);
    ("Canada_BlueChip", ["SHOP.TO"; "RY.TO"; "TD.TO"; "CNR.TO"; "SU.TO"]);
    ("Australia_BlueChip", ["CBA.AX"; "BHP.AX"; "CSL.AX"; "WBC.AX"]) ].

(** [global_stocks[name]]. *)
Definition stocks_of (name : string) : list string :=
  default [] (MockPortfolio.assoc_get name global_stocks).

(** The list [stock_symbols] that the function walks through. *)
Definition stock_symbols (include_growth_stocks : bool) : list string :=
  stocks_of "US_BlueChip"
  ++ take 4 (stocks_of "EU_BlueChip")
  ++ take 3 (stocks_of "UK_BlueChip")
  ++ take 4 (stocks_of "Asia_BlueChip")
  ++ (if include_growth_stocks then
        stocks_of "US_Growth"
        ++ take 3 (stocks_of "Canada_BlueChip")
        ++ take 2 (stocks_of "Australia_BlueChip")
      else []).

(** The loop over [global_stocks.items()] that sets [stock_category],
    [region] and [currency] from the first group that lists the symbol. *)
Fixpoint category_region_currency (sym : string)
    (groups : list (string * list string)) : string * string * string :=
  match groups with
  | [] => ("Blue Chip", "US", "USD")
  | (cat, stocks) :: rest =>
      if Py.str_in sym stocks then
        let stock_category :=
          if Py.contains "Growth" cat then "Growth" else "Blue Chip" in
        if Py.contains "EU" cat then (stock_category, "Europe", "EUR")
        else if Py.contains "UK" cat then (stock_category, "UK", "GBP")
        else if Py.contains "Asia" cat then (stock_category, "Asia", "Local")
        else if Py.contains "Canada" cat then (stock_category, "Canada", "CAD")
        else if Py.contains "Australia" cat then
          (stock_category, "Australia", "AUD")
        else (stock_category, "US", "USD")
      else category_region_currency sym rest
  end.

(** [base_risk]: 1 for a growth stock, plus 0.5 outside the US and the UK. *)
Definition base_risk (is_growth : bool) (reg : string) : Q :=
  let base := 0%Q in
  let base := if is_growth then (base + 1)%Q else base in
  if negb (Py.str_in reg ["US"; "UK"]) then (base + 0.5)%Q else base.

(** The risk tier of the suggestion path. *)
Definition classify_risk (vol : Py.float) (is_growth : bool) (reg : string)
    : string :=
  let base := base_risk is_growth reg in
  if Py.fltb vol (Py.Fin 0.2) then
    if Py.Qltb base 1 then "low" else "medium"
  else if Py.fltb vol (Py.Fin 0.3) then
    if Py.Qltb base 1.5 then "medium" else "high"
  else if Py.fltb vol (Py.Fin 0.5) then "high"
  else "extreme".

(** [risk_warning]: the growth warning, with the international warning
    appended to it (or to the empty string). *)
Definition warning_text (is_growth : bool) (reg : string) : option string :=
  let risk_warning :=
    if is_growth then
      Some ("Growth stocks can be volatile and may experience "
            +:+ "significant price swings.")
    else None in
  if negb (Py.str_in reg ["US"; "UK"]) then
    Some (default "" risk_warning
          +:+ " International investments may involve currency "
          +:+ "and political risks.")
  else risk_warning.

(** The body of the loop over [stock_symbols] once history and info are
    fetched: [Ok None] when the iteration ends in [continue] (empty
    history), a raise when a statement raises ([iloc[-2]] on a history of one
    row, [int] of the quotient by a zero price), and otherwise the
    dictionary to append. *)
Definition suggestion_of (m : market) (amount_usd : Q) (sym : string)
    (data : ticker_data) : Py.result (option Suggestion) :=
  match rev (hist data) with
  | [] => mret None
  | (current_price, last_volume) :: older =>
      previous_close ←
        match older with
        | [] => Py.Raise "IndexError"
        | (close, _) :: _ => mret close
        end;
      let daily := Py.fdiv (current_price - previous_close) previous_close in
      let vol := annualized_volatility m (map fst (hist data)) in
      let '(stock_category, reg, cur) :=
        category_region_currency sym global_stocks in
      let is_growth := String.eqb stock_category "Growth" in
      let level := classify_risk vol is_growth reg in
      let warning := warning_text is_growth reg in
      affordable ← Py.int (Py.fdiv amount_usd current_price);
      mret (Some
        {| symbol := sym;
           company_name := default sym (longName (info data));
           price := current_price;
           currency := cur;
           region := reg;
           category := stock_category;
           sector := default "N/A" (info_sector (info data));
           industry := default "N/A" (info_industry (info data));
           risk_level := level;
           daily_return := daily;
           volatility := vol;
           volume := last_volume;
           market_cap := default 0%Q (marketCap (info data));
           pe_ratio := trailingPE (info data);
           dividend_yield := default 0%Q (dividendYield (info data));
           is_growth_stock := is_growth;
           risk_warning := warning;
           shares_affordable := affordable;
           investment_amount := (inject_Z affordable * current_price)%Q;
           news_sentiment := None;
           news_score := None;
           news_available := None;
           recent_headlines := None;
           recommendation_strength := None |})
  end.

(** *** The object store

    Suggestions are dictionaries that the code mutates in place and passes
    around by reference.  A store holds the dictionaries allocated so far; an
    address is an index into it, and a Python list of suggestions is a list
    of addresses. *)
Abbreviation store := (list Suggestion).
Abbreviation addr := nat.

(** The suggestions a list of addresses denotes in a store. *)
Definition deref (h : store) (refs : list addr) : list Suggestion :=
  omap (fun r => h !! r) refs.

(** One iteration of the loop over [stock_symbols]: the [try] block fetches
    the data and builds the dictionary, which is allocated at a fresh address
    appended to [suggestions]; on [continue] and in the [except] block the
    iteration changes nothing. *)
Definition build_step (m : market) (amount_usd : Q)
    (acc : store * list addr) (sym : string) : store * list addr :=
  let '(h, suggestions) := acc in
  Py.try_except
    (data ← ticker m sym;
     built ← suggestion_of m amount_usd sym data;
     mret (match built with
           | None => (h, suggestions)
           | Some s => (h ++ [s], suggestions ++ [length h])
           end))
    (fun _ => (h, suggestions)).

Definition build_suggestions (m : market) (amount_usd : Q)
    (symbols : list string) : store * list addr :=
  foldl (build_step m amount_usd) ([], []) symbols.

(** *** Sorting *)

(** The sort key [(-x['daily_return'], x['region'], x['risk_level'])]. *)
Definition sort_key (x : Suggestion) : Py.float * string * string :=
  (Py.fneg (daily_return x), region x, risk_level x).

(** [k1 < k2] on key tuples: the first component that differs decides. *)
Definition key_lt (k1 k2 : Py.float * string * string) : bool :=
  let '(d1, r1, l1) := k1 in
  let '(d2, r2, l2) := k2 in
  if negb (Py.feqb d1 d2) then Py.fltb d1 d2
  else if negb (String.eqb r1 r2) then String.ltb r1 r2
  else String.ltb l1 l2.

(** One step of a stable insertion: [x] goes after every element that is not
    greater than it. *)
Fixpoint insert_sorted {A : Type} (lt : A -> A -> bool) (x : A) (l : list A)
    : list A :=
  match l with
  | [] => [x]
  | y :: rest => if lt x y then x :: y :: rest else y :: insert_sorted lt x rest
  end.

(** [list.sort]: a stable sort that compares with [<] only.  On keys that
    [<] orders totally, every stable sort returns this list. *)
Definition list_sort {A : Type} (lt : A -> A -> bool) (l : list A) : list A :=
  foldl (fun sorted x => insert_sorted lt x sorted) [] l.

(** [<] between the keys of two stored suggestions. *)
Definition addr_lt (h : store) (r1 r2 : addr) : bool :=
  match h !! r1, h !! r2 with
  | Some a, Some b => key_lt (sort_key a) (sort_key b)
  | _, _ => false
  end.

(** *** Enrichment with news *)

(** The [try] block of the loop of [enhance_suggestions_with_news] for one
    dictionary, and its [except] block when the news lookup raises. *)
Definition enhance_one
    (news_lookup : string -> string -> Py.result NewsAnalyzer.news_summary)
    (s : Suggestion) : Suggestion :=
  let with_news sentiment score available headlines strength :=
    {| symbol := symbol s;
       company_name := company_name s;
       price := price s;
       currency := currency s;
       region := region s;
       category := category s;
       sector := sector s;
       industry := industry s;
       risk_level := risk_level s;
       daily_return := daily_return s;
       volatility := volatility s;
       volume := volume s;
       market_cap := market_cap s;
       pe_ratio := pe_ratio s;
       dividend_yield := dividend_yield s;
       is_growth_stock := is_growth_stock s;
       risk_warning := risk_warning s;
       shares_affordable := shares_affordable s;
       investment_amount := investment_amount s;
       news_sentiment := Some sentiment;
       news_score := Some score;
       news_available := Some available;
       recent_headlines := Some headlines;
       recommendation_strength := strength |} in
  Py.try_except
    (news ← news_lookup (symbol s) (company_name s);
     let strength :=
       if String.eqb (NewsAnalyzer.sentiment news) "positive" then
         Some (Py.min (default 0.5%Q (recommendation_strength s) + 0.1) 1)
       else if String.eqb (NewsAnalyzer.sentiment news) "negative" then
         Some (Py.max (default 0.5%Q (recommendation_strength s) - 0.1) 0)
       else recommendation_strength s in
     mret (with_news (NewsAnalyzer.sentiment news)
                     (NewsAnalyzer.sentiment_score news)
                     (NewsAnalyzer.news_available news)
                     (NewsAnalyzer.recent_headlines news)
                     strength))
    (fun _ => with_news "neutral" 0%Q false [] (recommendation_strength s)).

(** The loop of [enhance_suggestions_with_news]: each dictionary is updated
    in the store and its address appended to [enhanced_suggestions].  An
    address outside the store does not occur in a run; the function passes
    it on. *)
Fixpoint enhance_loop
    (news_lookup : string -> string -> Py.result NewsAnalyzer.news_summary)
    (h : store) (suggestions enhanced_suggestions : list addr)
    : store * list addr :=
  match suggestions with
  | [] => (h, enhanced_suggestions)
  | r :: rest =>
      match h !! r with
      | Some s =>
          enhance_loop news_lookup (<[r := enhance_one news_lookup s]> h)
                       rest (enhanced_suggestions ++ [r])
      | None =>
          enhance_loop news_lookup h rest (enhanced_suggestions ++ [r])
      end
  end.

(** [enhance_suggestions_with_news(suggestions)].  [news_lookup] is the bound
    method [self.news_analyzer.get_stock_news_summary], whose call may
    raise. *)
Definition enhance_suggestions_with_news
    (news_lookup : string -> string -> Py.result NewsAnalyzer.news_summary)
    (h : store) (suggestions : list addr) : store * list addr :=
  enhance_loop news_lookup h suggestions [].

(** *** The ranking *)

(** [get_investment_suggestions(amount_usd, include_growth_stocks=False)]:
    the store at the end of the call and the list returned.  The refresh of
    [self.market_data] at the start has no bearing on the result and is left
    out; no statement outside the guarded loop body raises, so the outer
    [except] branch is absent. *)
Definition get_investment_suggestions_in_store (m : market)
    (news : NewsAnalyzer.t) (amount_usd : Q) (include_growth_stocks : bool)
    : store * list addr :=
  let '(h, suggestions) :=
    build_suggestions m amount_usd (stock_symbols include_growth_stocks) in
  let suggestions := list_sort (addr_lt h) suggestions in
  enhance_suggestions_with_news
    (fun sym name =>
       Py.Ok (NewsAnalyzer.get_stock_news_summary news sym (Some name)))
    h suggestions.

(** The suggestions that the caller of [get_investment_suggestions] reads. *)
Definition get_investment_suggestions (m : market)
    (news : NewsAnalyzer.t) (amount_usd : Q) (include_growth_stocks : bool)
    : list Suggestion :=
  let '(h, suggestions) :=
    get_investment_suggestions_in_store m news amount_usd
                                        include_growth_stocks in
  deref h suggestions.

(** *** The market overview *)

(** [self.market_indices]. *)
Definition market_indices : list (string * list string) :=
  [ ("US", ["^GSPC"; "^DJI"; "^IXIC"]);
    ("EU", ["^STOXX50E"; "^GDAXI"; "^FCHI"]);
    ("Asia", ["^N225"; "^HSI"; "000001.SS"]);
    ("UK", ["^FTSE"]);
    ("Canada", ["^GSPTSE"]);
    ("Australia", ["^AXJO"]) ].

(** A value of [market_data[region]]. *)
Record index_quote : Type := mkQuote {
  quote_price : Q;
  change : Q;
  change_percent : Py.float
}.

(** [self.market_data]: per region, the quotes of its indices in the order
    of insertion. *)
Abbreviation market_data_t := (list (string * list (string * index_quote))).

(** The body of the inner [try] of [get_market_overview] for one index;
    [index_history] is [yf.Ticker(index).history(period="1d")], the rows
    given with their [Open] and [Close]. *)
Definition index_quote_of (index_history : string -> Py.result (list (Q * Q)))
    (index : string) : Py.result (option (string * index_quote)) :=
  info ← index_history index;
  match last info with
  | None => mret None
  | Some (open, close) =>
      mret (Some (index,
                  {| quote_price := close;
                     change := (close - open)%Q;
                     change_percent :=
                       Py.fmul (Py.fdiv (close - open) open)
                               (Py.Fin 100) |}))
  end.

(** [get_market_overview]: an index whose fetch raises is skipped. *)
Definition get_market_overview
    (index_history : string -> Py.result (list (Q * Q))) : market_data_t :=
  map
    (fun '(region, indices) =>
       (region,
        omap (fun index =>
                Py.try_except (index_quote_of index_history index)
                              (fun _ => None))
             indices))
    market_indices.

(** A value of the dictionary [get_regional_market_performance] returns. *)
Record regional_performance : Type := mkRegionalPerformance {
  avg_change_percent : Py.float;
  regional_trend : string;
  indices_count : nat
}.

(** [get_regional_market_performance], on the value of
    [self.market_data]. *)
Definition get_regional_market_performance (market_data : market_data_t)
    : list (string * regional_performance) :=
  omap
    (fun '(region, _) =>
       match MockPortfolio.assoc_get region market_data with
       | None => None
       | Some quotes =>
           let total_change :=
             foldl (fun total '(_, data) =>
                      Py.fadd total (change_percent data))
                   (Py.Fin 0) quotes in
           let count := length quotes in
           if (0 <? count)%nat then
             Some (region,
                   {| avg_change_percent :=
                        Py.fdivf total_change
                                 (Py.Fin (inject_Z (Z.of_nat count)));
                      regional_trend :=
                        if Py.fltb (Py.Fin 0) total_change then "positive"
                        else "negative";
                      indices_count := count |})
           else None
       end)
    market_indices.

(** [get_market_sentiment_analysis]; the call of the news analyzer does not
    raise, and the [except] branch holds the default. *)
Definition get_market_sentiment_analysis (now_isoformat : string)
    (news : NewsAnalyzer.t) : NewsAnalyzer.market_sentiment :=
  Py.try_except
    (Py.Ok (NewsAnalyzer.get_market_sentiment now_isoformat news))
    (fun _ =>
       {| NewsAnalyzer.market_overall_sentiment := "neutral";
          NewsAnalyzer.overall_score := 0;
          NewsAnalyzer.regional_sentiments := [];
          NewsAnalyzer.timestamp := now_isoformat |}).

(** [_get_risk_level]. *)
Definition _get_risk_level (risk_score : Q) : string :=
  if Py.Qltb risk_score 0.1 then "low"
  else if Py.Qltb risk_score 0.3 then "medium"
  else "high".

(** *** The analysis of one stock *)

Module Analysis.

(** The dictionary [analyze_investment_opportunity] builds.  [beta] is
    [None] when the key holds no number (the default ['N/A']); [risk_level]
    and [recommendation] are [None] until the two keys are added. *)
Record t : Type := mkAnalysis {
  symbol : string;
  company_name : string;
  current_price : Q;
  shares_affordable : Z;
  investment_amount : Q;
  trend : string;
  rsi : Py.float;
  volatility : Py.float;
  volume_trend : string;
  market_cap : Q;
  pe_ratio : option Q;
  dividend_yield : Q;
  beta : option Q;
  sector : string;
  industry : string;
  risk_level : option string;
  recommendation : option string
}.

(** [analysis['risk_level'] = level]. *)
Definition set_risk_level (analysis : t) (level : string) : t :=
  {| symbol := symbol analysis;
     company_name := company_name analysis;
     current_price := current_price analysis;
     shares_affordable := shares_affordable analysis;
     investment_amount := investment_amount analysis;
     trend := trend analysis;
     rsi := rsi analysis;
     volatility := volatility analysis;
     volume_trend := volume_trend analysis;
     market_cap := market_cap analysis;
     pe_ratio := pe_ratio analysis;
     dividend_yield := dividend_yield analysis;
     beta := beta analysis;
     sector := sector analysis;
     industry := industry analysis;
     risk_level := Some level;
     recommendation := recommendation analysis |}.

(** [analysis['recommendation'] = label]. *)
Definition set_recommendation (analysis : t) (label : string) : t :=
  {| symbol := symbol analysis;
     company_name := company_name analysis;
     current_price := current_price analysis;
     shares_affordable := shares_affordable analysis;
     investment_amount := investment_amount analysis;
     trend := trend analysis;
     rsi := rsi analysis;
     volatility := volatility analysis;
     volume_trend := volume_trend analysis;
     market_cap := market_cap analysis;
     pe_ratio := pe_ratio analysis;
     dividend_yield := dividend_yield analysis;
     beta := beta analysis;
     sector := sector analysis;
     industry := industry analysis;
     risk_level := risk_level analysis;
     recommendation := Some label |}.

End Analysis.

(** [_calculate_rsi(prices, period=14)].  The sign of a zero average loss
    does not reach the result: a quotient of either infinity gives 100. *)
Definition _calculate_rsi (prices : Pandas.series) (period : nat)
    : Pandas.series :=
  let delta := Pandas.diff prices in
  let gain :=
    Pandas.rolling_mean period
      (Pandas.where_ (fun d => Py.fltb (Py.Fin 0) d) (Py.Fin 0) delta) in
  let loss :=
    Pandas.rolling_mean period
      (map Py.fneg
           (Pandas.where_ (fun d => Py.fltb d (Py.Fin 0)) (Py.Fin 0) delta)) in
  let rs := zip_with Py.fdivf gain loss in
  map (fun r => Py.fsub (Py.Fin 100)
                        (Py.fdivf (Py.Fin 100) (Py.fadd (Py.Fin 1) r)))
      rs.

(** The value of [risk_score] at the end of [_assess_risk]. *)
Definition risk_score (analysis : Analysis.t) : Z :=
  let risk_score := 0 in
  let risk_score :=
    risk_score
    + (if String.eqb (Analysis.trend analysis) "bullish" then 1 else 2) in
  let risk_score :=
    if Py.fltb (Py.Fin 70) (Analysis.rsi analysis) then risk_score + 2
    else if Py.fltb (Analysis.rsi analysis) (Py.Fin 30) then risk_score + 0
    else risk_score + 1 in
  let risk_score :=
    if Py.fltb (Py.Fin 0.4) (Analysis.volatility analysis) then risk_score + 3
    else if Py.fltb (Py.Fin 0.25) (Analysis.volatility analysis)
    then risk_score + 2
    else risk_score + 1 in
  let risk_score :=
    risk_score
    + (if String.eqb (Analysis.volume_trend analysis) "increasing"
       then 1 else 2) in
  match Analysis.beta analysis with
  | Some beta =>
      if Py.Qltb 1.5 beta then risk_score + 2
      else if Py.Qltb 1.0 beta then risk_score + 1
      else risk_score
  | None => risk_score
  end.

(** [_assess_risk(analysis)]. *)
Definition _assess_risk (analysis : Analysis.t) : string :=
  let risk_score := risk_score analysis in
  if risk_score <=? 4 then "low"
  else if risk_score <=? 7 then "medium"
  else if risk_score <=? 10 then "high"
  else "extreme".

(** The value of [score] at the end of [_generate_recommendation]. *)
Definition recommendation_score (analysis : Analysis.t) : Z :=
  let score := 0 in
  let score :=
    if String.eqb (Analysis.trend analysis) "bullish" then score + 2
    else score in
  let score :=
    if Py.fltb (Analysis.rsi analysis) (Py.Fin 30) then score + 2
    else if Py.fleb (Py.Fin 30) (Analysis.rsi analysis)
            && Py.fleb (Analysis.rsi analysis) (Py.Fin 70)
    then score + 1
    else score in
  let score :=
    if String.eqb (Analysis.volume_trend analysis) "increasing" then score + 1
    else score in
  if Py.fltb (Analysis.volatility analysis) (Py.Fin 0.25) then score + 1
  else score.

(** [_generate_recommendation(analysis)]. *)
Definition _generate_recommendation (analysis : Analysis.t) : string :=
  let score := recommendation_score analysis in
  if 6 <=? score then "Strong Buy"
  else if 4 <=? score then "Buy"
  else if 2 <=? score then "Hold"
  else "Sell".

(** What [yf.Ticker(symbol)] delivers to [analyze_investment_opportunity]:
    the rows of [history(period="90d")], oldest first, each with its [Close]
    and [Volume]; the keys of [info] as in [ticker_info]; and the key
    ['beta'] of [info], [None] when it is absent or holds no number. *)
Record ticker_data_90d : Type := mkTicker90 {
  hist_90d : list (Q * Q);
  info_90d : ticker_info;
  info_beta : option Q
}.

(** The [try] block of [analyze_investment_opportunity]; [m] supplies the
    volatility that pandas computes and [ticker_90d] the fetch. *)
Definition analyze_investment_opportunity_try (m : market)
    (ticker_90d : string -> Py.result ticker_data_90d)
    (sym : string) (amount : Q) : Py.result (option Analysis.t) :=
  data ← ticker_90d sym;
  let hist := hist_90d data in
  if MockPortfolio.is_empty hist then mret None
  else
    let closes := map fst hist in
    let volumes := map snd hist in
    let sma_7 := Pandas.rolling_mean 7 (Pandas.of_numbers closes) in
    let sma_30 := Pandas.rolling_mean 30 (Pandas.of_numbers closes) in
    let rsi := _calculate_rsi (Pandas.of_numbers closes) 14 in
    current_price ← Pandas.iloc_last closes;
    shares_affordable ← Py.int (Py.fdiv amount current_price);
    last_sma_7 ← Pandas.iloc_last sma_7;
    last_sma_30 ← Pandas.iloc_last sma_30;
    last_rsi ← Pandas.iloc_last rsi;
    last_volume ← Pandas.iloc_last volumes;
    let analysis :=
      {| Analysis.symbol := sym;
         Analysis.company_name := default sym (longName (info_90d data));
         Analysis.current_price := current_price;
         Analysis.shares_affordable := shares_affordable;
         Analysis.investment_amount :=
           (inject_Z shares_affordable * current_price)%Q;
         Analysis.trend :=
           if Py.fltb last_sma_30 last_sma_7 then "bullish" else "bearish";
         Analysis.rsi := last_rsi;
         Analysis.volatility := annualized_volatility m closes;
         Analysis.volume_trend :=
           if Py.Qltb (Pandas.mean volumes) last_volume then "increasing"
           else "decreasing";
         Analysis.market_cap := default 0%Q (marketCap (info_90d data));
         Analysis.pe_ratio := trailingPE (info_90d data);
         Analysis.dividend_yield :=
           default 0%Q (dividendYield (info_90d data));
         Analysis.beta := info_beta data;
         Analysis.sector := default "N/A" (info_sector (info_90d data));
         Analysis.industry := default "N/A" (info_industry (info_90d data));
         Analysis.risk_level := None;
         Analysis.recommendation := None |} in
    let analysis := Analysis.set_risk_level analysis (_assess_risk analysis) in
    let analysis :=
      Analysis.set_recommendation analysis
                                  (_generate_recommendation analysis) in
    mret (Some analysis).

(** [analyze_investment_opportunity(symbol, amount)]. *)
Definition analyze_investment_opportunity (m : market)
    (ticker_90d : string -> Py.result ticker_data_90d)
    (sym : string) (amount : Q) : option Analysis.t :=
  Py.try_except (analyze_investment_opportunity_try m ticker_90d sym amount)
                (fun _ => None).

End InvestmentAnalyzer.

(** ** [src/voice_interaction.py]: the selection of the stocks a call script
    names *)

Module VoiceInteraction.

(** The two lists [generate_call_script] filters out of [suggestions]. *)
Definition blue_chip_stocks (suggestions : list InvestmentAnalyzer.Suggestion)
    : list InvestmentAnalyzer.Suggestion :=
  List.filter
    (fun s => String.eqb (InvestmentAnalyzer.category s) "blue_chip")
    suggestions.

Definition growth_stocks (suggestions : list InvestmentAnalyzer.Suggestion)
    : list InvestmentAnalyzer.Suggestion :=
  List.filter
    (fun s => String.eqb (InvestmentAnalyzer.category s) "growth")
    suggestions.

(** The line feed that separates the lines of the two texts. *)
Definition newline : string := String (ascii_of_nat 10) EmptyString.

(** [blue_chip_text] and [growth_text] of [generate_call_script].  The line
    of one suggestion is an f-string over its fields that formats floats to
    two decimals; [numbered_line] and [bullet_line] stand for the two
    f-strings. *)
Definition blue_chip_text
    (numbered_line : nat -> InvestmentAnalyzer.Suggestion -> string)
    (suggestions : list InvestmentAnalyzer.Suggestion) : string :=
  Py.join newline (imap numbered_line (take 4 (blue_chip_stocks suggestions))).

Definition growth_text
    (bullet_line : InvestmentAnalyzer.Suggestion -> string)
    (suggestions : list InvestmentAnalyzer.Suggestion) : string :=
  Py.join newline (map bullet_line (take 3 (growth_stocks suggestions))).

End VoiceInteraction.

(** ** [src/main.py] *)

Module Main.

(** The amount [handle_call_completion] passes to the confirmation and to
    the analysis of the preferred stock: [None] when
    [identify_unused_funds] returns [None]. *)
Definition offered_amount (now : Z) (pm : PortfolioMonitor.t) : option Q :=
  match InvestmentAnalyzer.identify_unused_funds now pm with
  | Some unused_funds_data =>
      let unused_funds :=
        InvestmentAnalyzer.unused_funds unused_funds_data in
      Some (Py.min unused_funds Config.MAX_INVESTMENT_AMOUNT)
  | None => None
  end.



End Main.

(** ** [call_now.py] *)

Module CallNow.

(** [check_and_call].  The function builds its own analyzer, whose monitor
    is a new [PortfolioMonitor()]: [clock] and [draws] are the clock
    readings and the random draws of that construction, and [now] is the
    reading of [identify_unused_funds].  [generate_script] and [make_call]
    are as in [Main.check_unused_funds]; an empty string counts as no
    result, as [None] does. *)
Definition check_and_call (clock : nat -> Z)
    (draws : nat -> MockPortfolio.random_draws) (now : Z)
    (m : InvestmentAnalyzer.market) (news : NewsAnalyzer.t)
    (generate_script :
       list InvestmentAnalyzer.Suggestion -> Q -> option string)
    (make_call : string -> option string) : bool :=
  let portfolio_monitor := PortfolioMonitor.__init__ clock draws in
  match InvestmentAnalyzer.identify_unused_funds now portfolio_monitor with
  | Some unused_funds_data =>
      if Py.Qltb 0 (InvestmentAnalyzer.unused_funds unused_funds_data) then
        let unused_funds :=
          InvestmentAnalyzer.unused_funds unused_funds_data in
        let opportunities :=
          InvestmentAnalyzer.get_investment_suggestions m news unused_funds
                                                        false in
        if MockPortfolio.is_empty opportunities then false
        else
          match generate_script opportunities unused_funds with
          | Some script =>
              if String.eqb script "" then false
              else
                match make_call script with
                | Some call_id => negb (String.eqb call_id "")
                | None => false
                end
          | None => false
          end
      else false
  | None => false
  end.

End CallNow.

(** * Vocabulary of the statements and sample inputs *)

Module SampleTime.

(** 2024-01-15 12:00, a Monday in ISO week 3, and the days around it. *)
Definition sample_now : Z :=
  (738900 - 1) * Datetime.MICROS_PER_DAY + 12 * 3600 * 1000000.

Definition days_before (n : Z) : Z :=
  sample_now - Datetime.timedelta_days n.

End SampleTime.

Module LedgerSpec.
Import MockPortfolio.

(** Every share count in the holdings is non-negative. *)
Definition holdings_nonneg (p : MockPortfolio.t) : Prop :=
  forall k v, holdings p !! k = Some v -> (0 <= v)%Q.

(** The price a call works with: the argument, or the mock quote. *)
Definition price_used (sym : string) (prc : option Q) : Q :=
  match prc with None => _get_mock_price sym | Some p => p end.

(** A ledger with $1000 of cash and two shares of AAPL. *)
Definition ledger_two_aapl : MockPortfolio.t :=
  {| initial_cash := 1000; cash_balance := 1000;
     holdings := {[ "AAPL" := 2%Q ]};
     transactions := [];
     _last_reset_time := SampleTime.days_before 40 |}.

End LedgerSpec.

Module SpendingSpec.
Import MockPortfolio.

(** The qualifying transactions of the window: in-window rows whose action is
    [buy] or [dividend_reinvest]. *)
Definition spending_in_window (now : Z) (self : MockPortfolio.t) (days : Z)
    : list Transaction :=
  List.filter
    (fun tx => String.eqb (action tx) "buy"
               || String.eqb (action tx) "dividend_reinvest")
    (get_transaction_history now self days).

Definition fallback_patterns : SpendingPatterns :=
  {| daily_average := 50; weekly_average := 350; monthly_average := 1500 |}.

(** A ledger whose only transaction is a sale, made two days ago. *)
Definition ledger_one_sale : MockPortfolio.t :=
  {| initial_cash := 1000; cash_balance := 1100;
     holdings := ∅;
     transactions :=
       [ {| id := "manual_0"; symbol := "AAPL"; action := "sell";
            shares := 1; price := 100;
            timestamp := SampleTime.days_before 2;
            total_value := 100 |} ];
     _last_reset_time := SampleTime.days_before 40 |}.

(** A ledger whose only transaction is a buy of $300, made two days ago. *)
Definition ledger_one_buy : MockPortfolio.t :=
  {| initial_cash := 1000; cash_balance := 700;
     holdings := {[ "AAPL" := 3%Q ]};
     transactions :=
       [ {| id := "manual_0"; symbol := "AAPL"; action := "buy";
            shares := 3; price := 100;
            timestamp := SampleTime.days_before 2;
            total_value := 300 |} ];
     _last_reset_time := SampleTime.days_before 40 |}.

(** A ledger with a buy of $300 on Thursday 2024-01-11, buys of $100 and
    $50 and a sale on Saturday 2024-01-13, and a buy 45 days back. *)
Definition ledger_week : MockPortfolio.t :=
  {| initial_cash := 1000; cash_balance := 650;
     holdings := {[ "AAPL" := 3%Q ]};
     transactions :=
       [ {| id := "initial_AAPL"; symbol := "AAPL"; action := "buy";
            shares := 1; price := 900;
            timestamp := SampleTime.days_before 45; total_value := 900 |};
         {| id := "manual_1"; symbol := "AAPL"; action := "buy";
            shares := 3; price := 100;
            timestamp := SampleTime.days_before 4; total_value := 300 |};
         {| id := "manual_2"; symbol := "MSFT"; action := "buy";
            shares := 1; price := 100;
            timestamp := SampleTime.days_before 2; total_value := 100 |};
         {| id := "manual_3"; symbol := "MSFT"; action := "sell";
            shares := 1; price := 100;
            timestamp := SampleTime.days_before 2; total_value := 100 |};
         {| id := "manual_4"; symbol := "SPY"; action := "buy";
            shares := 1; price := 50;
            timestamp := SampleTime.days_before 2; total_value := 50 |} ];
     _last_reset_time := SampleTime.days_before 60 |}.

End SpendingSpec.

Module IdleFundsSpec.
Import InvestmentAnalyzer.

(** The monthly average [identify_unused_funds] works with: the pattern's,
    or 1500 when there is no pattern. *)
Definition monthly_average_used (now : Z) (pm : PortfolioMonitor.t) : Q :=
  match PortfolioMonitor.calculate_spending_patterns now pm 30 with
  | None => 1500%Q
  | Some sp => MockPortfolio.monthly_average sp
  end.

(** A monitor over a ledger with $10000 of cash and no transactions. *)
Definition monitor_ten_thousand : PortfolioMonitor.t :=
  {| PortfolioMonitor.mock_portfolio :=
       {| MockPortfolio.initial_cash := 10000;
          MockPortfolio.cash_balance := 10000;
          MockPortfolio.holdings := ∅;
          MockPortfolio.transactions := [];
          MockPortfolio._last_reset_time := SampleTime.days_before 40 |} |}.

End IdleFundsSpec.

Module NewsSpec.
Import NewsAnalyzer.

(** The summary of a symbol without news. *)
Definition no_news_summary (symbol : string) : news_summary :=
  {| summary_symbol := symbol;
     news_available := false;
     sentiment := "neutral";
     sentiment_score := 0;
     summary_total_articles := 0;
     recent_headlines := [];
     summary := "No recent news found" |}.

(** An analyzer whose search API is not configured. *)
Definition analyzer_without_service : NewsAnalyzer.t :=
  {| search_engine_id := None; service := None |}.

(** An analyzer whose search client raises on every request. *)
Definition analyzer_with_failing_service : NewsAnalyzer.t :=
  {| search_engine_id := Some "engine";
     service := Some (fun _ => Py.Raise "HttpError") |}.

(** Two headlines, one clearly favourable and one mixed. *)
Definition sample_news : list news_item :=
  [ {| title := "Apple shares SURGE on strong profit growth";
       snippet := "Analysts upgrade the stock after earnings beat";
       link := "https://example.com/a"; source := "example.com";
       date := "2024-01-15" |};
    {| title := "Gain and loss in a quiet session";
       snippet := ""; link := ""; source := ""; date := "" |} ].

End NewsSpec.

Module RankingSpec.
Import InvestmentAnalyzer.

(** Region outside the US and the UK. *)
Definition foreign (reg : string) : Prop := reg <> "US" /\ reg <> "UK".

(** The two suggestions agree on every key of the dictionary literal of
    [get_investment_suggestions]. *)
Definition same_base_fields (s s' : Suggestion) : Prop :=
  symbol s' = symbol s
  /\ company_name s' = company_name s
  /\ price s' = price s
  /\ currency s' = currency s
  /\ region s' = region s
  /\ category s' = category s
  /\ sector s' = sector s
  /\ industry s' = industry s
  /\ risk_level s' = risk_level s
  /\ daily_return s' = daily_return s
  /\ volatility s' = volatility s
  /\ volume s' = volume s
  /\ market_cap s' = market_cap s
  /\ pe_ratio s' = pe_ratio s
  /\ dividend_yield s' = dividend_yield s
  /\ is_growth_stock s' = is_growth_stock s
  /\ risk_warning s' = risk_warning s
  /\ shares_affordable s' = shares_affordable s
  /\ investment_amount s' = investment_amount s.

(** The four news keys are present. *)
Definition has_news_fields (s : Suggestion) : Prop :=
  is_Some (news_sentiment s) /\ is_Some (news_score s)
  /\ is_Some (news_available s) /\ is_Some (recent_headlines s).

(** What enrichment may change of a suggestion: the keys of the dictionary
    literal stay, and news keys that were present stay present. *)
Definition enriched_from (s s' : Suggestion) : Prop :=
  same_base_fields s s' /\ (has_news_fields s -> has_news_fields s').

(** The order the code establishes between a suggestion [a] and its
    successor [b]: daily return descending; on equal returns region
    ascending as a string; on equal regions too, risk label ascending as a
    string. *)
Definition code_order (a b : Suggestion) : Prop :=
  Py.fleb (daily_return b) (daily_return a) = true
  /\ (Py.feqb (daily_return a) (daily_return b) = true ->
      String.leb (region a) (region b) = true
      /\ (region a = region b ->
          String.leb (risk_level a) (risk_level b) = true)).

(** Position of a risk label in the ordering low < medium < high < extreme. *)
Definition risk_rank (level : string) : option nat :=
  if String.eqb level "low" then Some 0%nat
  else if String.eqb level "medium" then Some 1%nat
  else if String.eqb level "high" then Some 2%nat
  else if String.eqb level "extreme" then Some 3%nat
  else None.

(** [a] precedes or equals [b] in the ordering low < medium < high < extreme. *)
Definition risk_precedes (a b : string) : Prop :=
  exists i j, risk_rank a = Some i /\ risk_rank b = Some j /\ (i <= j)%nat.

(** The order the specification asks for between a suggestion [a] and its
    successor [b]: as [code_order], but with risk labels compared by
    [risk_precedes]. *)
Definition spec_order (a b : Suggestion) : Prop :=
  Py.fleb (daily_return b) (daily_return a) = true
  /\ (Py.feqb (daily_return a) (daily_return b) = true ->
      String.leb (region a) (region b) = true
      /\ (region a = region b ->
          risk_precedes (risk_level a) (risk_level b))).

(** The relation a sort by [lt] leaves between neighbours: the later one is
    not smaller than the earlier one. *)
Definition not_smaller {A : Type} (lt : A -> A -> bool) (a b : A) : Prop :=
  lt b a = false.

(** The same relation between two suggestions, on their sort keys. *)
Definition not_after (a b : Suggestion) : Prop :=
  key_lt (sort_key b) (sort_key a) = false.

Definition sample_info : ticker_info :=
  {| longName := None; info_sector := None; info_industry := None;
     marketCap := None; trailingPE := None; dividendYield := None |}.

(** A market in which only two US blue chips have data, both with a daily
    return of zero: the first did not move within the window, the second
    moved by 3% and back.
    The volatility function returns the figures pandas gives for these two
    histories, rounded to two digits. *)
Definition sample_market : market :=
  {| ticker := fun sym =>
       if String.eqb sym "AAPL" then
         Py.Ok {| hist := [ (100, 1000); (100, 1000); (100, 1000);
                            (100, 1000) ]%Q;
                  info := sample_info |}
       else if String.eqb sym "MSFT" then
         Py.Ok {| hist := [ (50, 2000); (51.5, 2000); (50, 2000);
                            (50, 2000) ]%Q;
                  info := sample_info |}
       else Py.Raise "no data";
     annualized_volatility := fun closes =>
       match closes with
       | c :: _ => if Qeq_bool c 100 then Py.Fin 0 else Py.Fin 0.47
       | [] => Py.NaN
       end |}.

(** A store holding one suggestion, built from the sample market. *)
Definition sample_store : store :=
  (build_suggestions sample_market 1000 ["AAPL"]).1.

(** A news lookup that reports good news for every symbol. *)
Definition good_news_lookup (sym name : string)
    : Py.result NewsAnalyzer.news_summary :=
  Py.Ok {| NewsAnalyzer.summary_symbol := sym;
           NewsAnalyzer.news_available := true;
           NewsAnalyzer.sentiment := "positive";
           NewsAnalyzer.sentiment_score := 0.6;
           NewsAnalyzer.summary_total_articles := 1;
           NewsAnalyzer.recent_headlines := ["Shares rally"];
           NewsAnalyzer.summary :=
             "Found 1 recent articles with positive sentiment" |}.

(** A news lookup that raises for every symbol. *)
Definition failing_news_lookup (sym name : string)
    : Py.result NewsAnalyzer.news_summary :=
  Py.Raise "ConnectionError".

End RankingSpec.

Module LedgerOps.
Import MockPortfolio.

(** One call of [add_transaction]: the clock reading and the arguments. *)
Record operation : Type := mkOperation {
  op_now : Z;
  op_symbol : string;
  op_action : string;
  op_shares : Q;
  op_price : option Q
}.

(** The ledger after a sequence of calls of [add_transaction]. *)
Definition apply_operations (self : MockPortfolio.t) (ops : list operation)
    : MockPortfolio.t :=
  foldl (fun p op =>
           add_transaction (op_now op) p (op_symbol op) (op_action op)
                           (op_shares op) (op_price op))
        self ops.

(** The transactions a sequence of calls has appended to the log. *)
Definition appended (self final : MockPortfolio.t) : list Transaction :=
  drop (length (transactions self)) (transactions final).

End LedgerOps.

Module DiversificationSpec.
Import MockPortfolio.






End DiversificationSpec.

Module FreshSpec.
Import MockPortfolio.

(** The draws lie in the ranges of the [np.random] calls: a symbol of the
    list of choices, one or two shares ([randint(1, 3)] excludes 3), and a
    price factor between 0.95 and 1.05. *)
Definition draws_in_range (draws : nat -> random_draws) : Prop :=
  forall i,
    trade_symbol (draws i) ∈ ["AAPL"; "MSFT"; "GOOGL"; "SPY"]
    /\ (1 <= trade_shares (draws i) <= 2)%Q
    /\ (0.95 <= price_factor (draws i) <= 1.05)%Q.

(** The test of [calculate_spending_patterns] on the action. *)
Definition is_spending (tx : Transaction) : bool :=
  String.eqb (action tx) "buy" || String.eqb (action tx) "dividend_reinvest".

(** Draws that log a purchase of one AAPL share at the mock price in
    every round, and a clock that advances by one microsecond per
    reading. *)
Definition sample_draws (i : nat) : MockPortfolio.random_draws :=
  {| MockPortfolio.dividend_draw := 0.5;
     MockPortfolio.dividend_amount := 50;
     MockPortfolio.trade_draw := 0.9;
     MockPortfolio.trade_symbol := "AAPL";
     MockPortfolio.trade_shares := 1;
     MockPortfolio.trade_action := "buy";
     MockPortfolio.price_factor := 1 |}.

Definition sample_clock (k : nat) : Z := SampleTime.sample_now + Z.of_nat k.

End FreshSpec.

Module SentimentSpec.
Import NewsAnalyzer.

(** The label of a score agrees with its sign. *)
Definition label_matches_sign (sc : scored_item) : Prop :=
  (-1 <= score sc <= 1)%Q
  /\ (scored_sentiment sc = "positive" /\ 0 < score sc
      \/ scored_sentiment sc = "negative" /\ score sc < 0
      \/ scored_sentiment sc = "neutral" /\ score sc == 0)%Q.

(** A region without articles is reported neutral with score zero, and
    every regional score lies between -1 and 1. *)
Definition regional_entry_ok (entry : string * regional_sentiment) : Prop :=
  (-1 <= regional_score entry.2 <= 1)%Q
  /\ (articles_count entry.2 = 0%nat ->
      regional_label entry.2 = "neutral" /\ regional_score entry.2 = 0%Q).

(** A search service that answers every request with the same two items,
    the second with an empty list of meta tags. *)
Definition sample_items : list NewsAnalyzer.cse_item :=
  [ {| NewsAnalyzer.item_title := Some "Strong growth";
       NewsAnalyzer.item_snippet := None;
       NewsAnalyzer.item_link := None;
       NewsAnalyzer.item_displayLink := None;
       NewsAnalyzer.item_metatags := None |};
    {| NewsAnalyzer.item_title := Some "Weak quarter";
       NewsAnalyzer.item_snippet := None;
       NewsAnalyzer.item_link := None;
       NewsAnalyzer.item_displayLink := None;
       NewsAnalyzer.item_metatags := Some [] |} ].

Definition sample_service (request : NewsAnalyzer.cse_request)
    : Py.result NewsAnalyzer.cse_response :=
  Py.Ok {| NewsAnalyzer.items := Some sample_items |}.

Definition analyzer_with_sample_service : NewsAnalyzer.t :=
  {| NewsAnalyzer.search_engine_id := Some "engine";
     NewsAnalyzer.service := Some sample_service |}.

End SentimentSpec.

Module AnalysisSpec.
Import InvestmentAnalyzer.

(** The conditions [_assess_risk] and [_generate_recommendation] test. *)
Definition bullish (a : Analysis.t) : Prop := Analysis.trend a = "bullish".
Definition volume_increasing (a : Analysis.t) : Prop :=
  Analysis.volume_trend a = "increasing".
Definition oversold (a : Analysis.t) : Prop :=
  Py.fltb (Analysis.rsi a) (Py.Fin 30) = true.
Definition overbought (a : Analysis.t) : Prop :=
  Py.fltb (Py.Fin 70) (Analysis.rsi a) = true.
Definition calm (a : Analysis.t) : Prop :=
  Py.fltb (Analysis.volatility a) (Py.Fin 0.25) = true.
Definition turbulent (a : Analysis.t) : Prop :=
  Py.fltb (Py.Fin 0.4) (Analysis.volatility a) = true.
Definition beta_above (bound : Q) (a : Analysis.t) : Prop :=
  exists beta, Analysis.beta a = Some beta /\ (bound < beta)%Q.

(** The points each factor adds to the risk score. *)
Definition trend_risk (a : Analysis.t) : Z :=
  if String.eqb (Analysis.trend a) "bullish" then 1 else 2.
Definition rsi_risk (a : Analysis.t) : Z :=
  if Py.fltb (Py.Fin 70) (Analysis.rsi a) then 2
  else if Py.fltb (Analysis.rsi a) (Py.Fin 30) then 0 else 1.
Definition volatility_risk (a : Analysis.t) : Z :=
  if Py.fltb (Py.Fin 0.4) (Analysis.volatility a) then 3
  else if Py.fltb (Py.Fin 0.25) (Analysis.volatility a) then 2 else 1.
Definition volume_risk (a : Analysis.t) : Z :=
  if String.eqb (Analysis.volume_trend a) "increasing" then 1 else 2.
Definition beta_risk (a : Analysis.t) : Z :=
  match Analysis.beta a with
  | Some beta => if Py.Qltb 1.5 beta then 2 else if Py.Qltb 1.0 beta then 1 else 0
  | None => 0
  end.

(** The points each factor adds to the recommendation score. *)
Definition trend_merit (a : Analysis.t) : Z :=
  if String.eqb (Analysis.trend a) "bullish" then 2 else 0.
Definition rsi_merit (a : Analysis.t) : Z :=
  if Py.fltb (Analysis.rsi a) (Py.Fin 30) then 2
  else if Py.fleb (Py.Fin 30) (Analysis.rsi a)
          && Py.fleb (Analysis.rsi a) (Py.Fin 70) then 1
  else 0.
Definition volume_merit (a : Analysis.t) : Z :=
  if String.eqb (Analysis.volume_trend a) "increasing" then 1 else 0.
Definition volatility_merit (a : Analysis.t) : Z :=
  if Py.fltb (Analysis.volatility a) (Py.Fin 0.25) then 1 else 0.

End AnalysisSpec.

Module SeriesSpec.

(** A float that is a finite number not below zero. *)
Definition fin_nonneg (x : Py.float) : Prop :=
  exists q, x = Py.Fin q /\ (0 <= q)%Q.

(** A float that is finite. *)
Definition finite (x : Py.float) : Prop := exists q, x = Py.Fin q.

(** A float that is NaN or a percentage. *)
Definition nan_or_percentage (x : Py.float) : Prop :=
  x = Py.NaN \/ exists q, x = Py.Fin q /\ (0 <= q <= 100)%Q.

End SeriesSpec.

Module OverviewSpec.
Import InvestmentAnalyzer.

(** The quotes [get_market_overview] stores for the indices of a region. *)
Definition quotes_of (index_history : string -> Py.result (list (Q * Q)))
    (indices : list string) : list (string * index_quote) :=
  omap (fun index =>
          Py.try_except (index_quote_of index_history index) (fun _ => None))
       indices.

(** The trend of an entry says whether its average is above zero. *)
Definition trend_matches_average (entry : string * regional_performance)
    : Prop :=
  (1 <= indices_count entry.2)%nat
  /\ regional_trend entry.2
     = if Py.fltb (Py.Fin 0) (avg_change_percent entry.2) then "positive"
       else "negative".

End OverviewSpec.

Module SuggestionSpec.
Import InvestmentAnalyzer.

(** The dictionary one iteration of the loop over [stock_symbols] appends,
    [None] when the iteration appends nothing. *)
Definition built_suggestion (m : market) (amount_usd : Q) (sym : string)
    : option Suggestion :=
  Py.try_except
    (data ← ticker m sym; suggestion_of m amount_usd sym data)
    (fun _ => None).

(** The dictionaries the loop appends, in the order of the symbols. *)
Definition built_suggestions (m : market) (amount_usd : Q)
    (symbols : list string) : list Suggestion :=
  omap (built_suggestion m amount_usd) symbols.

(** The news lookup [get_investment_suggestions] enriches with. *)
Definition news_lookup_of (news : NewsAnalyzer.t) (sym name : string)
    : Py.result NewsAnalyzer.news_summary :=
  Py.Ok (NewsAnalyzer.get_stock_news_summary news sym (Some name)).

(** The market quotes a symbol: the fetch succeeds with at least two rows
    and a last close that is not zero. *)
Definition quoted (m : market) (sym : string) : Prop :=
  exists data close,
    ticker m sym = Py.Ok data
    /\ (2 <= length (hist data))%nat
    /\ last (map fst (hist data)) = Some close
    /\ ~ (close == 0)%Q.

(** The combinations of category, region and currency. *)
Definition label_combinations : list (string * string * string) :=
  [ ("Blue Chip", "US", "USD"); ("Blue Chip", "Europe", "EUR");
    ("Blue Chip", "UK", "GBP"); ("Blue Chip", "Asia", "Local");
    ("Growth", "US", "USD"); ("Blue Chip", "Canada", "CAD");
    ("Blue Chip", "Australia", "AUD") ].

(** The labels of a suggestion fit together. *)
Definition labels_consistent (include_growth_stocks : bool) (s : Suggestion)
    : Prop :=
  (category s, region s, currency s)
    ∈ (if include_growth_stocks then label_combinations
       else take 4 label_combinations)
  /\ is_growth_stock s = String.eqb (category s) "Growth"
  /\ risk_warning s = warning_text (is_growth_stock s) (region s)
  /\ (risk_warning s = None
      <-> is_growth_stock s = false /\ (region s = "US" \/ region s = "UK"))
  /\ risk_level s
     = classify_risk (volatility s) (is_growth_stock s) (region s).

(** The amounts of a suggestion: the price is not zero, and at a positive
    price the affordable shares are the most the amount pays for. *)
Definition affordable (amount_usd : Q) (s : Suggestion) : Prop :=
  ~ (price s == 0)%Q
  /\ investment_amount s = (inject_Z (shares_affordable s) * price s)%Q
  /\ ((0 < price s)%Q -> (0 <= amount_usd)%Q ->
      0 <= shares_affordable s
      /\ (investment_amount s <= amount_usd)%Q
      /\ (amount_usd < investment_amount s + price s)%Q).

(** The news keys of a suggestion after the enrichment with [news]. *)
Definition enriched_with (news : NewsAnalyzer.t) (s : Suggestion) : Prop :=
  let summary :=
    NewsAnalyzer.get_stock_news_summary news (symbol s)
                                        (Some (company_name s)) in
  news_sentiment s = Some (NewsAnalyzer.sentiment summary)
  /\ news_score s = Some (NewsAnalyzer.sentiment_score summary)
  /\ news_available s = Some (NewsAnalyzer.news_available summary)
  /\ recent_headlines s = Some (NewsAnalyzer.recent_headlines summary)
  /\ recommendation_strength s
     = if String.eqb (NewsAnalyzer.sentiment summary) "positive"
       then Some (Py.min (0.5 + 0.1) 1)
       else if String.eqb (NewsAnalyzer.sentiment summary) "negative"
       then Some (Py.max (0.5 - 0.1) 0)
       else None.

(** The news keys of a suggestion without news. *)
Definition without_news (s : Suggestion) : Prop :=
  news_sentiment s = Some "neutral"
  /\ news_score s = Some 0%Q
  /\ news_available s = Some false
  /\ recent_headlines s = Some []
  /\ recommendation_strength s = None.


End SuggestionSpec.

(** * Properties *)

(** Splits a goal into its conjuncts, leaving everything else alone. *)
Ltac conjuncts := repeat match goal with |- _ /\ _ => split end.

(** Case analysis on the action string the way [add_transaction] tests it. *)
Ltac by_action act :=
  destruct (String.eqb act "buy");
  [|destruct (String.eqb act "sell");
    [|destruct (String.eqb act "dividend")]].

(** ** Python numbers *)

Lemma Qltb_lt (x y : Q) : Py.Qltb x y = true <-> (x < y)%Q.
Proof.
  unfold Py.Qltb. rewrite negb_true_iff. split.
  - intros H. apply Qnot_le_lt. intros Hle.
    apply Qle_bool_iff in Hle. congruence.
  - intros H. destruct (Qle_bool y x) eqn:E; [|reflexivity].
    apply Qle_bool_iff in E. exfalso. exact (Qlt_not_le _ _ H E).
Qed.

Lemma Qltb_ge (x y : Q) : Py.Qltb x y = false <-> (y <= x)%Q.
Proof.
  unfold Py.Qltb. rewrite negb_false_iff. apply Qle_bool_iff.
Qed.

Lemma py_max_Qmax (a b : Q) : (Py.max a b == Qmax a b)%Q.
Proof.
  unfold Py.max. destruct (Py.Qltb a b) eqn:E.
  - apply Qltb_lt in E. symmetry. apply Q.max_r. apply Qlt_le_weak, E.
  - apply Qltb_ge in E. symmetry. apply Q.max_l. exact E.
Qed.

Lemma py_max_0_nonneg (x : Q) : (0 <= Py.max 0 x)%Q.
Proof.
  unfold Py.max. destruct (Py.Qltb 0 x) eqn:E.
  - apply Qltb_lt in E. apply Qlt_le_weak, E.
  - apply Qle_refl.
Qed.

(** ** The ledger *)

Module LedgerFacts.
Import MockPortfolio LedgerSpec.

Lemma add_transaction_log now self sym act s prc :
  exists tx,
    transactions (add_transaction now self sym act s prc)
      = transactions self ++ [tx]
    /\ symbol tx = sym /\ action tx = act /\ shares tx = s
    /\ price tx = price_used sym prc /\ timestamp tx = now
    /\ total_value tx
       = if Py.str_in act ["buy"; "sell"] then (s * price_used sym prc)%Q
         else s.
Proof.
  unfold add_transaction. eexists. split.
  - by_action act; reflexivity.
  - cbn [symbol action shares price timestamp total_value].
    repeat (split; [reflexivity|]). reflexivity.
Qed.

Lemma add_transaction_nonneg now self sym act s prc :
  holdings_nonneg self -> (0 <= s)%Q ->
  holdings_nonneg (add_transaction now self sym act s prc).
Proof.
  intros Hinv Hs k v. unfold add_transaction.
  by_action act; simpl; try apply Hinv.
  - rewrite lookup_insert. case_decide; [|apply Hinv].
    intros [= <-]. subst k.
    destruct (holdings self !! sym) as [h|] eqn:E; simpl.
    + apply Hinv in E. lra.
    + lra.
  - rewrite lookup_insert. case_decide; [|apply Hinv].
    intros [= <-]. apply py_max_0_nonneg.
Qed.

Example mock_price_lookup :
  _get_mock_price "AAPL" = 175.50%Q /\ _get_mock_price "IBM" = 100%Q.
Proof. split; reflexivity. Qed.

(** Without a price the mock quote is used: two MSFT shares cost 760.50. *)
Example buy_at_mock_price :
  let self' :=
    add_transaction SampleTime.sample_now ledger_two_aapl
                    "MSFT" "buy" 2 None in
  (cash_balance self' == 239.50)%Q
  /\ holdings self' !! "MSFT" = Some (0 + 2)%Q
  /\ map id (transactions self') = ["manual_0"].
Proof. vm_compute. auto. Qed.

(** C5.  Selling [s >= 0] shares from a ledger with non-negative holdings
    sets the holding of the symbol to [max(0, previous - s)], which is zero
    exactly when the sale asks for at least the shares held; every other
    holding is untouched; cash grows by [s * p] for the requested [s], also
    when [s] exceeds the shares held; and the holdings stay non-negative, as
    they do under every action of [add_transaction] with [s >= 0]. *)
Theorem sell_clamps_holdings_at_zero now self sym s prc :
  holdings_nonneg self -> (0 <= s)%Q ->
  let p := price_used sym prc in
  let previous := default 0%Q (holdings self !! sym) in
  let self' := add_transaction now self sym "sell" s prc in
  (exists v, holdings self' !! sym = Some v
             /\ (v == Qmax 0 (previous - s))%Q
             /\ ((previous <= s)%Q -> v = 0%Q))
  /\ (forall k, k <> sym -> holdings self' !! k = holdings self !! k)
  /\ (cash_balance self' == cash_balance self + s * p)%Q
  /\ holdings_nonneg self'
  /\ (forall act, holdings_nonneg (add_transaction now self sym act s prc)).
Proof.
  intros Hinv Hs p previous self'.
  conjuncts.
  - exists (Py.max 0 (previous - s)%Q). conjuncts.
    + unfold self', add_transaction. simpl. now rewrite lookup_insert_eq.
    + apply py_max_Qmax.
    + intros Hle. unfold Py.max.
      destruct (Py.Qltb 0 (previous - s)) eqn:E; [|reflexivity].
      apply Qltb_lt in E. lra.
  - intros k Hk. unfold self', add_transaction. simpl.
    now rewrite lookup_insert_ne.
  - unfold self', add_transaction. simpl. reflexivity.
  - now apply add_transaction_nonneg.
  - intros act. now apply add_transaction_nonneg.
Qed.

Lemma sell_clamps_holdings_at_zero_witness :
  let self' :=
    add_transaction SampleTime.sample_now ledger_two_aapl
                    "AAPL" "sell" 5 (Some 10%Q) in
  holdings self' !! "AAPL" = Some 0%Q /\ (cash_balance self' == 1050)%Q.
Proof.
  assert (Hinv : holdings_nonneg ledger_two_aapl).
  { intros k v. unfold ledger_two_aapl. simpl.
    rewrite lookup_singleton. case_decide; [|discriminate].
    intros [= <-]. discriminate. }
  assert (Hs : (0 <= 5)%Q) by discriminate.
  destruct (sell_clamps_holdings_at_zero SampleTime.sample_now
              ledger_two_aapl "AAPL" 5 (Some 10%Q) Hinv Hs)
    as ((v & Hv & _ & Hz) & _ & Hcash & _).
  split.
  - rewrite Hv. f_equal. apply Hz. vm_compute. discriminate.
  - rewrite Hcash. vm_compute. reflexivity.
Defined.

(** C6.  A buy of [s] shares at price [p] lowers cash by exactly [s * p],
    raises the holding of the symbol by exactly [s] (from 0 when the symbol
    was not held), leaves the other holdings alone, and appends one
    transaction whose [total_value] is [s * p].  The bounds [s >= 0] and
    [p >= 0] are not needed. *)
Theorem buy_moves_cash_into_shares now self sym s prc :
  let p := price_used sym prc in
  let self' := add_transaction now self sym "buy" s prc in
  (cash_balance self' == cash_balance self - s * p)%Q
  /\ holdings self' !! sym
       = Some (default 0%Q (holdings self !! sym) + s)%Q
  /\ (forall k, k <> sym -> holdings self' !! k = holdings self !! k)
  /\ exists tx, transactions self' = transactions self ++ [tx]
       /\ action tx = "buy" /\ symbol tx = sym /\ shares tx = s
       /\ price tx = p /\ total_value tx = (s * p)%Q.
Proof.
  intros p self'. conjuncts.
  - unfold self', add_transaction. simpl. reflexivity.
  - unfold self', add_transaction. simpl. now rewrite lookup_insert_eq.
  - intros k Hk. unfold self', add_transaction. simpl.
    now rewrite lookup_insert_ne.
  - destruct (add_transaction_log now self sym "buy" s prc)
      as (tx & Hlog & Hsym & Hact & Hsh & Hpr & _ & Htot).
    exists tx. simpl in Htot. auto 10.
Qed.

(** C7.  A dividend adds its [shares] argument [a], read as an amount of
    cash, to the balance; the recorded transaction has [total_value = a]
    whatever the price; the holdings mapping is unchanged. *)
Theorem dividend_adds_cash_only now self sym a prc :
  let self' := add_transaction now self sym "dividend" a prc in
  cash_balance self' = (cash_balance self + a)%Q
  /\ holdings self' = holdings self
  /\ exists tx, transactions self' = transactions self ++ [tx]
       /\ action tx = "dividend" /\ shares tx = a /\ total_value tx = a.
Proof.
  intros self'. split; [reflexivity|]. split; [reflexivity|].
  destruct (add_transaction_log now self sym "dividend" a prc)
    as (tx & Hlog & _ & Hact & Hsh & _ & _ & Htot).
  exists tx. simpl in Htot. auto.
Qed.

End LedgerFacts.

(** ** Spending patterns and idle funds *)

Module SpendingFacts.
Import MockPortfolio SpendingSpec.

Lemma is_empty_true {A : Type} (l : list A) : is_empty l = true <-> l = [].
Proof. destruct l; simpl; split; congruence. Qed.

Example sample_time_is_monday_of_week_3 :
  Datetime.date SampleTime.sample_now = 738900
  /\ Datetime.year_of_ordinal 738900 = 2024
  /\ Datetime.isoweek 738900 = 3.
Proof. vm_compute. auto. Qed.

(** Around New Year the ISO week belongs to the neighbouring year:
    2021-01-01 lies in week 53, 2022-01-01 in week 52, 2024-01-01 in week 1. *)
Example isoweek_at_new_year :
  Datetime.isoweek 737791 = 53 /\ Datetime.isoweek 738156 = 52
  /\ Datetime.isoweek 738886 = 1.
Proof. vm_compute. auto. Qed.

(** Two spending days with $300 and $150 in one ISO week; the sale and the
    buy outside the window do not count. *)
Example spending_patterns_of_ledger_week :
  exists sp,
    calculate_spending_patterns SampleTime.sample_now ledger_week 30
      = Some sp
    /\ (daily_average sp == 225)%Q /\ (weekly_average sp == 450)%Q
    /\ (monthly_average sp == 6750)%Q.
Proof. eexists. vm_compute. auto. Qed.

Lemma calculate_spending_patterns_cases now self days :
  (get_transaction_history now self days = []
   /\ calculate_spending_patterns now self days = None)
  \/ (get_transaction_history now self days <> []
      /\ spending_in_window now self days = []
      /\ calculate_spending_patterns now self days = Some fallback_patterns)
  \/ (spending_in_window now self days <> []
      /\ exists d w,
           calculate_spending_patterns now self days
             = Some {| daily_average := d; weekly_average := w;
                       monthly_average := (d * 30)%Q |}).
Proof.
  unfold calculate_spending_patterns, spending_in_window.
  destruct (get_transaction_history now self days) as [|tx txs] eqn:Eh.
  - left. now split.
  - right. cbn [is_empty].
    set (sp := List.filter _ (tx :: txs)).
    destruct sp as [|tx' sp'] eqn:Es.
    + left. repeat split. discriminate.
    + right. split; [discriminate|]. cbn [is_empty].
      set (ds := groupby_sum _ _).
      destruct (is_empty ds); simpl; [|eauto].
      exists 150%Q. eexists. reflexivity.
Qed.

(** C2 as stated fails: the window of [ledger_one_sale] holds no buy and no
    dividend reinvestment, yet the estimate is the fallback pattern, which is
    not [None]. *)
Lemma no_spending_is_not_none :
  spending_in_window SampleTime.sample_now ledger_one_sale 30 = []
  /\ calculate_spending_patterns SampleTime.sample_now ledger_one_sale 30
     = Some fallback_patterns
  /\ calculate_spending_patterns SampleTime.sample_now ledger_one_sale 30
     <> None.
Proof. vm_compute. repeat split. discriminate. Qed.

(** C2, amended.  The estimate is [None] exactly when no transaction at all
    lies in the window, in particular for the empty transaction list.  When
    the window holds transactions but none is a buy or a dividend
    reinvestment, the estimate is the fallback pattern (50, 350, 1500). *)
Theorem spending_patterns_none_iff_window_empty now self days :
  (calculate_spending_patterns now self days = None
     <-> get_transaction_history now self days = [])
  /\ (transactions self = [] ->
      calculate_spending_patterns now self days = None)
  /\ (get_transaction_history now self days <> [] ->
      spending_in_window now self days = [] ->
      calculate_spending_patterns now self days = Some fallback_patterns).
Proof.
  destruct (calculate_spending_patterns_cases now self days)
    as [[Hh Hc] | [(Hh & Hs & Hc) | (Hs & d & w & Hc)]].
  - split; [|split]; [tauto | tauto | intros Hne; contradiction].
  - split; [|split].
    + rewrite Hc. split; [discriminate | contradiction].
    + intros E. exfalso. apply Hh. unfold get_transaction_history.
      now rewrite E.
    + tauto.
  - assert (Hh : get_transaction_history now self days <> []).
    { intros E. apply Hs. unfold spending_in_window. now rewrite E. }
    split; [|split].
    + rewrite Hc. split; [discriminate | contradiction].
    + intros E. exfalso. apply Hh. unfold get_transaction_history.
      now rewrite E.
    + intros _ E. contradiction.
Qed.

Lemma spending_patterns_none_iff_window_empty_witness :
  calculate_spending_patterns SampleTime.sample_now ledger_one_sale 30
  = Some fallback_patterns.
Proof.
  apply (spending_patterns_none_iff_window_empty
           SampleTime.sample_now ledger_one_sale 30).
  - vm_compute. discriminate.
  - vm_compute. reflexivity.
Defined.

(** C9.  Whenever a pattern is returned, its monthly average is thirty times
    its daily average; the fallback pattern has 50 and 1500. *)
Theorem monthly_average_is_thirty_daily now self days sp :
  calculate_spending_patterns now self days = Some sp ->
  (monthly_average sp == daily_average sp * 30)%Q.
Proof.
  intros H.
  destruct (calculate_spending_patterns_cases now self days)
    as [[_ Hc] | [(_ & _ & Hc) | (_ & d & w & Hc)]];
    rewrite Hc in H; [discriminate| |]; injection H as <-; simpl.
  - reflexivity.
  - reflexivity.
Qed.

Lemma monthly_average_is_thirty_daily_witness :
  exists sp,
    calculate_spending_patterns SampleTime.sample_now ledger_one_buy 30
      = Some sp
    /\ (daily_average sp == 300)%Q
    /\ (monthly_average sp == daily_average sp * 30)%Q.
Proof.
  eexists. split; [vm_compute; reflexivity|].
  split; [vm_compute; reflexivity|].
  apply (monthly_average_is_thirty_daily
           SampleTime.sample_now ledger_one_buy 30).
  vm_compute. reflexivity.
Defined.

End SpendingFacts.

Module IdleFundsFacts.
Import InvestmentAnalyzer IdleFundsSpec.

(** C3.  With [B] the cash balance and [M] the monthly average used, the
    result is [None] exactly when [B - M] is below the floor of 100;
    otherwise it carries [total_balance = B], [monthly_average = M],
    [unused_funds = B - M] (the safety net being [M]) and
    [threshold = M * (1 + 0.5)].  For [B = 10000] and [M = 1500] the idle
    funds are 8500 and a result is returned. *)
Theorem identify_unused_funds_floor now pm :
  let B := PortfolioMonitor.get_cash_balance pm in
  let M := monthly_average_used now pm in
  (Config.MIN_INVESTMENT_AMOUNT == 100)%Q
  /\ (identify_unused_funds now pm = None
      <-> (B - M < Config.MIN_INVESTMENT_AMOUNT)%Q)
  /\ (forall r, identify_unused_funds now pm = Some r ->
        total_balance r = B /\ monthly_average r = M
        /\ (unused_funds r == B - M)%Q
        /\ (available_for_investment r == B - M)%Q
        /\ (threshold r == M * (1 + Config.UNUSED_BALANCE_THRESHOLD))%Q)
  /\ ((B == 10000)%Q -> (M == 1500)%Q ->
      exists r, identify_unused_funds now pm = Some r
                /\ (unused_funds r == 8500)%Q).
Proof.
  intros B M. unfold identify_unused_funds.
  fold (monthly_average_used now pm). fold B. fold M.
  split; [reflexivity|].
  destruct (Qle_bool Config.MIN_INVESTMENT_AMOUNT (B - M * 1)) eqn:E.
  - apply Qle_bool_iff in E. split; [|split].
    + split; [discriminate|]. intros Hlt. exfalso. lra.
    + intros r [= <-]. simpl.
      split; [reflexivity|]. split; [reflexivity|].
      split; [ring|]. split; [ring|reflexivity].
    + intros HB HM. eexists. split; [reflexivity|]. simpl.
      rewrite HB, HM. reflexivity.
  - assert (Hlt : (B - M * 1 < Config.MIN_INVESTMENT_AMOUNT)%Q).
    { apply Qnot_le_lt. intros Hle. apply Qle_bool_iff in Hle. congruence. }
    split; [|split].
    + split; [intros _; lra | reflexivity].
    + intros r [=].
    + intros HB HM. exfalso. rewrite HB, HM in Hlt.
      revert Hlt. vm_compute. discriminate.
Qed.

Example identify_unused_funds_ten_thousand :
  identify_unused_funds SampleTime.sample_now monitor_ten_thousand
  = Some {| total_balance := 10000; monthly_average := 1500;
            unused_funds := 10000 - 1500 * 1; threshold := 1500 * (1 + 0.5);
            available_for_investment := 10000 - 1500 * 1 |}.
Proof. vm_compute. reflexivity. Qed.

End IdleFundsFacts.

(** ** Ordering of floats and strings *)

Module OrderFacts.

Lemma string_ltb_asym (a b : string) :
  String.ltb a b = true -> String.ltb b a = false.
Proof.
  unfold String.ltb. rewrite (String.compare_antisym a b).
  destruct (String.compare b a); simpl; congruence.
Qed.

Lemma string_ltb_false_leb (a b : string) :
  String.ltb b a = false -> String.leb a b = true.
Proof.
  unfold String.ltb, String.leb. rewrite (String.compare_antisym b a).
  destruct (String.compare a b); simpl; congruence.
Qed.

Lemma string_leb_refl (a : string) : String.leb a a = true.
Proof.
  apply string_ltb_false_leb.
  destruct (String.ltb a a) eqn:E; [|reflexivity].
  pose proof (string_ltb_asym a a E). congruence.
Qed.

Lemma string_eqb_sym (a b : string) : String.eqb a b = String.eqb b a.
Proof.
  destruct (String.eqb_spec a b) as [->|Hne].
  - now rewrite String.eqb_refl.
  - symmetry. apply String.eqb_neq. congruence.
Qed.

Lemma Qltb_asym (a b : Q) : Py.Qltb a b = true -> Py.Qltb b a = false.
Proof.
  intros H. apply Qltb_lt in H. apply Qltb_ge. now apply Qlt_le_weak.
Qed.

Lemma Qltb_total (a b : Q) :
  Qeq_bool a b = false -> Py.Qltb a b = false -> Py.Qltb b a = true.
Proof.
  intros Hne Hlt. apply Qltb_ge in Hlt. apply Qltb_lt.
  apply Qeq_bool_neq in Hne.
  destruct (Qlt_le_dec b a) as [H|H]; [exact H|].
  exfalso. apply Hne. now apply Qle_antisym.
Qed.

Lemma Qltb_opp (a b : Q) : Py.Qltb (- b) (- a) = Py.Qltb a b.
Proof.
  destruct (Py.Qltb a b) eqn:E.
  - apply Qltb_lt in E. apply Qltb_lt. lra.
  - apply Qltb_ge in E. apply Qltb_ge. lra.
Qed.

Lemma Qeq_bool_opp (a b : Q) : Qeq_bool (- a) (- b) = Qeq_bool a b.
Proof.
  destruct (Qeq_bool a b) eqn:E.
  - apply Qeq_bool_iff in E. apply Qeq_bool_iff. lra.
  - apply Qeq_bool_neq in E.
    destruct (Qeq_bool (- a) (- b)) eqn:E'; [|reflexivity].
    apply Qeq_bool_iff in E'. exfalso. apply E. lra.
Qed.

Lemma fltb_asym (x y : Py.float) : Py.fltb x y = true -> Py.fltb y x = false.
Proof. destruct x, y; simpl; try congruence. apply Qltb_asym. Qed.

Lemma feqb_sym (x y : Py.float) : Py.feqb x y = Py.feqb y x.
Proof. destruct x, y; simpl; try reflexivity. apply Qeq_bool_comm. Qed.

Lemma fltb_total (x y : Py.float) :
  x <> Py.NaN -> y <> Py.NaN ->
  Py.feqb x y = false -> Py.fltb x y = false -> Py.fltb y x = true.
Proof.
  destruct x, y; simpl; try congruence. intros _ _. apply Qltb_total.
Qed.

Lemma fltb_fneg (x y : Py.float) :
  Py.fltb (Py.fneg y) (Py.fneg x) = Py.fltb x y.
Proof. destruct x, y; simpl; try reflexivity. apply Qltb_opp. Qed.

Lemma feqb_fneg (x y : Py.float) :
  Py.feqb (Py.fneg x) (Py.fneg y) = Py.feqb x y.
Proof. destruct x, y; simpl; try reflexivity. apply Qeq_bool_opp. Qed.

End OrderFacts.

(** ** Sorting *)

Module SortFacts.
Import InvestmentAnalyzer RankingSpec.

Section Insertion.
Context {A : Type} (lt : A -> A -> bool).
Hypothesis lt_asym : forall x y, lt x y = true -> lt y x = false.

Lemma insert_sorted_HdRel (y x : A) (l : list A) :
  not_smaller lt y x -> HdRel (not_smaller lt) y l ->
  HdRel (not_smaller lt) y (insert_sorted lt x l).
Proof.
  intros Hyx Hhd. destruct l as [|z l]; simpl.
  - now constructor.
  - destruct (lt x z); constructor; [exact Hyx|]. now inversion Hhd.
Qed.

Lemma insert_sorted_Sorted (x : A) (l : list A) :
  Sorted (not_smaller lt) l -> Sorted (not_smaller lt) (insert_sorted lt x l).
Proof.
  induction l as [|y l IH]; simpl; intros Hs.
  - repeat constructor.
  - inversion Hs as [|? ? Hl Hhd]; subst.
    destruct (lt x y) eqn:E.
    + constructor; [exact Hs|]. constructor. now apply lt_asym.
    + constructor; [now apply IH|].
      apply insert_sorted_HdRel; [exact E|exact Hhd].
Qed.

Lemma foldl_insert_Sorted (l acc : list A) :
  Sorted (not_smaller lt) acc ->
  Sorted (not_smaller lt)
         (foldl (fun sorted x => insert_sorted lt x sorted) acc l).
Proof.
  revert acc. induction l as [|x l IH]; simpl; intros acc Hacc.
  - exact Hacc.
  - apply IH. now apply insert_sorted_Sorted.
Qed.

Lemma list_sort_Sorted (l : list A) : Sorted (not_smaller lt) (list_sort lt l).
Proof. apply foldl_insert_Sorted. constructor. Qed.

End Insertion.

Section Membership.
Context {A : Type} (lt : A -> A -> bool).

Lemma insert_sorted_Permutation (x : A) (l : list A) :
  insert_sorted lt x l ≡ₚ x :: l.
Proof.
  induction l as [|y l IH]; simpl; [reflexivity|].
  destruct (lt x y); [reflexivity|].
  rewrite IH. apply Permutation_swap.
Qed.

Lemma foldl_insert_Permutation (l acc : list A) :
  foldl (fun sorted x => insert_sorted lt x sorted) acc l ≡ₚ acc ++ l.
Proof.
  revert acc. induction l as [|x l IH]; simpl; intros acc.
  - now rewrite app_nil_r.
  - rewrite IH, insert_sorted_Permutation. simpl.
    apply Permutation_middle.
Qed.

Lemma list_sort_Permutation (l : list A) : list_sort lt l ≡ₚ l.
Proof. unfold list_sort. now rewrite foldl_insert_Permutation. Qed.

End Membership.

Lemma key_lt_asym (k1 k2 : Py.float * string * string) :
  key_lt k1 k2 = true -> key_lt k2 k1 = false.
Proof.
  destruct k1 as [[d1 r1] l1], k2 as [[d2 r2] l2]. simpl.
  rewrite (OrderFacts.feqb_sym d2 d1), (OrderFacts.string_eqb_sym r2 r1).
  destruct (Py.feqb d1 d2); simpl; [|apply OrderFacts.fltb_asym].
  destruct (String.eqb r1 r2); simpl; apply OrderFacts.string_ltb_asym.
Qed.

Lemma addr_lt_asym (h : store) (r1 r2 : addr) :
  addr_lt h r1 r2 = true -> addr_lt h r2 r1 = false.
Proof.
  unfold addr_lt. destruct (h !! r1), (h !! r2); try congruence.
  apply key_lt_asym.
Qed.

End SortFacts.

(** ** The news summary *)

Module NewsFacts.
Import NewsAnalyzer NewsSpec.

Lemma search_without_service self symbol company_name days_back :
  service self = None ->
  search_stock_news self symbol company_name days_back = [].
Proof. unfold search_stock_news. now intros ->. Qed.

Lemma search_with_raising_service self svc symbol company_name days_back e :
  service self = Some svc ->
  search_stock_news_try self svc symbol company_name days_back = Py.Raise e ->
  search_stock_news self symbol company_name days_back = [].
Proof. unfold search_stock_news. now intros -> ->. Qed.

Lemma analyze_sentiment_nil :
  analyze_sentiment []
  = {| overall_sentiment := "neutral"; average_score := 0;
       individual_scores := []; total_articles := 0 |}.
Proof. reflexivity. Qed.

Example substring_and_lower :
  Py.contains "rise" "enterprise" = true /\ Py.contains "abc" "ab" = false
  /\ Py.lower "AbC dE-9" = "abc de-9".
Proof. vm_compute. auto. Qed.

(** Six positive keywords and no negative one give the capped score 1; one
    of each gives neutral; the mean 0.5 is above 0.2. *)
Example sentiment_of_sample_news :
  map scored_sentiment (individual_scores (analyze_sentiment sample_news))
    = ["positive"; "neutral"]
  /\ (average_score (analyze_sentiment sample_news) == 0.5)%Q
  /\ overall_sentiment (analyze_sentiment sample_news) = "positive".
Proof. vm_compute. auto. Qed.

(** C8.  When the news source yields no snippets for a symbol - the search
    service is not configured, the search raises, or it returns nothing -
    the summary is the value [no_news_summary]: sentiment neutral, score 0,
    [news_available] false, no headlines.  Scoring the empty sequence gives
    neutral and 0 as well.  Both functions are total: nothing is raised. *)
Theorem no_news_is_neutral self symbol company_name :
  service self = None
  \/ (exists svc e, service self = Some svc
        /\ search_stock_news_try self svc symbol company_name 7 = Py.Raise e)
  \/ search_stock_news self symbol company_name 7 = [] ->
  get_stock_news_summary self symbol company_name = no_news_summary symbol
  /\ sentiment (get_stock_news_summary self symbol company_name) = "neutral"
  /\ sentiment_score (get_stock_news_summary self symbol company_name) = 0%Q
  /\ news_available (get_stock_news_summary self symbol company_name) = false
  /\ recent_headlines (get_stock_news_summary self symbol company_name) = []
  /\ overall_sentiment (analyze_sentiment []) = "neutral"
  /\ average_score (analyze_sentiment []) = 0%Q.
Proof.
  intros H.
  assert (Hnil : search_stock_news self symbol company_name 7 = []).
  { destruct H as [H | [(svc & e & Hs & Ht) | H]].
    - now apply search_without_service.
    - now apply (search_with_raising_service self svc _ _ _ e).
    - exact H. }
  assert (Hsum : get_stock_news_summary self symbol company_name
                 = no_news_summary symbol).
  { unfold get_stock_news_summary. now rewrite Hnil. }
  rewrite Hsum. unfold no_news_summary. simpl. auto 10.
Qed.

Lemma no_news_is_neutral_witness :
  get_stock_news_summary analyzer_without_service "AAPL" (Some "Apple Inc.")
    = no_news_summary "AAPL"
  /\ get_stock_news_summary analyzer_with_failing_service "AAPL" None
    = no_news_summary "AAPL".
Proof.
  split.
  - apply (no_news_is_neutral analyzer_without_service
             "AAPL" (Some "Apple Inc.")).
    left. reflexivity.
  - apply (no_news_is_neutral analyzer_with_failing_service "AAPL" None).
    right. left. eexists. exists "HttpError". split; reflexivity.
Defined.

End NewsFacts.

(** ** Risk tiers *)

Module RiskFacts.
Import InvestmentAnalyzer RankingSpec.

Lemma str_in_us_uk (reg : string) :
  Py.str_in reg ["US"; "UK"] = false <-> foreign reg.
Proof.
  unfold Py.str_in, foreign. simpl. rewrite orb_false_r, orb_false_iff.
  now rewrite !String.eqb_neq.
Qed.

Lemma base_risk_value (g : bool) (reg : string) :
  (foreign reg -> (base_risk g reg == (if g then 1 else 0) + 0.5)%Q)
  /\ (~ foreign reg -> (base_risk g reg == (if g then 1 else 0))%Q).
Proof.
  unfold base_risk.
  destruct (Py.str_in reg ["US"; "UK"]) eqn:E; simpl; split; intros H.
  - exfalso. apply str_in_us_uk in H. congruence.
  - destruct g; ring.
  - destruct g; ring.
  - exfalso. apply H. now apply str_in_us_uk.
Qed.

(** What a built suggestion records: the last two closes, of which the last
    is not zero, and the quantities derived from them. *)
Lemma suggestion_of_inv m amount sym data s :
  suggestion_of m amount sym data = Py.Ok (Some s) ->
  exists current_price previous_close,
    (~ current_price == 0)%Q
    /\ price s = current_price
    /\ daily_return s
       = Py.fdiv (current_price - previous_close) previous_close
    /\ risk_level s
       = classify_risk (volatility s) (is_growth_stock s) (region s).
Proof.
  unfold suggestion_of.
  destruct (category_region_currency sym global_stocks) as [[cat reg] cur].
  destruct (rev (hist data)) as [|[c v] older]; [discriminate|].
  destruct older as [|[c' v'] older]; [discriminate|].
  cbn [mbind mret Py.result_bind Py.result_ret].
  destruct (Py.fdiv amount c) as [q| | |] eqn:Ediv; try discriminate.
  cbn [Py.int]. intros [= <-]. exists c, c'.
  cbn [price daily_return risk_level volatility is_growth_stock region].
  split; [|auto].
  unfold Py.fdiv in Ediv. destruct (Qeq_bool c 0) eqn:Ec.
  - destruct (Py.Qltb 0 amount); [discriminate|].
    destruct (Py.Qltb amount 0); discriminate.
  - now apply Qeq_bool_neq.
Qed.

Lemma suggestion_of_risk_level m amount sym data s :
  suggestion_of m amount sym data = Py.Ok (Some s) ->
  risk_level s = classify_risk (volatility s) (is_growth_stock s) (region s).
Proof.
  intros H.
  now destruct (suggestion_of_inv _ _ _ _ _ H) as (c & c' & _ & _ & _ & Hr).
Qed.

Example symbol_groups :
  category_region_currency "SHOP" global_stocks = ("Growth", "US", "USD")
  /\ category_region_currency "SHOP.TO" global_stocks
     = ("Blue Chip", "Canada", "CAD")
  /\ category_region_currency "7203.T" global_stocks
     = ("Blue Chip", "Asia", "Local")
  /\ length (stock_symbols false) = 21%nat
  /\ length (stock_symbols true) = 36%nat.
Proof. vm_compute. auto 10. Qed.

(** A NaN volatility fails every comparison and lands in the last tier. *)
Example nan_volatility_is_extreme (g : bool) (reg : string) :
  classify_risk Py.NaN g reg = "extreme".
Proof. reflexivity. Qed.

(** C4.  The base risk is 1 for a growth stock plus 0.5 for a region other
    than US and UK.  A volatility below 0.20 gives low when the base risk is
    below 1 and medium otherwise; a volatility from 0.20 to below 0.30 gives
    medium when the base risk is below 1.5 and high otherwise; from 0.30 to
    below 0.50 it gives high; from 0.50 on it gives extreme.  So 0.15 for a
    US stock that is not a growth stock is low, and 0.15 for a German growth
    stock is medium.  The risk level of every suggestion built is this tier
    of its volatility, growth flag and region. *)
Theorem risk_tiers (v : Q) (g : bool) (reg : string) :
  let b := base_risk g reg in
  let tier := classify_risk (Py.Fin v) g reg in
  (foreign reg -> (b == (if g then 1 else 0) + 0.5)%Q)
  /\ (~ foreign reg -> (b == (if g then 1 else 0) + 0)%Q)
  /\ ((v < 0.20)%Q ->
      ((b < 1)%Q -> tier = "low") /\ ((1 <= b)%Q -> tier = "medium"))
  /\ ((0.20 <= v)%Q -> (v < 0.30)%Q ->
      ((b < 1.5)%Q -> tier = "medium") /\ ((1.5 <= b)%Q -> tier = "high"))
  /\ ((0.30 <= v)%Q -> (v < 0.50)%Q -> tier = "high")
  /\ ((0.50 <= v)%Q -> tier = "extreme")
  /\ classify_risk (Py.Fin 0.15) false "US" = "low"
  /\ classify_risk (Py.Fin 0.15) true "Germany" = "medium"
  /\ (forall m amount sym data s,
        suggestion_of m amount sym data = Py.Ok (Some s) ->
        risk_level s
        = classify_risk (volatility s) (is_growth_stock s) (region s)).
Proof.
  intros b tier.
  destruct (base_risk_value g reg) as [Hf Hd].
  split; [exact Hf|]. split; [intros H; unfold b; rewrite (Hd H); ring|].
  unfold tier, classify_risk. fold b. simpl Py.fltb.
  conjuncts.
  - intros Hv.
    assert (H1 : Py.Qltb v 0.2 = true) by (apply Qltb_lt; lra).
    rewrite H1. split; intros Hb.
    + apply Qltb_lt in Hb. now rewrite Hb.
    + apply Qltb_ge in Hb. now rewrite Hb.
  - intros Hv1 Hv2.
    assert (H1 : Py.Qltb v 0.2 = false) by (apply Qltb_ge; lra).
    assert (H2 : Py.Qltb v 0.3 = true) by (apply Qltb_lt; lra).
    rewrite H1, H2. split; intros Hb.
    + apply Qltb_lt in Hb. now rewrite Hb.
    + apply Qltb_ge in Hb. now rewrite Hb.
  - intros Hv1 Hv2.
    assert (H1 : Py.Qltb v 0.2 = false) by (apply Qltb_ge; lra).
    assert (H2 : Py.Qltb v 0.3 = false) by (apply Qltb_ge; lra).
    assert (H3 : Py.Qltb v 0.5 = true) by (apply Qltb_lt; lra).
    now rewrite H1, H2, H3.
  - intros Hv.
    assert (H1 : Py.Qltb v 0.2 = false) by (apply Qltb_ge; lra).
    assert (H2 : Py.Qltb v 0.3 = false) by (apply Qltb_ge; lra).
    assert (H3 : Py.Qltb v 0.5 = false) by (apply Qltb_ge; lra).
    now rewrite H1, H2, H3.
  - reflexivity.
  - reflexivity.
  - apply suggestion_of_risk_level.
Qed.

End RiskFacts.

(** ** Enrichment and ranking *)

Module RankingFacts.
Import InvestmentAnalyzer RankingSpec.

Lemma same_base_fields_refl s : same_base_fields s s.
Proof.
  unfold same_base_fields. repeat (split; [reflexivity|]). reflexivity.
Qed.

Lemma same_base_fields_trans s1 s2 s3 :
  same_base_fields s1 s2 -> same_base_fields s2 s3 -> same_base_fields s1 s3.
Proof.
  unfold same_base_fields. intros H12 H23.
  repeat match goal with H : _ /\ _ |- _ => destruct H end.
  repeat (split; [congruence|]). congruence.
Qed.

Lemma enriched_from_refl s : enriched_from s s.
Proof. split; [apply same_base_fields_refl|tauto]. Qed.

Lemma enriched_from_trans s1 s2 s3 :
  enriched_from s1 s2 -> enriched_from s2 s3 -> enriched_from s1 s3.
Proof.
  intros [H12 N12] [H23 N23]. split; [|tauto].
  now apply (same_base_fields_trans s1 s2 s3).
Qed.

Lemma enhance_one_same_base news_lookup s :
  same_base_fields s (enhance_one news_lookup s).
Proof.
  unfold enhance_one, same_base_fields.
  destruct (news_lookup (symbol s) (company_name s)); simpl;
    repeat (split; [reflexivity|]); reflexivity.
Qed.

Lemma enhance_one_has_news news_lookup s :
  has_news_fields (enhance_one news_lookup s).
Proof.
  unfold enhance_one, has_news_fields.
  destruct (news_lookup (symbol s) (company_name s)); simpl; eauto 10.
Qed.

Lemma enhance_one_enriched news_lookup s :
  enriched_from s (enhance_one news_lookup s).
Proof.
  split; [apply enhance_one_same_base|]. intros _. apply enhance_one_has_news.
Qed.

Lemma store_enriched_refl (h : store) : Forall2 enriched_from h h.
Proof.
  apply Forall_Forall2_diag, Forall_forall. intros. apply enriched_from_refl.
Qed.

Lemma store_enriched_trans (h1 h2 h3 : store) :
  Forall2 enriched_from h1 h2 -> Forall2 enriched_from h2 h3 ->
  Forall2 enriched_from h1 h3.
Proof.
  apply Forall2_trans. intros s1 s2 s3. apply enriched_from_trans.
Qed.

Lemma store_enriched_update (h : store) r s s' :
  h !! r = Some s -> enriched_from s s' ->
  Forall2 enriched_from h (<[r := s']> h).
Proof.
  intros Hr He. rewrite <- (list_insert_id h r s Hr) at 1.
  apply Forall2_insert; [apply store_enriched_refl|exact He].
Qed.

(** The loop returns the addresses it was given, in order, behind those
    already collected; the store it leaves is an enrichment of the one it
    started from; every dictionary it visited has the news keys. *)
Lemma enhance_loop_spec news_lookup (suggestions : list addr) :
  forall (h : store) (enhanced : list addr),
    let res := enhance_loop news_lookup h suggestions enhanced in
    res.2 = enhanced ++ suggestions
    /\ Forall2 enriched_from h res.1
    /\ (forall r s', r ∈ suggestions -> res.1 !! r = Some s' ->
                     has_news_fields s').
Proof.
  induction suggestions as [|r rest IH]; intros h enhanced; simpl.
  - split; [now rewrite app_nil_r|]. split; [apply store_enriched_refl|].
    intros r s' Hin. now apply not_elem_of_nil in Hin.
  - destruct (h !! r) as [s|] eqn:Hr.
    + specialize (IH (<[r := enhance_one news_lookup s]> h) (enhanced ++ [r])).
      simpl in IH. destruct IH as (Hout & Hst & Hnews).
      split; [now rewrite Hout, <- app_assoc|].
      split.
      * eapply store_enriched_trans; [|exact Hst].
        eapply store_enriched_update; [exact Hr|apply enhance_one_enriched].
      * intros r' s' Hin Hs'. apply elem_of_cons in Hin as [->|Hin].
        -- assert (Hlt : (r < length h)%nat) by (eapply lookup_lt_Some; eauto).
           pose proof
             (list_lookup_insert_eq h r (enhance_one news_lookup s) Hlt)
             as Hupd.
           destruct (Forall2_lookup_l _ _ _ _ _ Hst Hupd) as (s2 & Hs2 & He).
           assert (E : Some s2 = Some s') by exact (eq_trans (eq_sym Hs2) Hs').
           injection E as <-. apply He, enhance_one_has_news.
        -- now apply (Hnews r' s').
    + specialize (IH h (enhanced ++ [r])).
      simpl in IH. destruct IH as (Hout & Hst & Hnews).
      split; [now rewrite Hout, <- app_assoc|].
      split; [exact Hst|].
      intros r' s' Hin Hs'. apply elem_of_cons in Hin as [->|Hin].
      * apply Forall2_length in Hst. apply lookup_ge_None in Hr.
        apply lookup_lt_Some in Hs'. lia.
      * now apply (Hnews r' s').
Qed.

Lemma deref_cons (h : store) r refs :
  deref h (r :: refs)
  = match h !! r with Some s => s :: deref h refs | None => deref h refs end.
Proof. reflexivity. Qed.

Lemma deref_Forall2 {R : Suggestion -> Suggestion -> Prop} (h h' : store) refs :
  Forall2 R h h' -> Forall2 R (deref h refs) (deref h' refs).
Proof.
  intros Hst. induction refs as [|r refs IH]; [constructor|].
  rewrite !deref_cons.
  destruct (h !! r) as [s|] eqn:Hr.
  - destruct (Forall2_lookup_l _ _ _ _ _ Hst Hr) as (s' & -> & Hs).
    now constructor.
  - apply lookup_ge_None in Hr. rewrite (Forall2_length _ _ _ Hst) in Hr.
    apply lookup_ge_None in Hr. now rewrite Hr.
Qed.

Lemma deref_Forall {P : Suggestion -> Prop} (h : store) refs :
  Forall P h -> Forall P (deref h refs).
Proof.
  intros Hh. induction refs as [|r refs IH]; [constructor|].
  rewrite deref_cons. destruct (h !! r) as [s|] eqn:Hr; [|exact IH].
  constructor; [|exact IH]. exact (Forall_lookup_1 _ _ _ _ Hh Hr).
Qed.

Lemma deref_has_news (h : store) refs :
  (forall r s, r ∈ refs -> h !! r = Some s -> has_news_fields s) ->
  Forall has_news_fields (deref h refs).
Proof.
  induction refs as [|r refs IH]; intros H; [constructor|].
  rewrite deref_cons. destruct (h !! r) as [s|] eqn:Hr.
  - constructor.
    + apply (H r s); [apply list_elem_of_here|exact Hr].
    + apply IH. intros r' s' Hin. apply H. now apply list_elem_of_further.
  - apply IH. intros r' s' Hin. apply H. now apply list_elem_of_further.
Qed.

Lemma code_order_same_base a a' b b' :
  same_base_fields a a' -> same_base_fields b b' ->
  code_order a b -> code_order a' b'.
Proof.
  unfold same_base_fields, code_order. intros Ha Hb.
  repeat match goal with H : _ /\ _ |- _ => destruct H end.
  repeat match goal with H : _ a' = _ |- _ => rewrite H; clear H end.
  repeat match goal with H : _ b' = _ |- _ => rewrite H; clear H end.
  tauto.
Qed.

Lemma Sorted_code_order_same_base (l l' : list Suggestion) :
  Forall2 same_base_fields l l' ->
  Sorted code_order l -> Sorted code_order l'.
Proof.
  intros H. induction H as [|a a' l l' Ha Hl IH]; intros Hs; [constructor|].
  inversion Hs as [|? ? Hs' Hhd]; subst. constructor; [now apply IH|].
  destruct Hl as [|b b' l l' Hb Hl]; constructor.
  inversion Hhd; subst. now apply (code_order_same_base a a' b b').
Qed.

(** A list that holds the same dictionary twice: the second visit starts from
    what the first one wrote, and both entries of the result show the final
    state. *)
Example enrichment_of_an_aliased_list :
  let res :=
    enhance_suggestions_with_news good_news_lookup sample_store [0; 0]%nat in
  res.2 = [0; 0]%nat
  /\ map symbol (deref res.1 res.2) = ["AAPL"; "AAPL"]
  /\ map news_sentiment (deref res.1 res.2) = [Some "positive"; Some "positive"]
  /\ map (fun s => Qred <$> recommendation_strength s) (deref res.1 res.2)
     = [Some 0.7%Q; Some 0.7%Q].
Proof. vm_compute. auto. Qed.

(** When the lookup raises, the defaults of the [except] block are written. *)
Example enrichment_with_failing_lookup :
  let res :=
    enhance_suggestions_with_news failing_news_lookup sample_store [0]%nat in
  map (fun s => (symbol s, news_sentiment s, news_score s, news_available s,
                 recent_headlines s, recommendation_strength s))
      (deref res.1 res.2)
  = [("AAPL", Some "neutral", Some 0%Q, Some false, Some [], None)].
Proof. vm_compute. reflexivity. Qed.

(** What [enhance_suggestions_with_news] returns and leaves in the store. *)
Lemma enhance_suggestions_with_news_spec
    (news_lookup : string -> string -> Py.result NewsAnalyzer.news_summary)
    (h : store) (suggestions : list addr) :
  let res := enhance_suggestions_with_news news_lookup h suggestions in
  res.2 = suggestions
  /\ length res.2 = length suggestions
  /\ Forall2 same_base_fields h res.1
  /\ Forall2 same_base_fields (deref h suggestions) (deref res.1 res.2)
  /\ length (deref res.1 res.2) = length (deref h suggestions)
  /\ Forall has_news_fields (deref res.1 res.2)
  /\ (Sorted code_order (deref h suggestions) ->
      Sorted code_order (deref res.1 res.2)).
Proof.
  intros res.
  destruct (enhance_loop_spec news_lookup suggestions h [])
    as (Hout & Hst & Hnews).
  fold (enhance_suggestions_with_news news_lookup h suggestions)
    in Hout, Hst, Hnews.
  fold res in Hout, Hst, Hnews. simpl in Hout.
  assert (Hbase : Forall2 same_base_fields h res.1).
  { eapply Forall2_impl; [exact Hst|]. now intros s s' [Hb _]. }
  assert (Hder : Forall2 same_base_fields (deref h suggestions)
                                          (deref res.1 res.2)).
  { rewrite Hout. now apply deref_Forall2. }
  split; [exact Hout|]. split; [now rewrite Hout|].
  split; [exact Hbase|]. split; [exact Hder|].
  split; [symmetry; eapply Forall2_length; exact Hder|].
  split; [rewrite Hout; now apply deref_has_news|].
  now apply Sorted_code_order_same_base.
Qed.

(** C10.  The enrichment returns the list of addresses it was given: the
    same dictionaries, in the same order, hence as many.  It changes no key
    of the dictionary literal of any stored suggestion, whatever the news
    lookup does, raise included; the dictionaries of the list end up with
    the four news keys; and a list in the order of the sort is still in that
    order afterwards. *)
Theorem enhancement_keeps_suggestions_and_order
    (news_lookup : string -> string -> Py.result NewsAnalyzer.news_summary)
    (h : store) (suggestions : list addr) :
  let res := enhance_suggestions_with_news news_lookup h suggestions in
  res.2 = suggestions
  /\ length res.2 = length suggestions
  /\ Forall2 same_base_fields h res.1
  /\ Forall2 same_base_fields (deref h suggestions) (deref res.1 res.2)
  /\ length (deref res.1 res.2) = length (deref h suggestions)
  /\ Forall has_news_fields (deref res.1 res.2)
  /\ (Sorted code_order (deref h suggestions) ->
      Sorted code_order (deref res.1 res.2)).
Proof. apply enhance_suggestions_with_news_spec. Qed.

(** *** The order of the returned list *)

Lemma fdiv_not_nan (x y : Q) :
  Py.fdiv x y = Py.NaN -> Qeq_bool y 0 = true /\ (x == 0)%Q.
Proof.
  unfold Py.fdiv. destruct (Qeq_bool y 0); [|discriminate].
  destruct (Py.Qltb 0 x) eqn:E1; [discriminate|].
  destruct (Py.Qltb x 0) eqn:E2; [discriminate|].
  intros _. split; [reflexivity|].
  apply Qltb_ge in E1, E2. now apply Qle_antisym.
Qed.

(** A suggestion that is built never has a NaN daily return: the quotient is
    NaN only when both closes are zero, and a zero price ends the iteration. *)
Lemma suggestion_of_daily_return m amount sym data s :
  suggestion_of m amount sym data = Py.Ok (Some s) ->
  daily_return s <> Py.NaN.
Proof.
  intros H.
  destruct (RiskFacts.suggestion_of_inv _ _ _ _ _ H)
    as (c & c' & Hc & _ & Hd & _).
  rewrite Hd. intros Hnan.
  apply fdiv_not_nan in Hnan as [Hc' Hx].
  apply Qeq_bool_iff in Hc'. apply Hc. lra.
Qed.

(** After the loop over the symbols no stored daily return is NaN and every
    collected address lies in the store. *)
Lemma build_step_spec m amount (acc : store * list addr) sym :
  Forall (fun s => daily_return s <> Py.NaN) acc.1 ->
  Forall (fun r => (r < length acc.1)%nat) acc.2 ->
  Forall (fun s => daily_return s <> Py.NaN) (build_step m amount acc sym).1
  /\ Forall (fun r => (r < length (build_step m amount acc sym).1)%nat)
            (build_step m amount acc sym).2.
Proof.
  destruct acc as [h refs]. simpl. intros Hh Hrefs.
  destruct (ticker m sym) as [data|e]; simpl; [|now split].
  destruct (suggestion_of m amount sym data) as [[s|]|e] eqn:Es; simpl;
    [|now split|now split].
  split.
  - apply Forall_app. split; [exact Hh|]. constructor; [|constructor].
    now apply (suggestion_of_daily_return m amount sym data).
  - rewrite length_app. simpl. apply Forall_app. split.
    + eapply Forall_impl; [exact Hrefs|]. simpl. intros; lia.
    + constructor; [lia|constructor].
Qed.

Lemma build_suggestions_spec m amount symbols :
  let res := build_suggestions m amount symbols in
  Forall (fun s => daily_return s <> Py.NaN) res.1
  /\ Forall (fun r => (r < length res.1)%nat) res.2.
Proof.
  unfold build_suggestions.
  assert (Hgen : forall (acc : store * list addr),
    Forall (fun s => daily_return s <> Py.NaN) acc.1 ->
    Forall (fun r => (r < length acc.1)%nat) acc.2 ->
    let res := foldl (build_step m amount) acc symbols in
    Forall (fun s => daily_return s <> Py.NaN) res.1
    /\ Forall (fun r => (r < length res.1)%nat) res.2).
  { induction symbols as [|sym symbols IH]; intros acc Hh Hrefs; simpl.
    - now split.
    - destruct (build_step_spec m amount acc sym Hh Hrefs) as [Hh' Hrefs'].
      now apply IH. }
  apply Hgen; constructor.
Qed.

(** Neighbours that the sort leaves in place are in the code's order, as
    long as neither daily return is NaN. *)
Lemma not_after_code_order a b :
  daily_return a <> Py.NaN -> daily_return b <> Py.NaN ->
  not_after a b -> code_order a b.
Proof.
  unfold not_after, code_order, sort_key, key_lt, Py.fleb.
  intros Ha Hb.
  rewrite OrderFacts.feqb_fneg, OrderFacts.fltb_fneg.
  rewrite (OrderFacts.feqb_sym (daily_return b) (daily_return a)).
  destruct (Py.feqb (daily_return a) (daily_return b)) eqn:Ed; simpl.
  - intros H. split; [now rewrite orb_true_r|]. intros _.
    rewrite (OrderFacts.string_eqb_sym (region b) (region a)) in H.
    destruct (String.eqb_spec (region a) (region b)) as [Er|Er]; simpl in H.
    + split.
      * rewrite Er. apply OrderFacts.string_leb_refl.
      * intros _. now apply OrderFacts.string_ltb_false_leb.
    + split; [now apply OrderFacts.string_ltb_false_leb|].
      intros E. contradiction.
  - intros H. split; [|discriminate].
    rewrite orb_false_r.
    apply OrderFacts.fltb_total; [exact Ha|exact Hb|exact Ed|exact H].
Qed.

Lemma Sorted_strengthen {A : Type} (P : A -> Prop) (R R' : A -> A -> Prop)
    (l : list A) :
  (forall a b, P a -> P b -> R a b -> R' a b) ->
  Forall P l -> Sorted R l -> Sorted R' l.
Proof.
  intros Himp HP Hs. induction Hs as [|a l Hs IH Hhd]; [constructor|].
  inversion HP as [|? ? Pa Pl]; subst. constructor; [now apply IH|].
  destruct Hhd as [|b l Hab]; constructor.
  inversion Pl; subst. now apply Himp.
Qed.

(** Addresses sorted by [addr_lt] denote suggestions sorted by [not_after],
    when all of them lie in the store. *)
Lemma deref_Sorted (h : store) (refs : list addr) :
  Forall (fun r => (r < length h)%nat) refs ->
  Sorted (not_smaller (addr_lt h)) refs ->
  Sorted not_after (deref h refs).
Proof.
  intros Hv Hs. induction Hs as [|r refs Hs IH Hhd]; [constructor|].
  inversion Hv as [|? ? Hr Hrefs]; subst.
  rewrite deref_cons.
  destruct (lookup_lt_is_Some_2 h r Hr) as [a Ha]. rewrite Ha.
  constructor; [now apply IH|].
  destruct Hhd as [|r2 refs Hlt]; [constructor|].
  inversion Hrefs as [|? ? Hr2 _]; subst.
  rewrite deref_cons.
  destruct (lookup_lt_is_Some_2 h r2 Hr2) as [b Hb]. rewrite Hb.
  constructor. unfold not_after. unfold not_smaller, addr_lt in Hlt.
  now rewrite Ha, Hb in Hlt.
Qed.

(** The list that is handed to the enrichment is in the code's order. *)
Lemma sorted_before_enrichment m amount symbols :
  let res := build_suggestions m amount symbols in
  Sorted code_order (deref res.1 (list_sort (addr_lt res.1) res.2)).
Proof.
  intros res.
  destruct (build_suggestions_spec m amount symbols) as [Hnan Hvalid].
  fold res in Hnan, Hvalid.
  apply (Sorted_strengthen (fun s => daily_return s <> Py.NaN) not_after).
  - intros a b. apply not_after_code_order.
  - now apply deref_Forall.
  - apply deref_Sorted.
    + rewrite (SortFacts.list_sort_Permutation (addr_lt res.1) res.2).
      exact Hvalid.
    + apply SortFacts.list_sort_Sorted. apply SortFacts.addr_lt_asym.
Qed.

(** The sample run: AAPL, built first, is flat and classified low; MSFT
    moved and is classified high; the sort puts MSFT first. *)
Example sample_run :
  map (fun s => (symbol s, region s, risk_level s, daily_return s))
      (get_investment_suggestions sample_market
         NewsSpec.analyzer_without_service 1000 false)
  = [ ("MSFT", "US", "high", Py.Fin (0 / 50));
      ("AAPL", "US", "low", Py.Fin (0 / 100)) ].
Proof. vm_compute. reflexivity. Qed.

(** C1 as stated fails: in the sample run the two suggestions have equal
    daily returns and equal regions, and the one of risk high precedes the
    one of risk low. *)
Lemma ranking_breaks_risk_ordering :
  ~ Sorted spec_order
      (get_investment_suggestions sample_market
         NewsSpec.analyzer_without_service 1000 false).
Proof.
  intros Hs.
  remember (get_investment_suggestions sample_market
              NewsSpec.analyzer_without_service 1000 false) as out eqn:Eout.
  vm_compute in Eout. subst out.
  apply Sorted_inv in Hs as [_ Hhd]. apply HdRel_inv in Hhd.
  destruct Hhd as [_ Hrest]. destruct (Hrest eq_refl) as [_ Hrisk].
  destruct (Hrisk eq_refl) as (i & j & Hi & Hj & Hle).
  vm_compute in Hi, Hj. injection Hi as <-. injection Hj as <-. lia.
Qed.

(** C1, amended.  For every call the returned sequence is sorted by the key
    (-daily return, region, risk label), all three compared as the values
    they are: for neighbours [a] before [b], [a]'s daily return is at least
    [b]'s; on equal returns [a]'s region is at most [b]'s as a string; and on
    equal regions as well, [a]'s risk label is at most [b]'s as a string,
    which orders the labels extreme < high < low < medium. *)
Theorem ranking_sorted_by_code_key m news amount include_growth_stocks :
  Sorted code_order
    (get_investment_suggestions m news amount include_growth_stocks)
  /\ String.ltb "extreme" "high" = true
  /\ String.ltb "high" "low" = true
  /\ String.ltb "low" "medium" = true.
Proof.
  split; [|now vm_compute].
  unfold get_investment_suggestions, get_investment_suggestions_in_store.
  pose proof (sorted_before_enrichment m amount
                (stock_symbols include_growth_stocks)) as Hsorted.
  destruct (build_suggestions m amount (stock_symbols include_growth_stocks))
    as [h refs]. simpl in Hsorted.
  set (lookup := fun sym name =>
         Py.Ok (NewsAnalyzer.get_stock_news_summary news sym (Some name))).
  destruct (enhance_suggestions_with_news_spec lookup h
              (list_sort (addr_lt h) refs)) as (_ & _ & _ & _ & _ & _ & Hkeep).
  destruct (enhance_suggestions_with_news lookup h (list_sort (addr_lt h) refs))
    as [h' out]. simpl in Hkeep. now apply Hkeep.
Qed.

End RankingFacts.


(** ** Sums of exact numbers *)

Module SumFacts.

Lemma foldl_Qplus (l : list Q) (a : Q) :
  (foldl Qplus a l == a + foldl Qplus 0 l)%Q.
Proof.
  revert a. induction l as [|x l IH]; intros a; simpl.
  - lra.
  - rewrite (IH (a + x)%Q), (IH (0 + x)%Q). lra.
Qed.

Lemma sum_nil : Py.sum [] = 0%Q.
Proof. reflexivity. Qed.

Lemma sum_cons (x : Q) (l : list Q) : (Py.sum (x :: l) == x + Py.sum l)%Q.
Proof.
  unfold Py.sum. simpl. rewrite foldl_Qplus. lra.
Qed.

Lemma sum_app (l1 l2 : list Q) :
  (Py.sum (l1 ++ l2) == Py.sum l1 + Py.sum l2)%Q.
Proof.
  induction l1 as [|x l1 IH]; simpl.
  - rewrite sum_nil. lra.
  - rewrite !sum_cons, IH. lra.
Qed.


(** A sum of numbers between two bounds lies between the bounds times the
    number of terms. *)
Lemma sum_bounds (lo hi : Q) (l : list Q) :
  Forall (fun x => lo <= x <= hi)%Q l ->
  (lo * inject_Z (Z.of_nat (length l)) <= Py.sum l
   <= hi * inject_Z (Z.of_nat (length l)))%Q.
Proof.
  induction 1 as [|x l Hx _ IH].
  - rewrite sum_nil. change (inject_Z (Z.of_nat (length (@nil Q)))) with 0%Q.
    lra.
  - rewrite sum_cons. cbn [length]. rewrite Nat2Z.inj_succ.
    unfold Z.succ. rewrite inject_Z_plus.
    change (inject_Z 1) with 1%Q. rewrite !Qmult_plus_distr_r. lra.
Qed.

(** The mean of a non-empty list lies between the bounds of its terms. *)
Lemma mean_bounds (lo hi : Q) (l : list Q) :
  l <> [] ->
  Forall (fun x => lo <= x <= hi)%Q l ->
  (lo <= Py.sum l / inject_Z (Z.of_nat (length l)) <= hi)%Q.
Proof.
  intros Hne Hall. pose proof (sum_bounds lo hi l Hall) as [Hlo Hhi].
  assert (Hn : (0 < inject_Z (Z.of_nat (length l)))%Q).
  { destruct l; [congruence|]. cbn [length]. rewrite Nat2Z.inj_succ.
    unfold Z.succ. rewrite inject_Z_plus.
    assert (0 <= inject_Z (Z.of_nat (length l)))%Q.
    { change 0%Q with (inject_Z 0). rewrite <- Zle_Qle. lia. }
    change (inject_Z 1) with 1%Q. lra. }
  split.
  - apply Qle_shift_div_l; [exact Hn|exact Hlo].
  - apply Qle_shift_div_r; [exact Hn|exact Hhi].
Qed.

End SumFacts.

(** ** The value of the portfolio *)

Module ValueFacts.
Import MockPortfolio LedgerSpec.






End ValueFacts.

(** ** Sequences of ledger operations *)

Module LedgerOpsFacts.
Import MockPortfolio LedgerSpec SpendingSpec LedgerOps.

Lemma str_in_buy_sell act :
  act <> "buy" -> act <> "sell" -> Py.str_in act ["buy"; "sell"] = false.
Proof.
  intros Hb Hs. unfold Py.str_in. simpl.
  apply String.eqb_neq in Hb, Hs. now rewrite Hb, Hs.
Qed.

(** X3.  An action other than buy, sell and dividend, such
    as the dividend_reinvest that the spending estimate looks for, is only
    logged: cash, holdings and the value of the portfolio stay as they are,
    and the logged total is the [shares] argument. *)
Theorem other_actions_are_logged_only now self sym act s prc :
  act <> "buy" -> act <> "sell" -> act <> "dividend" ->
  let self' := add_transaction now self sym act s prc in
  cash_balance self' = cash_balance self
  /\ holdings self' = holdings self
  /\ get_portfolio_value self' = get_portfolio_value self
  /\ exists tx,
       transactions self' = transactions self ++ [tx]
       /\ action tx = act /\ total_value tx = s.
Proof.
  intros Hb Hs Hd self'.
  assert (E : self'
    = {| initial_cash := initial_cash self;
         cash_balance := cash_balance self;
         holdings := holdings self;
         transactions :=
           transactions self
           ++ [ {| id := "manual_" +:+ pretty (length (transactions self));
                   symbol := sym; action := act; shares := s;
                   price := price_used sym prc; timestamp := now;
                   total_value := s |} ];
         _last_reset_time := _last_reset_time self |}).
  { unfold self', add_transaction.
    rewrite (str_in_buy_sell act Hb Hs).
    apply String.eqb_neq in Hb, Hs, Hd. rewrite Hb, Hs, Hd.
    destruct prc; reflexivity. }
  rewrite E. conjuncts; try reflexivity.
  eexists. conjuncts; reflexivity.
Qed.

Lemma other_actions_are_logged_only_witness :
  cash_balance
    (add_transaction SampleTime.sample_now ledger_two_aapl "AAPL"
                     "dividend_reinvest" 25 None)
  = cash_balance ledger_two_aapl.
Proof.
  apply (other_actions_are_logged_only SampleTime.sample_now ledger_two_aapl
           "AAPL" "dividend_reinvest" 25 None); discriminate.
Defined.

(** The window of the history after a call at the same clock reading. *)
Lemma history_after_add now self sym act s prc days :
  0 <= days ->
  exists tx,
    get_transaction_history now (add_transaction now self sym act s prc) days
    = get_transaction_history now self days ++ [tx]
    /\ action tx = act /\ timestamp tx = now
    /\ total_value tx
       = if Py.str_in act ["buy"; "sell"] then (s * price_used sym prc)%Q
         else s.
Proof.
  intros Hd.
  destruct (LedgerFacts.add_transaction_log now self sym act s prc)
    as (tx & Hlog & _ & Ha & _ & _ & Ht & Hv).
  exists tx. unfold get_transaction_history. rewrite Hlog.
  rewrite List.filter_app. simpl. rewrite Ht.
  assert (Hin : (now - Datetime.timedelta_days days <=? now) && (now <=? now)
                = true).
  { apply andb_true_intro. split; apply Z.leb_le;
      unfold Datetime.timedelta_days, Datetime.MICROS_PER_DAY; lia. }
  rewrite Hin. auto.
Qed.

Lemma groupby_sum_singleton key tx :
  groupby_sum key [tx] = [(key tx, total_value tx)].
Proof. reflexivity. Qed.

(** X4.  A dividend_reinvest of amount [a] moves no cash and no
    shares, yet the spending estimate counts it: logged on a ledger whose
    window holds no spending, it makes the daily average [a] and the monthly
    average [30 * a]. *)
Theorem reinvested_dividend_counts_as_spending now self sym a prc days :
  0 <= days ->
  spending_in_window now self days = [] ->
  let self' := add_transaction now self sym "dividend_reinvest" a prc in
  cash_balance self' = cash_balance self
  /\ holdings self' = holdings self
  /\ exists sp,
       calculate_spending_patterns now self' days = Some sp
       /\ (daily_average sp == a)%Q
       /\ (monthly_average sp == a * 30)%Q.
Proof.
  intros Hd Hnone self'.
  split; [reflexivity|]. split; [reflexivity|].
  destruct (history_after_add now self sym "dividend_reinvest" a prc days Hd)
    as (tx & Hh & Ha & _ & Hv).
  fold self' in Hh. simpl in Hv.
  unfold calculate_spending_patterns. rewrite Hh.
  destruct (get_transaction_history now self days ++ [tx]) as [|t0 ts] eqn:E.
  { now destruct (get_transaction_history now self days). }
  cbn [is_empty]. rewrite <- E. rewrite List.filter_app.
  unfold spending_in_window in Hnone. rewrite Hnone.
  simpl. rewrite Ha. simpl.
  eexists. split; [reflexivity|].
  cbn [daily_average monthly_average]. rewrite groupby_sum_singleton.
  unfold mean, Py.sum. cbn [map snd foldl length]. rewrite Hv.
  change (inject_Z (Z.of_nat 1)) with 1%Q. split; field.
Qed.

Lemma reinvested_dividend_counts_as_spending_witness :
  exists sp,
    calculate_spending_patterns SampleTime.sample_now
      (add_transaction SampleTime.sample_now ledger_one_sale "AAPL"
                       "dividend_reinvest" 40 None) 30 = Some sp
    /\ (daily_average sp == 40)%Q
    /\ (monthly_average sp == 40 * 30)%Q.
Proof.
  apply (reinvested_dividend_counts_as_spending SampleTime.sample_now
           ledger_one_sale "AAPL" 40 None 30).
  - lia.
  - vm_compute. reflexivity.
Defined.

Lemma apply_operations_log (ops : list operation) :
  forall self,
    exists added,
      transactions (apply_operations self ops) = transactions self ++ added
      /\ map id added
         = map (fun i => "manual_"
                         +:+ pretty (length (transactions self) + i)%nat)
               (seq 0 (length ops)).
Proof.
  induction ops as [|op ops IH]; intros self.
  - exists []. split; [now rewrite app_nil_r|reflexivity].
  - cbn [apply_operations foldl].
    fold (apply_operations
            (add_transaction (op_now op) self (op_symbol op) (op_action op)
                             (op_shares op) (op_price op)) ops).
    destruct (IH (add_transaction (op_now op) self (op_symbol op)
                    (op_action op) (op_shares op) (op_price op)))
      as (added & Hlog & Hids).
    destruct (LedgerFacts.add_transaction_log (op_now op) self (op_symbol op)
                (op_action op) (op_shares op) (op_price op))
      as (tx & Htx & _).
    assert (Hid : id tx = "manual_" +:+ pretty (length (transactions self))).
    { assert (Hl : last (transactions
                (add_transaction (op_now op) self (op_symbol op)
                   (op_action op) (op_shares op) (op_price op))) = Some tx)
        by (rewrite Htx; apply last_snoc).
      unfold add_transaction in Hl.
      destruct (String.eqb (op_action op) "buy");
        [|destruct (String.eqb (op_action op) "sell");
          [|destruct (String.eqb (op_action op) "dividend")]];
        cbn [transactions] in Hl; rewrite last_snoc in Hl;
        injection Hl as <-; reflexivity. }
    rewrite Htx, length_app in Hids. cbn [length] in Hids.
    exists (tx :: added). rewrite Hlog, Htx, <- app_assoc.
    split; [reflexivity|].
    cbn [map length seq]. rewrite Hid, Nat.add_0_r. f_equal.
    rewrite Hids.
    rewrite <- seq_shift, map_map. apply map_ext. intros i.
    do 2 f_equal. lia.
Qed.

Lemma manual_id_inj (i j : nat) :
  "manual_" +:+ pretty i = "manual_" +:+ pretty j -> i = j.
Proof.
  intros H. apply (inj (String.app "manual_")) in H.
  now apply (inj pretty) in H.
Qed.

(** X5.  Whatever sequence of calls of [add_transaction] is made, the
    log only grows at its end, by one transaction per call, and the
    identifiers given to the new transactions are pairwise distinct. *)
Theorem manual_ids_are_distinct self ops :
  let final := apply_operations self ops in
  take (length (transactions self)) (transactions final) = transactions self
  /\ length (appended self final) = length ops
  /\ NoDup (map id (appended self final)).
Proof.
  intros final. unfold appended.
  destruct (apply_operations_log ops self) as (added & Hlog & Hids).
  fold final in Hlog. rewrite Hlog.
  rewrite take_app_length, drop_app_length.
  assert (Hlen : length added = length ops).
  { rewrite <- (length_map id added), Hids, length_map. apply length_seq. }
  conjuncts; [reflexivity|exact Hlen|].
  rewrite Hids. apply NoDup_fmap_2_strong; [|apply NoDup_seq].
  intros i j _ _ H. apply manual_id_inj in H. lia.
Qed.

Lemma List_filter_sublist {A : Type} (f : A -> bool) (l : list A) :
  sublist (List.filter f l) l.
Proof.
  induction l as [|x l IH]; simpl; [constructor|].
  destruct (f x); now constructor.
Qed.

End LedgerOpsFacts.

(** ** Idle cash *)

Module IdleCashFacts.
Import MockPortfolio InvestmentAnalyzer.

(** X6.  [get_idle_cash] is never negative.  When the ledger has
    a spending pattern it agrees with [identify_unused_funds]: the unused
    funds are the idle cash, and no result means less than 100 of idle
    cash.  Without a pattern the two keep different reserves, 1000 against
    1500: the idle cash is the unused funds plus 500, and no result means
    less than 600 of idle cash. *)
Theorem idle_cash_agrees_with_unused_funds now self :
  let pm := {| PortfolioMonitor.mock_portfolio := self |} in
  let idle := PortfolioMonitor.get_idle_cash now pm in
  (0 <= idle)%Q
  /\ (calculate_spending_patterns now self 30 <> None ->
      match identify_unused_funds now pm with
      | Some data => (idle == unused_funds data)%Q
      | None => (idle < 100)%Q
      end)
  /\ (calculate_spending_patterns now self 30 = None ->
      match identify_unused_funds now pm with
      | Some data => (idle == unused_funds data + 500)%Q
      | None => (idle < 600)%Q
      end).
Proof.
  intros pm idle.
  unfold idle, PortfolioMonitor.get_idle_cash, get_idle_cash,
    identify_unused_funds, PortfolioMonitor.calculate_spending_patterns,
    PortfolioMonitor.get_cash_balance, MockPortfolio.get_cash_balance.
  cbn [PortfolioMonitor.mock_portfolio pm].
  destruct (calculate_spending_patterns now self 30) as [sp|]; cbn zeta.
  - split; [apply py_max_0_nonneg|]. split; [intros _|congruence].
    set (u := (cash_balance self - MockPortfolio.monthly_average sp * 1)%Q).
    unfold Config.MIN_INVESTMENT_AMOUNT.
    destruct (Qle_bool 100 u) eqn:E.
    + apply Qle_bool_iff in E. cbn [unused_funds].
      unfold Py.max. destruct (Py.Qltb 0 u) eqn:E0; [reflexivity|].
      apply Qltb_ge in E0. lra.
    + assert (Hu : (u < 100)%Q).
      { apply Qnot_le_lt. intros Hle. apply Qle_bool_iff in Hle. congruence. }
      unfold Py.max. destruct (Py.Qltb 0 u); lra.
  - split; [apply py_max_0_nonneg|]. split; [congruence|intros _].
    set (u := (cash_balance self - 1500 * 1)%Q).
    unfold Config.MIN_INVESTMENT_AMOUNT.
    destruct (Qle_bool 100 u) eqn:E.
    + apply Qle_bool_iff in E. cbn [unused_funds]. unfold u in *.
      unfold Py.max. destruct (Py.Qltb 0 (cash_balance self - 1000)) eqn:E0.
      * lra.
      * apply Qltb_ge in E0. lra.
    + assert (Hu : (u < 100)%Q).
      { apply Qnot_le_lt. intros Hle. apply Qle_bool_iff in Hle. congruence. }
      unfold u in Hu.
      unfold Py.max. destruct (Py.Qltb 0 (cash_balance self - 1000)); lra.
Qed.

End IdleCashFacts.

(** ** The monitor *)

Module MonitorFacts.
Import MockPortfolio.






End MonitorFacts.

(** ** Diversification *)

Module DiversificationFacts.
Import MockPortfolio LedgerSpec DiversificationSpec MonitorFacts.







Lemma sum_nonneg (l : list Q) :
  Forall (fun x => 0 <= x)%Q l -> (0 <= Py.sum l)%Q.
Proof.
  induction 1 as [|x l Hx _ IH].
  - rewrite SumFacts.sum_nil. lra.
  - rewrite SumFacts.sum_cons. lra.
Qed.

Lemma sum_nonneg_zero (l : list Q) :
  Forall (fun x => 0 <= x)%Q l ->
  (Py.sum l == 0)%Q <-> Forall (fun x => x == 0)%Q l.
Proof.
  induction 1 as [|x l Hx Hl IH].
  - split; [constructor|reflexivity].
  - rewrite SumFacts.sum_cons. pose proof (sum_nonneg l Hl) as Hs. split.
    + intros H. constructor; [lra|]. apply IH. lra.
    + intros H. apply Forall_cons in H as [H0 Hr]. apply IH in Hr. lra.
Qed.




End DiversificationFacts.

(** ** A ledger fresh from its constructor *)

Module FreshLedgerFacts.
Import MockPortfolio LedgerSpec SpendingSpec FreshSpec LedgerOpsFacts
  DiversificationFacts.

Lemma length_flat_map_le {A B : Type} (f : A -> list B) (n : nat) (l : list A) :
  (forall x, (length (f x) <= n)%nat) ->
  (length (flat_map f l) <= n * length l)%nat.
Proof.
  intros Hf. induction l as [|x l IH]; simpl; [lia|].
  rewrite length_app. specialize (Hf x). lia.
Qed.

Lemma initial_round_length start draws i :
  (length (initial_round start draws i) <= 2)%nat.
Proof.
  unfold initial_round. cbn zeta. rewrite length_app.
  destruct (Py.Qltb 0.7 _), (Py.Qltb 0.6 _); simpl; lia.
Qed.

Lemma initial_round_stamp start draws i tx :
  tx ∈ initial_round start draws i ->
  timestamp tx = start + Datetime.timedelta_days (Z.of_nat i * 3).
Proof.
  unfold initial_round. cbn zeta. intros H.
  apply elem_of_app in H as [H|H].
  - destruct (Py.Qltb 0.7 _); [|now apply not_elem_of_nil in H].
    apply list_elem_of_singleton in H. now subst tx.
  - destruct (Py.Qltb 0.6 _); [|now apply not_elem_of_nil in H].
    apply list_elem_of_singleton in H. now subst tx.
Qed.

(** X9.  A ledger fresh from its constructor has the given cash as
    initial and current balance, the five initial holdings, and a value of
    the cash plus 7053.05.  Its log is at most twenty generated transactions,
    each stamped on one of ten dates three days apart from thirty days before
    the clock reading, followed by one buy per initial holding.  The initial
    buys are logged and held, but their cost never leaves the cash. *)
Theorem fresh_ledger_state clock draws cash :
  let self := __init__ clock draws cash in
  initial_cash self = cash
  /\ cash_balance self = cash
  /\ _last_reset_time self = clock 0%nat
  /\ holdings self = list_to_map initial_stocks
  /\ (get_portfolio_value self == cash + 7053.05)%Q
  /\ exists generated,
       transactions self
       = generated
         ++ imap (initial_holding_transaction (fun k => clock (2 + k)%nat))
                 initial_stocks
       /\ (length generated <= 20)%nat
       /\ Forall (fun tx =>
                    exists i, (i < 10)%nat
                      /\ timestamp tx
                         = clock 1%nat - Datetime.timedelta_days 30
                           + Datetime.timedelta_days (Z.of_nat i * 3))
                 generated.
Proof.
  intros self. conjuncts; try reflexivity.
  - unfold get_portfolio_value.
    assert (E : (holdings_value self == 7053.05)%Q).
    { unfold holdings_value. cbn [self __init__ _generate_initial_holdings holdings].
      vm_compute. reflexivity. }
    rewrite E. reflexivity.
  - eexists. split; [reflexivity|]. split.
    + apply (length_flat_map_le _ 2 (seq 0 10)). apply initial_round_length.
    + apply Forall_forall. intros tx Hin.
      apply list_elem_of_In, in_flat_map in Hin as (i & Hi & Hin).
      apply in_seq in Hi. exists i. split; [lia|].
      apply list_elem_of_In in Hin. now apply initial_round_stamp in Hin.
Qed.

Lemma group_add_fresh k v (groups : list (Z * Q)) :
  k ∉ map fst groups -> group_add k v groups = groups ++ [(k, v)].
Proof.
  induction groups as [|[k' v'] groups IH]; intros Hk; [reflexivity|].
  simpl in *. apply not_elem_of_cons in Hk as [Hne Hk].
  destruct (k =? k') eqn:E; [apply Z.eqb_eq in E; congruence|].
  now rewrite IH.
Qed.

Lemma groupby_sum_distinct key (txs : list Transaction) :
  NoDup (map key txs) ->
  groupby_sum key txs = map (fun tx => (key tx, total_value tx)) txs.
Proof.
  unfold groupby_sum.
  assert (H : forall acc,
    NoDup (map fst acc ++ map key txs) ->
    foldl (fun groups tx => group_add (key tx) (total_value tx) groups) acc txs
    = acc ++ map (fun tx => (key tx, total_value tx)) txs).
  { induction txs as [|tx txs IH]; intros acc Hnd; simpl.
    - now rewrite app_nil_r.
    - simpl in Hnd. rewrite group_add_fresh.
      + rewrite IH.
        * now rewrite <- app_assoc.
        * rewrite map_app. simpl. rewrite <- app_assoc. exact Hnd.
      + apply NoDup_app in Hnd as (_ & Hd & _). intros Hin.
        apply (Hd _ Hin). apply list_elem_of_here. }
  intros Hnd. now apply (H []).
Qed.

Lemma mean_of_distinct_groups key (txs : list Transaction) :
  NoDup (map key txs) ->
  mean (groupby_sum key txs)
  = (Py.sum (map total_value txs) / inject_Z (Z.of_nat (length txs)))%Q.
Proof.
  intros Hnd. unfold mean. rewrite (groupby_sum_distinct key txs Hnd).
  rewrite map_map, length_map. reflexivity.
Qed.

Lemma List_filter_sublist_mono {A : Type} (f : A -> bool) (l1 l2 : list A) :
  sublist l1 l2 -> sublist (List.filter f l1) (List.filter f l2).
Proof.
  induction 1 as [|x l1 l2 _ IH|x l1 l2 _ IH]; simpl.
  - constructor.
  - destruct (f x); [now constructor|exact IH].
  - destruct (f x); [now constructor|exact IH].
Qed.

(** The spending rows that the random rounds log: at most the trade of
    each round. *)
Lemma initial_round_spending start draws i :
  let d := draws i in
  List.filter is_spending (initial_round start draws i) = []
  \/ exists tx,
       List.filter is_spending (initial_round start draws i) = [tx]
       /\ timestamp tx = start + Datetime.timedelta_days (Z.of_nat i * 3)
       /\ total_value tx
          = (trade_shares d
             * (_get_mock_price (trade_symbol d) * price_factor d))%Q.
Proof.
  intros d. unfold initial_round. cbn zeta. rewrite List.filter_app.
  fold d.
  assert (Hdiv : forall l : list Transaction,
    List.filter is_spending
      (if Py.Qltb 0.7 (dividend_draw d) then
         [ {| id := "dividend_" +:+ pretty i; symbol := "DIVIDEND";
              action := "dividend"; shares := 0; price := 0;
              timestamp := start + Datetime.timedelta_days (Z.of_nat i * 3);
              total_value := dividend_amount d |} ]
       else []) ++ l = l).
  { intros l. now destruct (Py.Qltb 0.7 (dividend_draw d)). }
  rewrite Hdiv.
  destruct (Py.Qltb 0.6 (trade_draw d)); [|now left].
  cbn [List.filter]. destruct (is_spending _); [|now left].
  right. eexists. split; [reflexivity|]. split; reflexivity.
Qed.

Lemma date_of_round start i j :
  Datetime.date (start + Datetime.timedelta_days (Z.of_nat i * 3))
  = Datetime.date (start + Datetime.timedelta_days (Z.of_nat j * 3)) ->
  i = j.
Proof.
  unfold Datetime.date, Datetime.timedelta_days.
  rewrite !Z.div_add by (unfold Datetime.MICROS_PER_DAY; lia). lia.
Qed.

Section RandomRounds.
Variables (start : Z) (draws : nat -> random_draws).
Hypothesis Hrange : draws_in_range draws.

Lemma rounds_spending (rounds : list nat) :
  NoDup rounds ->
  let spending :=
    List.filter is_spending (flat_map (initial_round start draws) rounds) in
  NoDup (map (fun tx => Datetime.date (timestamp tx)) spending)
  /\ Forall (fun k => exists i, i ∈ rounds
               /\ k = Datetime.date
                        (start + Datetime.timedelta_days (Z.of_nat i * 3)))
            (map (fun tx => Datetime.date (timestamp tx)) spending)
  /\ Forall (fun tx => 133.7125 <= total_value tx <= 946.68)%Q spending.
Proof.
  induction 1 as [|i rounds Hi Hnd IH]; cbn zeta.
  - simpl. repeat split; constructor.
  - destruct IH as (IH1 & IH2 & IH3).
    cbn [flat_map]. rewrite List.filter_app.
    destruct (initial_round_spending start draws i)
      as [E|(tx & E & Ht & Hv)]; rewrite E; cbn [app map].
    + repeat split; [exact IH1| |exact IH3].
      eapply Forall_impl; [exact IH2|]. intros k (j & Hj & ->).
      exists j. split; [now apply list_elem_of_further|reflexivity].
    + repeat split.
      * constructor; [|exact IH1]. intros Hin.
        rewrite Forall_forall in IH2. destruct (IH2 _ Hin) as (j & Hj & Hk).
        cbn beta in Hk. rewrite Ht in Hk. apply date_of_round in Hk.
        now subst j.
      * constructor.
        -- exists i. split; [apply list_elem_of_here|]. cbn beta.
           now rewrite Ht.
        -- eapply Forall_impl; [exact IH2|]. intros k (j & Hj & ->).
           exists j. split; [now apply list_elem_of_further|reflexivity].
      * constructor; [|exact IH3]. rewrite Hv.
        destruct (Hrange i) as (Hsym & Hsh & Hf).
        set (sh := trade_shares (draws i)) in *.
        set (f := price_factor (draws i)) in *.
        assert (Hp : (140.75 <= _get_mock_price (trade_symbol (draws i))
                      <= 450.8)%Q).
        { repeat (apply elem_of_cons in Hsym as [->|Hsym];
                  [vm_compute; split; discriminate|]).
          now apply not_elem_of_nil in Hsym. }
        set (p := _get_mock_price (trade_symbol (draws i))) in *.
        assert (Hpf : (133.7125 <= p * f <= 473.34)%Q) by (split; nra).
        set (pf := (p * f)%Q) in *. split; nra.
Qed.

End RandomRounds.

End FreshLedgerFacts.

(** ** The unused funds of a fresh monitor *)

Module FreshFundsFacts.
Import MockPortfolio LedgerSpec SpendingSpec InvestmentAnalyzer FreshSpec
  LedgerOpsFacts DiversificationFacts FreshLedgerFacts.

Lemma Forall_of_sublist {A : Type} (P : A -> Prop) (l1 l2 : list A) :
  sublist l1 l2 -> Forall P l2 -> Forall P l1.
Proof.
  induction 1 as [|x l1 l2 _ IH|x l1 l2 _ IH]; intros H.
  - constructor.
  - apply Forall_cons in H as [Hx H]. constructor; auto.
  - apply Forall_cons in H as [_ H]. auto.
Qed.

Lemma fresh_monthly_average clock draws now :
  draws_in_range draws ->
  (forall k, (2 <= k <= 6)%nat -> clock k < now) ->
  (1500 <= IdleFundsSpec.monthly_average_used now
             (PortfolioMonitor.__init__ clock draws) <= 28400.4)%Q.
Proof.
  intros Hrange Hclock.
  unfold IdleFundsSpec.monthly_average_used,
    PortfolioMonitor.calculate_spending_patterns, PortfolioMonitor.__init__.
  cbn [PortfolioMonitor.mock_portfolio].
  set (self := __init__ clock draws 50000).
  set (start := clock 1%nat - Datetime.timedelta_days 30).
  set (rounds := flat_map (initial_round start draws) (seq 0 10)).
  set (inside := fun tx : Transaction =>
         (now - Datetime.timedelta_days 30 <=? timestamp tx)
         && (timestamp tx <=? now)).
  assert (Hh : get_transaction_history now self 30
               = List.filter inside rounds).
  { unfold get_transaction_history. cbn zeta. fold inside.
    change (transactions self)
      with (rounds ++ imap (initial_holding_transaction
                              (fun k => clock (2 + k)%nat)) initial_stocks).
    rewrite List.filter_app.
    assert (Hout : forall k sym shrs, (k < 5)%nat ->
      inside (initial_holding_transaction (fun k => clock (2 + k)%nat) k
                (sym, shrs)) = false).
    { intros k sym shrs Hk. unfold inside. cbn [initial_holding_transaction timestamp].
      apply andb_false_iff. left. apply Z.leb_gt.
      specialize (Hclock (2 + k)%nat ltac:(lia)). lia. }
    cbn [imap initial_stocks List.filter compose].
    rewrite !Hout by lia. apply app_nil_r. }
  unfold calculate_spending_patterns. rewrite Hh.
  destruct (List.filter inside rounds) as [|t0 ts] eqn:Ew; [cbn; lra|].
  cbn [is_empty]. rewrite <- Ew.
  change (fun tx : Transaction =>
            String.eqb (action tx) "buy"
            || String.eqb (action tx) "dividend_reinvest") with is_spending.
  set (sp := List.filter is_spending (List.filter inside rounds)).
  assert (Hsub : sublist sp (List.filter is_spending rounds)).
  { apply List_filter_sublist_mono, List_filter_sublist. }
  destruct (rounds_spending start draws Hrange (seq 0 10) (NoDup_seq 0 10))
    as (Hnd & _ & Hb).
  fold rounds in Hnd, Hb.
  assert (Hnd' : NoDup (map (fun tx => Datetime.date (timestamp tx)) sp)).
  { eapply sublist_NoDup; [exact Hnd|].
    apply (fmap_sublist (fun tx => Datetime.date (timestamp tx))).
    exact Hsub. }
  assert (Hb' : Forall (fun tx => 133.7125 <= total_value tx <= 946.68)%Q sp).
  { eapply Forall_of_sublist; eassumption. }
  destruct sp as [|s0 ss] eqn:Es; [cbn; lra|].
  cbn [is_empty]. rewrite (groupby_sum_distinct _ _ Hnd').
  cbn [map is_empty negb monthly_average].
  change ((Datetime.date (timestamp s0), total_value s0)
          :: map (fun tx => (Datetime.date (timestamp tx), total_value tx)) ss)
    with (map (fun tx => (Datetime.date (timestamp tx), total_value tx))
              (s0 :: ss)).
  unfold mean. rewrite map_map, length_map. cbn [snd].
  rewrite <- (length_map total_value (s0 :: ss)).
  assert (Hm : (133.7125
                <= Py.sum (map total_value (s0 :: ss))
                   / inject_Z (Z.of_nat (length (map total_value (s0 :: ss))))
                <= 946.68)%Q).
  { apply SumFacts.mean_bounds; [discriminate|].
    apply Forall_forall. intros x Hx.
    apply list_elem_of_fmap in Hx as (tx & -> & Hin).
    rewrite Forall_forall in Hb'. now apply Hb'. }
  cbn [MockPortfolio.monthly_average].
  change (fun x : Transaction => total_value x) with total_value.
  lra.
Qed.

Lemma fresh_unused_funds clock draws now :
  draws_in_range draws ->
  (forall k, (2 <= k <= 6)%nat -> clock k < now) ->
  exists data,
    identify_unused_funds now (PortfolioMonitor.__init__ clock draws)
    = Some data
    /\ total_balance data = 50000%Q
    /\ (21599.6 <= unused_funds data <= 48500)%Q.
Proof.
  intros Hrange Hclock.
  set (pm := PortfolioMonitor.__init__ clock draws).
  pose proof (fresh_monthly_average clock draws now Hrange Hclock) as Hm.
  fold pm in Hm.
  assert (E : identify_unused_funds now pm
    = let monthly := IdleFundsSpec.monthly_average_used now pm in
      if Qle_bool Config.MIN_INVESTMENT_AMOUNT (50000 - monthly * 1)
      then Some {| total_balance := 50000;
                   monthly_average := monthly;
                   unused_funds := 50000 - monthly * 1;
                   threshold := monthly * (1 + Config.UNUSED_BALANCE_THRESHOLD);
                   available_for_investment := 50000 - monthly * 1 |}
      else None) by reflexivity.
  rewrite E. cbn zeta.
  set (monthly := IdleFundsSpec.monthly_average_used now pm) in *.
  unfold Config.MIN_INVESTMENT_AMOUNT.
  destruct (Qle_bool 100 (50000 - monthly * 1)) eqn:Ele.
  - eexists. split; [reflexivity|]. cbn [total_balance unused_funds].
    split; [reflexivity|lra].
  - exfalso. assert (Hle : (100 <= 50000 - monthly * 1)%Q) by lra.
    apply Qle_bool_iff in Hle. congruence.
Qed.

(** X10.  When the random draws are in the ranges of their
    generators and the five initial buys are stamped before the clock
    reading of the check, a fresh monitor always has unused funds: the
    balance is 50000, the unused funds lie between 21599.60 and 48500, and
    the amount offered for investment is the configured maximum. *)
Theorem fresh_monitor_has_unused_funds clock draws now :
  draws_in_range draws ->
  (forall k, (2 <= k <= 6)%nat -> clock k < now) ->
  let pm := PortfolioMonitor.__init__ clock draws in
  exists data,
    identify_unused_funds now pm = Some data
    /\ total_balance data = 50000%Q
    /\ (21599.6 <= unused_funds data <= 48500)%Q
    /\ exists amount,
         Main.offered_amount now pm = Some amount
         /\ (amount == Config.MAX_INVESTMENT_AMOUNT)%Q.
Proof.
  intros Hrange Hclock pm.
  pose proof (fresh_monthly_average clock draws now Hrange Hclock) as Hm.
  fold pm in Hm.
  unfold Main.offered_amount.
  assert (E : identify_unused_funds now pm
    = let monthly := IdleFundsSpec.monthly_average_used now pm in
      if Qle_bool Config.MIN_INVESTMENT_AMOUNT (50000 - monthly * 1)
      then Some {| total_balance := 50000;
                   monthly_average := monthly;
                   unused_funds := 50000 - monthly * 1;
                   threshold := monthly * (1 + Config.UNUSED_BALANCE_THRESHOLD);
                   available_for_investment := 50000 - monthly * 1 |}
      else None) by reflexivity.
  rewrite E. cbn zeta.
  set (monthly := IdleFundsSpec.monthly_average_used now pm) in *.
  unfold Config.MIN_INVESTMENT_AMOUNT, Config.MAX_INVESTMENT_AMOUNT.
  destruct (Qle_bool 100 (50000 - monthly * 1)) eqn:Ele.
  - eexists. split; [reflexivity|]. cbn [total_balance unused_funds].
    split; [reflexivity|]. split; [lra|].
    eexists. split; [reflexivity|].
    unfold Py.min. destruct (Py.Qltb 10000 (50000 - monthly * 1)) eqn:El.
    + reflexivity.
    + apply Qltb_ge in El. lra.
  - exfalso. assert (Hle : (100 <= 50000 - monthly * 1)%Q) by lra.
    apply Qle_bool_iff in Hle. congruence.
Qed.

Lemma fresh_monitor_has_unused_funds_witness :
  exists data,
    identify_unused_funds (SampleTime.sample_now + 10)
      (PortfolioMonitor.__init__ FreshSpec.sample_clock FreshSpec.sample_draws) = Some data
    /\ total_balance data = 50000%Q
    /\ (21599.6 <= unused_funds data <= 48500)%Q
    /\ exists amount,
         Main.offered_amount (SampleTime.sample_now + 10)
           (PortfolioMonitor.__init__ FreshSpec.sample_clock FreshSpec.sample_draws) = Some amount
         /\ (amount == Config.MAX_INVESTMENT_AMOUNT)%Q.
Proof.
  apply (fresh_monitor_has_unused_funds FreshSpec.sample_clock FreshSpec.sample_draws
           (SampleTime.sample_now + 10)).
  - intros i. cbn. split; [apply list_elem_of_here|]. split; lra.
  - intros k Hk. unfold FreshSpec.sample_clock. lia.
Defined.

End FreshFundsFacts.

(** ** Sentiment *)

Module SentimentFacts.
Import NewsAnalyzer SentimentSpec DiversificationFacts.

Lemma capped_fifth (d : Z) :
  0 < d -> (0 < inject_Z (Z.min d 5) / 5 <= 1)%Q.
Proof.
  intros Hd.
  assert (H1 : (inject_Z 1 <= inject_Z (Z.min d 5))%Q)
    by (rewrite <- Zle_Qle; lia).
  assert (H5 : (inject_Z (Z.min d 5) <= inject_Z 5)%Q)
    by (rewrite <- Zle_Qle; lia).
  change (inject_Z 1) with 1%Q in H1. change (inject_Z 5) with 5%Q in H5.
  set (x := inject_Z (Z.min d 5)) in *. split.
  - apply Qlt_shift_div_l; lra.
  - apply Qle_shift_div_r; lra.
Qed.

Lemma score_item_label item : label_matches_sign (score_item item).
Proof.
  unfold label_matches_sign, score_item. cbn zeta.
  set (p := keyword_count positive_keywords _).
  set (n := keyword_count negative_keywords _).
  destruct (n <? p) eqn:E1; [|destruct (p <? n) eqn:E2];
    cbn [score scored_sentiment].
  - apply Z.ltb_lt in E1.
    pose proof (capped_fifth (p - n) ltac:(lia)) as [H0 H1].
    split; [lra|]. left. split; [reflexivity|exact H0].
  - apply Z.ltb_lt in E2.
    pose proof (capped_fifth (n - p) ltac:(lia)) as [H0 H1].
    set (x := inject_Z (Z.min (n - p) 5)) in *.
    assert (E : (- x / 5 == - (x / 5))%Q) by (field).
    rewrite E.
    split; [lra|]. right. left. split; [reflexivity|lra].
  - split; [lra|]. right. right. split; reflexivity.
Qed.

Lemma average_in_unit_interval (scores : list scored_item) :
  scores <> [] ->
  Forall label_matches_sign scores ->
  (-1 <= Py.sum (map score scores)
         / inject_Z (Z.of_nat (length scores)) <= 1)%Q.
Proof.
  intros Hne Hall. rewrite <- (length_map score scores).
  apply SumFacts.mean_bounds.
  - now destruct scores.
  - apply Forall_forall. intros x Hx.
    apply list_elem_of_fmap in Hx as (sc & -> & Hin).
    rewrite Forall_forall in Hall. now apply Hall.
Qed.

Lemma analyze_sentiment_unfold (news_items : list news_item) :
  news_items <> [] ->
  let scores := map score_item news_items in
  let avg := (Py.sum (map score scores)
              / inject_Z (Z.of_nat (length scores)))%Q in
  analyze_sentiment news_items
  = {| overall_sentiment :=
         if Py.Qltb 0.2 avg then "positive"
         else if Py.Qltb avg (-0.2) then "negative"
         else "neutral";
       average_score := avg;
       individual_scores := scores;
       total_articles := length scores |}.
Proof.
  intros Hne. destruct news_items; [congruence|]. reflexivity.
Qed.

(** X11.  [analyze_sentiment] scores every item it is given, in
    order and under the item's title.  Each score lies between -1 and 1 and
    its label agrees with its sign: positive above zero, negative below,
    neutral at zero.  The average score lies between -1 and 1. *)
Theorem sentiment_scores_are_bounded (news_items : list news_item) :
  let analysis := analyze_sentiment news_items in
  total_articles analysis = length news_items
  /\ map scored_title (individual_scores analysis) = map title news_items
  /\ Forall label_matches_sign (individual_scores analysis)
  /\ (-1 <= average_score analysis <= 1)%Q.
Proof.
  intros analysis.
  assert (Hall : Forall label_matches_sign (map score_item news_items)).
  { apply Forall_forall. intros sc Hin.
    apply list_elem_of_fmap in Hin as (item & -> & _). apply score_item_label. }
  assert (Htitles : map scored_title (map score_item news_items)
                    = map title news_items).
  { rewrite map_map. apply map_ext. intros item. unfold score_item. cbn zeta.
    destruct (_ <? _); [reflexivity|]. destruct (_ <? _); reflexivity. }
  destruct news_items as [|item rest].
  - cbn. repeat split; try constructor; lra.
  - assert (Hne : item :: rest <> []) by discriminate.
    unfold analysis. rewrite (analyze_sentiment_unfold _ Hne).
    cbn [total_articles individual_scores average_score].
    split; [apply length_map|]. split; [exact Htitles|]. split; [exact Hall|].
    apply average_in_unit_interval; [discriminate|exact Hall].
Qed.

(** Some score of the list is above (below) zero when the mean is. *)
Lemma positive_mean_has_positive_term (l : list Q) :
  (0 < Py.sum l)%Q -> Exists (fun x => 0 < x)%Q l.
Proof.
  induction l as [|x l IH]; intros H.
  - rewrite SumFacts.sum_nil in H. lra.
  - rewrite SumFacts.sum_cons in H.
    destruct (Qlt_le_dec 0 x) as [Hx|Hx]; [now left|].
    right. apply IH. lra.
Qed.

Lemma negative_mean_has_negative_term (l : list Q) :
  (Py.sum l < 0)%Q -> Exists (fun x => x < 0)%Q l.
Proof.
  induction l as [|x l IH]; intros H.
  - rewrite SumFacts.sum_nil in H. lra.
  - rewrite SumFacts.sum_cons in H.
    destruct (Qlt_le_dec x 0) as [Hx|Hx]; [now left|].
    right. apply IH. lra.
Qed.

Lemma mean_sign (s : Q) (n : nat) :
  (0 < n)%nat ->
  ((0 < s / inject_Z (Z.of_nat n) -> 0 < s)
   /\ (s / inject_Z (Z.of_nat n) < 0 -> s < 0))%Q.
Proof.
  intros Hn.
  assert (Hq : (0 < inject_Z (Z.of_nat n))%Q).
  { change 0%Q with (inject_Z 0). rewrite <- Zlt_Qlt. lia. }
  set (q := inject_Z (Z.of_nat n)) in *.
  assert (E : (s == s / q * q)%Q) by (field; lra).
  split; intros H; nra.
Qed.

(** X12.  The overall label of [analyze_sentiment] is positive,
    negative or neutral.  A positive label needs an average above 0.2 and
    at least one positive item, a negative label an average below -0.2 and
    at least one negative item; when every item is neutral, and in
    particular without items, the label is neutral and the average zero. *)
Theorem overall_label_has_support (news_items : list news_item) :
  let analysis := analyze_sentiment news_items in
  (overall_sentiment analysis = "positive"
   \/ overall_sentiment analysis = "negative"
   \/ overall_sentiment analysis = "neutral")
  /\ (overall_sentiment analysis = "positive" ->
      (0.2 < average_score analysis)%Q
      /\ Exists (fun sc => scored_sentiment sc = "positive")
                (individual_scores analysis))
  /\ (overall_sentiment analysis = "negative" ->
      (average_score analysis < -0.2)%Q
      /\ Exists (fun sc => scored_sentiment sc = "negative")
                (individual_scores analysis))
  /\ (Forall (fun sc => scored_sentiment sc = "neutral")
             (individual_scores analysis) ->
      overall_sentiment analysis = "neutral"
      /\ (average_score analysis == 0)%Q).
Proof.
  intros analysis.
  destruct news_items as [|item rest].
  { cbn. split; [auto|]. split; [discriminate|]. split; [discriminate|].
    intros _. split; reflexivity. }
  assert (Hne : item :: rest <> []) by discriminate.
  unfold analysis. rewrite (analyze_sentiment_unfold _ Hne). cbn zeta.
  cbn [overall_sentiment average_score individual_scores].
  set (scores := map score_item (item :: rest)).
  assert (Hall : Forall label_matches_sign scores).
  { apply Forall_forall. intros sc Hin.
    apply list_elem_of_fmap in Hin as (it & -> & _). apply score_item_label. }
  assert (Hlen : (0 < length scores)%nat) by (unfold scores; simpl; lia).
  destruct (mean_sign (Py.sum (map score scores)) (length scores) Hlen)
    as [Hpos Hneg].
  set (avg := (Py.sum (map score scores)
               / inject_Z (Z.of_nat (length scores)))%Q) in *.
  assert (Hsup_pos : (0 < avg)%Q ->
    Exists (fun sc => scored_sentiment sc = "positive") scores).
  { intros H. apply Hpos, positive_mean_has_positive_term in H.
    apply Exists_exists in H as (x & Hx & H0).
    apply list_elem_of_fmap in Hx as (sc & -> & Hin).
    apply Exists_exists. exists sc. split; [exact Hin|].
    rewrite Forall_forall in Hall.
    destruct (Hall sc Hin) as (_ & [[Hl _]|[[_ Hs]|[_ Hs]]]);
      [exact Hl|lra|lra]. }
  assert (Hsup_neg : (avg < 0)%Q ->
    Exists (fun sc => scored_sentiment sc = "negative") scores).
  { intros H. apply Hneg, negative_mean_has_negative_term in H.
    apply Exists_exists in H as (x & Hx & H0).
    apply list_elem_of_fmap in Hx as (sc & -> & Hin).
    apply Exists_exists. exists sc. split; [exact Hin|].
    rewrite Forall_forall in Hall.
    destruct (Hall sc Hin) as (_ & [[_ Hs]|[[Hl _]|[_ Hs]]]);
      [lra|exact Hl|lra]. }
  assert (Hzero : Forall (fun sc => scored_sentiment sc = "neutral") scores ->
    (avg == 0)%Q).
  { intros Hn.
    assert (Hs : (Py.sum (map score scores) == 0)%Q).
    { apply sum_nonneg_zero.
      - apply Forall_forall. intros x Hx.
        apply list_elem_of_fmap in Hx as (sc & -> & Hin).
        rewrite Forall_forall in Hall, Hn. specialize (Hn sc Hin).
        destruct (Hall sc Hin) as (_ & [[Hl _]|[[Hl _]|[_ Hs]]]);
          [congruence|congruence|lra].
      - apply Forall_forall. intros x Hx.
        apply list_elem_of_fmap in Hx as (sc & -> & Hin).
        rewrite Forall_forall in Hall, Hn. specialize (Hn sc Hin).
        destruct (Hall sc Hin) as (_ & [[Hl _]|[[Hl _]|[_ Hs]]]);
          [congruence|congruence|exact Hs]. }
    unfold avg. rewrite Hs. unfold Qdiv. ring. }
  destruct (Py.Qltb 0.2 avg) eqn:E1; [|destruct (Py.Qltb avg (-0.2)) eqn:E2].
  - apply Qltb_lt in E1. split; [auto|]. split.
    + intros _. split; [exact E1|]. apply Hsup_pos. lra.
    + split; [discriminate|]. intros Hn. apply Hzero in Hn. lra.
  - apply Qltb_lt in E2. split; [auto|]. split; [discriminate|]. split.
    + intros _. split; [exact E2|]. apply Hsup_neg. lra.
    + intros Hn. apply Hzero in Hn. lra.
  - split; [auto|]. split; [discriminate|]. split; [discriminate|].
    intros Hn. split; [reflexivity|now apply Hzero].
Qed.

Lemma analyze_sentiment_average_bounds (news_items : list news_item) :
  (-1 <= average_score (analyze_sentiment news_items) <= 1)%Q.
Proof.
  destruct news_items as [|item rest]; [cbn; lra|].
  rewrite analyze_sentiment_unfold by discriminate.
  cbn [average_score].
  apply average_in_unit_interval; [discriminate|].
  apply Forall_forall. intros sc Hin.
  apply list_elem_of_fmap in Hin as (it & -> & _). apply score_item_label.
Qed.

(** X13.  [get_stock_news_summary] reports the search of the last
    seven days: news is available exactly when the search found an item, the
    article count is the number of items found, the headlines are the titles
    of the first three items, and label and score are those of
    [analyze_sentiment] on the items, the score between -1 and 1. *)
Theorem summary_reports_the_search_result self symbol company_name :
  let found := search_stock_news self symbol company_name 7 in
  let s := get_stock_news_summary self symbol company_name in
  summary_symbol s = symbol
  /\ news_available s = negb (MockPortfolio.is_empty found)
  /\ summary_total_articles s = length found
  /\ recent_headlines s = map title (take 3 found)
  /\ (length (recent_headlines s) <= 3)%nat
  /\ sentiment s = overall_sentiment (analyze_sentiment found)
  /\ sentiment_score s = average_score (analyze_sentiment found)
  /\ (-1 <= sentiment_score s <= 1)%Q.
Proof.
  intros found s.
  assert (Hs : s = match found with
    | [] => NewsSpec.no_news_summary symbol
    | _ =>
      let analysis := analyze_sentiment found in
      {| summary_symbol := symbol;
         news_available := true;
         sentiment := overall_sentiment analysis;
         sentiment_score := average_score analysis;
         summary_total_articles := total_articles analysis;
         recent_headlines := map title (take 3 found);
         summary := "Found " +:+ pretty (length found)
                    +:+ " recent articles with "
                    +:+ overall_sentiment analysis +:+ " sentiment" |}
    end) by reflexivity.
  rewrite Hs. clear Hs s.
  pose proof (analyze_sentiment_average_bounds found) as Hb.
  destruct found as [|item rest].
  - cbn. repeat split; try lia; lra.
  - cbn zeta. cbn [summary_symbol news_available summary_total_articles
                   recent_headlines sentiment sentiment_score
                   MockPortfolio.is_empty negb].
    conjuncts; try reflexivity; try apply Hb.
    + rewrite analyze_sentiment_unfold by discriminate.
      cbn [total_articles]. now rewrite length_map.
    + rewrite length_map, length_take. lia.
Qed.

(** The conversion of the items of a response. *)
Lemma mapM_news_item_of_raise (its : list cse_item) :
  Exists (fun item => item_metatags item = Some []) its ->
  mapM news_item_of its = Py.Raise "IndexError".
Proof.
  induction 1 as [item its H|item its _ IH].
  - cbn [mapM]. unfold news_item_of. now rewrite H.
  - cbn [mapM]. rewrite IH. unfold news_item_of.
    destruct (item_metatags item) as [[|first tags]|]; reflexivity.
Qed.

Lemma mapM_news_item_of_ok (its : list cse_item) :
  Forall (fun item => item_metatags item <> Some []) its ->
  exists found,
    mapM news_item_of its = Py.Ok found
    /\ length found = length its
    /\ map title found = map (fun item => default "" (item_title item)) its
    /\ map snippet found
       = map (fun item => default "" (item_snippet item)) its.
Proof.
  induction 1 as [|item its H _ IH].
  - exists []. repeat split.
  - destruct IH as (found & E & Hl & Ht & Hs).
    cbn [mapM]. rewrite E. unfold news_item_of.
    destruct (item_metatags item) as [[|first tags]|]; [congruence| |];
      eexists; (split; [reflexivity|]); cbn [length map title snippet];
      now rewrite Hl, Ht, Hs.
Qed.

(** X14.  With a search service that answers with a list of items,
    one item whose page map has an empty list of meta tags makes the indexing
    [[0]] fail, and the handler then returns no news at all, for the stock
    search and for the market search.  When no item has an empty list, every
    item is kept, with its title and snippet, or the empty string for a
    missing one. *)
Theorem one_malformed_item_discards_the_search
    self svc symbol company_name market_type days_back its :
  service self = Some svc ->
  (forall request, svc request = Py.Ok {| items := Some its |}) ->
  let found := search_stock_news self symbol company_name days_back in
  let market := search_market_news self market_type days_back in
  (Exists (fun item => item_metatags item = Some []) its ->
   found = [] /\ market = [])
  /\ (Forall (fun item => item_metatags item <> Some []) its ->
      length found = length its
      /\ length market = length its
      /\ map title found = map (fun item => default "" (item_title item)) its
      /\ map snippet found
         = map (fun item => default "" (item_snippet item)) its).
Proof.
  intros Hsvc Hresp found market.
  unfold found, market, search_stock_news, search_market_news,
    search_stock_news_try, search_market_news_try.
  rewrite Hsvc, !Hresp.
  cbn [mbind Py.result_bind items]. split.
  - intros H. rewrite (mapM_news_item_of_raise its H). now split.
  - intros H. destruct (mapM_news_item_of_ok its H) as (l & -> & Hl & Ht).
    cbn [Py.try_except]. auto.
Qed.

Lemma one_malformed_item_discards_the_search_witness :
  NewsAnalyzer.search_stock_news SentimentSpec.analyzer_with_sample_service "AAPL" None 7
  = [].
Proof.
  destruct (one_malformed_item_discards_the_search
              SentimentSpec.analyzer_with_sample_service SentimentSpec.sample_service "AAPL" None "us" 7
              SentimentSpec.sample_items) as [Hbad _].
  - reflexivity.
  - intros request. reflexivity.
  - apply Hbad. right. left. reflexivity.
Defined.

Lemma regional_sentiment_of_ok self market :
  regional_entry_ok (market, regional_sentiment_of self market).
Proof.
  unfold regional_entry_ok, regional_sentiment_of. cbn zeta. cbn [snd].
  destruct (search_market_news self market 3) as [|item rest].
  - cbn. split; [lra|auto].
  - cbn [regional_score articles_count regional_label length]. split.
    + apply analyze_sentiment_average_bounds.
    + discriminate.
Qed.

Lemma search_market_news_without_service self market_type days_back :
  service self = None -> search_market_news self market_type days_back = [].
Proof. intros H. unfold search_market_news. now rewrite H. Qed.

Lemma no_covered_region (entries : list (string * regional_sentiment)) :
  Forall (fun entry => articles_count entry.2 = 0%nat) entries ->
  List.filter (fun data => (0 <? articles_count data)%nat) (map snd entries)
  = [].
Proof.
  induction 1 as [|e es H0 _ IH]; [reflexivity|].
  cbn [map List.filter]. now rewrite H0.
Qed.

(** X15.  [get_market_sentiment_analysis] returns what
    [get_market_sentiment] returns: one entry for each of the four markets,
    in order, each with a score between -1 and 1 and a neutral zero entry
    when its search found nothing.  The overall score lies between -1 and 1;
    the overall label is positive only above 0.1 and negative only below
    -0.1; with no article in any market, as without a search service, the
    result is neutral with score zero. *)
Theorem market_sentiment_is_a_bounded_average now_isoformat news :
  let ms :=
    InvestmentAnalyzer.get_market_sentiment_analysis now_isoformat news in
  ms = get_market_sentiment now_isoformat news
  /\ map fst (regional_sentiments ms) = ["global"; "us"; "eu"; "asia"]
  /\ Forall regional_entry_ok (regional_sentiments ms)
  /\ (-1 <= overall_score ms <= 1)%Q
  /\ (market_overall_sentiment ms = "positive" -> (0.1 < overall_score ms)%Q)
  /\ (market_overall_sentiment ms = "negative" -> (overall_score ms < -0.1)%Q)
  /\ (Forall (fun entry => articles_count entry.2 = 0%nat)
             (regional_sentiments ms) ->
      market_overall_sentiment ms = "neutral" /\ overall_score ms = 0%Q)
  /\ (service news = None ->
      Forall (fun entry => articles_count entry.2 = 0%nat)
             (regional_sentiments ms))
  /\ timestamp ms = now_isoformat.
Proof.
  intros ms.
  assert (Hms : ms = get_market_sentiment now_isoformat news) by reflexivity.
  split; [exact Hms|]. rewrite Hms. clear Hms ms.
  unfold get_market_sentiment. cbn zeta.
  set (entries := map (fun market => (market, regional_sentiment_of news market))
                      market_types).
  assert (Hok : Forall regional_entry_ok entries).
  { apply Forall_forall. intros e He.
    apply list_elem_of_fmap in He as (market & -> & _).
    apply regional_sentiment_of_ok. }
  set (covered := List.filter (fun data => (0 <? articles_count data)%nat)
                              (map snd entries)).
  assert (Hcov : Forall (fun x => -1 <= x <= 1)%Q (map regional_score covered)).
  { apply Forall_forall. intros x Hx.
    apply list_elem_of_fmap in Hx as (data & -> & Hin).
    apply list_elem_of_In, List.filter_In in Hin as [Hin _].
    apply list_elem_of_In, list_elem_of_fmap in Hin as (e & -> & He).
    rewrite Forall_forall in Hok. now destruct (Hok e He). }
  assert (Hnone : Forall (fun entry => articles_count entry.2 = 0%nat) entries ->
                  covered = []).
  { intros H. unfold covered. now apply no_covered_region. }
  assert (Hfst : map fst entries = ["global"; "us"; "eu"; "asia"])
    by reflexivity.
  assert (Hservice : service news = None ->
    Forall (fun entry => articles_count entry.2 = 0%nat) entries).
  { intros Hs. apply Forall_forall. intros e He.
    apply list_elem_of_fmap in He as (market & -> & _).
    cbn [snd]. unfold regional_sentiment_of.
    now rewrite (search_market_news_without_service news market 3 Hs). }
  destruct (map regional_score covered) as [|x xs] eqn:Escores.
  - cbn [market_overall_sentiment overall_score regional_sentiments timestamp].
    conjuncts; try reflexivity; try assumption; try discriminate; try lra.
    intros _. auto.
  - rewrite <- Escores in *.
    assert (Hne : map regional_score covered <> [])
      by (rewrite Escores; discriminate).
    pose proof (SumFacts.mean_bounds (-1) 1 _ Hne Hcov) as Hmean.
    set (overall := (Py.sum (map regional_score covered)
                     / inject_Z (Z.of_nat (length (map regional_score covered))))%Q)
      in *.
    cbn [market_overall_sentiment overall_score regional_sentiments timestamp].
    conjuncts; try reflexivity; try assumption; try apply Hmean.
    + destruct (Py.Qltb 0.1 overall) eqn:E; [intros _; now apply Qltb_lt|].
      destruct (Py.Qltb overall (-0.1)); discriminate.
    + destruct (Py.Qltb 0.1 overall) eqn:E; [discriminate|].
      destruct (Py.Qltb overall (-0.1)) eqn:E'; [intros _; now apply Qltb_lt|].
      discriminate.
    + intros H. apply Hnone in H. rewrite H in Hne. now contradiction Hne.
Qed.

End SentimentFacts.

(** ** The tiers of the suggestion path *)

Module TierFacts.
Import InvestmentAnalyzer RankingSpec.

Lemma classify_risk_eq (vol : Py.float) (g : bool) (reg : string) :
  classify_risk vol g reg
  = if Py.fltb vol (Py.Fin 0.2) then (if g then "medium" else "low")
    else if Py.fltb vol (Py.Fin 0.3) then
      (if g && negb (Py.str_in reg ["US"; "UK"]) then "high" else "medium")
    else if Py.fltb vol (Py.Fin 0.5) then "high"
    else "extreme".
Proof.
  unfold classify_risk, base_risk.
  destruct g, (Py.str_in reg ["US"; "UK"]); reflexivity.
Qed.

Ltac rank_order :=
  solve [ unfold risk_precedes; do 2 eexists;
          split; [reflexivity|split; [reflexivity|lia]] ].

(** X16.  In the order low, medium, high, extreme, the risk level of
    a suggestion never falls when the volatility rises; a growth stock is
    never rated below a blue chip of the same volatility and region, and is
    never rated low; a stock of region US or UK is never rated above a stock
    of the same volatility and kind in any other region.  Every level
    returned is one of the four. *)
Theorem classify_risk_is_monotone (v v' : Q) (g : bool) (reg reg' : string) :
  (v <= v')%Q ->
  risk_precedes (classify_risk (Py.Fin v) g reg)
                (classify_risk (Py.Fin v') g reg)
  /\ risk_precedes (classify_risk (Py.Fin v) false reg)
                   (classify_risk (Py.Fin v) true reg)
  /\ (~ foreign reg ->
      risk_precedes (classify_risk (Py.Fin v) g reg)
                    (classify_risk (Py.Fin v) g reg'))
  /\ (forall vol : Py.float, classify_risk vol true reg <> "low")
  /\ (forall vol : Py.float, exists i,
        risk_rank (classify_risk vol g reg) = Some i).
Proof.
  intros Hv. rewrite !classify_risk_eq. cbn [Py.fltb].
  conjuncts.
  - destruct (Py.Qltb v 0.2) eqn:A1, (Py.Qltb v 0.3) eqn:A2,
      (Py.Qltb v 0.5) eqn:A3, (Py.Qltb v' 0.2) eqn:B1,
      (Py.Qltb v' 0.3) eqn:B2, (Py.Qltb v' 0.5) eqn:B3;
      first [ destruct g, (Py.str_in reg ["US"; "UK"]); rank_order
            | exfalso;
              repeat match goal with
                | H : Py.Qltb _ _ = true |- _ => apply Qltb_lt in H
                | H : Py.Qltb _ _ = false |- _ => apply Qltb_ge in H
                end; lra ].
  - destruct (Py.Qltb v 0.2), (Py.Qltb v 0.3), (Py.Qltb v 0.5),
      (Py.str_in reg ["US"; "UK"]); rank_order.
  - intros Hdom.
    assert (E : Py.str_in reg ["US"; "UK"] = true).
    { destruct (Py.str_in reg ["US"; "UK"]) eqn:E; [reflexivity|].
      apply RiskFacts.str_in_us_uk in E. contradiction. }
    rewrite E.
    destruct (Py.Qltb v 0.2), (Py.Qltb v 0.3), (Py.Qltb v 0.5), g,
      (Py.str_in reg' ["US"; "UK"]); rank_order.
  - intros vol. rewrite classify_risk_eq.
    destruct (Py.fltb vol (Py.Fin 0.2)), (Py.fltb vol (Py.Fin 0.3)),
      (Py.fltb vol (Py.Fin 0.5)), (Py.str_in reg ["US"; "UK"]); discriminate.
  - intros vol. rewrite classify_risk_eq.
    destruct (Py.fltb vol (Py.Fin 0.2)), (Py.fltb vol (Py.Fin 0.3)),
      (Py.fltb vol (Py.Fin 0.5)), g, (Py.str_in reg ["US"; "UK"]);
      eexists; reflexivity.
Qed.

Lemma classify_risk_is_monotone_witness :
  risk_precedes (classify_risk (Py.Fin 0.15) true "US")
                (classify_risk (Py.Fin 0.35) true "US").
Proof.
  apply (classify_risk_is_monotone 0.15 0.35 true "US" "US"). lra.
Defined.

End TierFacts.

(** ** Risk assessment and recommendation *)

Module AssessmentFacts.
Import InvestmentAnalyzer AnalysisSpec.

Lemma risk_score_sum a :
  risk_score a
  = trend_risk a + rsi_risk a + volatility_risk a + volume_risk a + beta_risk a.
Proof.
  unfold risk_score, trend_risk, rsi_risk, volatility_risk, volume_risk,
    beta_risk. cbn zeta.
  destruct (String.eqb (Analysis.trend a) "bullish"),
    (Py.fltb (Py.Fin 70) (Analysis.rsi a)),
    (Py.fltb (Analysis.rsi a) (Py.Fin 30)),
    (Py.fltb (Py.Fin 0.4) (Analysis.volatility a)),
    (Py.fltb (Py.Fin 0.25) (Analysis.volatility a)),
    (String.eqb (Analysis.volume_trend a) "increasing");
    (destruct (Analysis.beta a) as [beta|];
     [destruct (Py.Qltb 1.5 beta), (Py.Qltb 1.0 beta)|]); reflexivity.
Qed.

Lemma recommendation_score_sum a :
  recommendation_score a
  = trend_merit a + rsi_merit a + volume_merit a + volatility_merit a.
Proof.
  unfold recommendation_score, trend_merit, rsi_merit, volume_merit,
    volatility_merit. cbn zeta.
  destruct (String.eqb (Analysis.trend a) "bullish"),
    (Py.fltb (Analysis.rsi a) (Py.Fin 30)),
    (Py.fleb (Py.Fin 30) (Analysis.rsi a)
     && Py.fleb (Analysis.rsi a) (Py.Fin 70)),
    (String.eqb (Analysis.volume_trend a) "increasing"),
    (Py.fltb (Analysis.volatility a) (Py.Fin 0.25)); reflexivity.
Qed.

(** How the points of the RSI relate: oversold is 0 of risk and 2 of merit,
    overbought 2 of risk and no merit, anything else 1 of risk and at most 1
    of merit. *)
Lemma rsi_points a :
  (rsi_risk a = 0 /\ rsi_merit a = 2 /\ oversold a /\ ~ overbought a)
  \/ (rsi_risk a = 2 /\ rsi_merit a = 0 /\ overbought a /\ ~ oversold a)
  \/ (rsi_risk a = 1 /\ 0 <= rsi_merit a <= 1
      /\ ~ oversold a /\ ~ overbought a).
Proof.
  unfold rsi_risk, rsi_merit, oversold, overbought, Py.fleb.
  destruct (Analysis.rsi a) as [q| | |]; cbn [Py.fltb Py.feqb].
  - destruct (Py.Qltb 70 q) eqn:E1, (Py.Qltb q 30) eqn:E2.
    + apply Qltb_lt in E1, E2. lra.
    + right. left. cbn [orb andb].
      assert (E3 : Py.Qltb q 70 = false) by (apply Qltb_ge; apply Qltb_lt in E1; lra).
      assert (E4 : Qeq_bool q 70 = false).
      { destruct (Qeq_bool q 70) eqn:E4; [|reflexivity].
        apply Qeq_bool_iff in E4. apply Qltb_lt in E1. lra. }
      rewrite E3, E4. cbn. rewrite andb_false_r. auto.
    + left. auto.
    + right. right. split; [reflexivity|]. split.
      * destruct (_ && _); lia.
      * split; congruence.
  - right. left. cbn. auto.
  - left. cbn. auto.
  - right. right. cbn. repeat split; try lia; congruence.
Qed.

(** How the points of the volatility relate. *)
Lemma volatility_points a :
  (volatility_risk a = 1 /\ 0 <= volatility_merit a <= 1 /\ ~ turbulent a)
  \/ (volatility_risk a = 2 /\ volatility_merit a = 0
      /\ ~ calm a /\ ~ turbulent a)
  \/ (volatility_risk a = 3 /\ volatility_merit a = 0
      /\ ~ calm a /\ turbulent a).
Proof.
  unfold volatility_risk, volatility_merit, calm, turbulent.
  destruct (Analysis.volatility a) as [q| | |]; cbn [Py.fltb].
  - destruct (Py.Qltb 0.4 q) eqn:E1, (Py.Qltb 0.25 q) eqn:E2,
      (Py.Qltb q 0.25) eqn:E3;
      repeat match goal with
        | H : Py.Qltb _ _ = true |- _ => apply Qltb_lt in H
        | H : Py.Qltb _ _ = false |- _ => apply Qltb_ge in H
        end; try lra.
    + right. right. repeat split; congruence.
    + right. left. repeat split; congruence.
    + left. repeat split; try lia; congruence.
    + left. repeat split; try lia; congruence.
  - right. right. repeat split; congruence.
  - left. repeat split; try lia; congruence.
  - left. repeat split; try lia; congruence.
Qed.

Lemma calm_merit a : calm a <-> volatility_merit a = 1.
Proof.
  unfold calm, volatility_merit.
  destruct (Py.fltb (Analysis.volatility a) (Py.Fin 0.25)); split;
    congruence || lia.
Qed.

Lemma trend_points a :
  (bullish a /\ trend_risk a = 1 /\ trend_merit a = 2)
  \/ (~ bullish a /\ trend_risk a = 2 /\ trend_merit a = 0).
Proof.
  unfold bullish, trend_risk, trend_merit.
  destruct (String.eqb (Analysis.trend a) "bullish") eqn:E.
  - left. apply String.eqb_eq in E. auto.
  - right. apply String.eqb_neq in E. auto.
Qed.

Lemma volume_points a :
  (volume_increasing a /\ volume_risk a = 1 /\ volume_merit a = 1)
  \/ (~ volume_increasing a /\ volume_risk a = 2 /\ volume_merit a = 0).
Proof.
  unfold volume_increasing, volume_risk, volume_merit.
  destruct (String.eqb (Analysis.volume_trend a) "increasing") eqn:E.
  - left. apply String.eqb_eq in E. auto.
  - right. apply String.eqb_neq in E. auto.
Qed.

Lemma beta_points a :
  (beta_risk a = 2 /\ beta_above 1.5 a)
  \/ (0 <= beta_risk a <= 1 /\ ~ beta_above 1.5 a).
Proof.
  unfold beta_risk, beta_above.
  destruct (Analysis.beta a) as [beta|].
  - destruct (Py.Qltb 1.5 beta) eqn:E.
    + left. apply Qltb_lt in E. eauto.
    + right. split; [destruct (Py.Qltb 1.0 beta); lia|].
      intros (b & [= <-] & Hb). apply Qltb_ge in E. lra.
  - right. split; [lia|]. intros (b & Hb & _). discriminate.
Qed.

Lemma assess_risk_label a :
  (_assess_risk a = "low" /\ risk_score a <= 4)
  \/ (_assess_risk a = "medium" /\ 5 <= risk_score a <= 7)
  \/ (_assess_risk a = "high" /\ 8 <= risk_score a <= 10)
  \/ (_assess_risk a = "extreme" /\ 11 <= risk_score a).
Proof.
  unfold _assess_risk. cbn zeta.
  destruct (risk_score a <=? 4) eqn:E1; [apply Z.leb_le in E1; auto|].
  destruct (risk_score a <=? 7) eqn:E2;
    [apply Z.leb_gt in E1; apply Z.leb_le in E2; right; left; split; [reflexivity|lia]|].
  destruct (risk_score a <=? 10) eqn:E3;
    [apply Z.leb_gt in E2; apply Z.leb_le in E3; right; right; left; split; [reflexivity|lia]|].
  apply Z.leb_gt in E3. right. right. right. split; [reflexivity|lia].
Qed.

Lemma recommendation_label a :
  (_generate_recommendation a = "Strong Buy" /\ 6 <= recommendation_score a)
  \/ (_generate_recommendation a = "Buy" /\ 4 <= recommendation_score a <= 5)
  \/ (_generate_recommendation a = "Hold" /\ 2 <= recommendation_score a <= 3)
  \/ (_generate_recommendation a = "Sell" /\ recommendation_score a <= 1).
Proof.
  unfold _generate_recommendation. cbn zeta.
  destruct (6 <=? recommendation_score a) eqn:E1; [apply Z.leb_le in E1; auto|].
  destruct (4 <=? recommendation_score a) eqn:E2;
    [apply Z.leb_gt in E1; apply Z.leb_le in E2; right; left; split; [reflexivity|lia]|].
  destruct (2 <=? recommendation_score a) eqn:E3;
    [apply Z.leb_gt in E2; apply Z.leb_le in E3; right; right; left; split; [reflexivity|lia]|].
  apply Z.leb_gt in E3. right. right. right. split; [reflexivity|lia].
Qed.

Ltac points a :=
  pose proof (risk_score_sum a);
  pose proof (recommendation_score_sum a);
  destruct (trend_points a) as [(?&?&?)|(?&?&?)];
  destruct (rsi_points a) as [(?&?&?&?)|[(?&?&?&?)|(?&?&?&?)]];
  destruct (volatility_points a) as [(?&?&?)|[(?&?&?&?)|(?&?&?&?)]];
  destruct (volume_points a) as [(?&?&?)|(?&?&?)];
  destruct (beta_points a) as [(?&?)|(?&?)].

(** X17.  The risk score of [_assess_risk] lies between 3 and 11.
    The level is extreme exactly when every factor is at its worst: a
    trend that is not bullish, an RSI above 70, a volatility above 0.4, a
    volume that is not increasing and a beta above 1.5; without a beta it is
    never extreme.  The level is low exactly for a score of at most 4. *)
Theorem risk_is_extreme_only_at_the_top a :
  3 <= risk_score a <= 11
  /\ (_assess_risk a = "extreme"
      <-> ~ bullish a /\ overbought a /\ turbulent a
          /\ ~ volume_increasing a /\ beta_above 1.5 a)
  /\ (Analysis.beta a = None -> _assess_risk a <> "extreme")
  /\ (_assess_risk a = "low" <-> risk_score a <= 4).
Proof.
  conjuncts.
  - points a; lia.
  - points a; lia.
  - destruct (assess_risk_label a) as [[E H]|[[E H]|[[E H]|[E H]]]];
      rewrite E; (split; [try discriminate|]).
    1-3: intros (?&?&?&?&?); points a; try contradiction; try lia.
    + intros _. points a; try lia. auto.
    + auto.
  - intros Hb. destruct (assess_risk_label a) as [[E H]|[[E H]|[[E H]|[E H]]]];
      rewrite E; try discriminate.
    exfalso. points a; try lia.
    match goal with H : beta_above _ _ |- _ => destruct H as (b & Hb' & _) end.
    congruence.
  - destruct (assess_risk_label a) as [[E H]|[[E H]|[[E H]|[E H]]]];
      rewrite E; split; try discriminate; try lia; auto.
Qed.

(** X18.  The score of [_generate_recommendation] lies between 0 and
    6.  The recommendation is Strong Buy exactly when the trend is bullish,
    the RSI is below 30, the volume increases and the volatility is below
    0.25; an RSI that is not a number rules it out.  A bullish trend never
    gives Sell, and without it the best outcome is Buy, reached only when
    the three other factors are all favourable. *)
Theorem strong_buy_needs_every_factor a :
  0 <= recommendation_score a <= 6
  /\ (_generate_recommendation a = "Strong Buy"
      <-> bullish a /\ oversold a /\ volume_increasing a /\ calm a)
  /\ (bullish a -> _generate_recommendation a <> "Sell")
  /\ (Analysis.rsi a = Py.NaN ->
      _generate_recommendation a <> "Strong Buy")
  /\ (~ bullish a ->
      _generate_recommendation a = "Hold"
      \/ _generate_recommendation a = "Sell"
      \/ (_generate_recommendation a = "Buy"
          /\ oversold a /\ volume_increasing a /\ calm a)).
Proof.
  pose proof (calm_merit a) as Hcalm.
  conjuncts.
  - points a; lia.
  - points a; lia.
  - destruct (recommendation_label a) as [[E H]|[[E H]|[[E H]|[E H]]]];
      rewrite E; (split; [try discriminate|]).
    + intros _. points a; try lia;
        (conjuncts; try assumption; apply Hcalm; lia).
    + reflexivity.
    + intros (?&?&?&Hc). apply Hcalm in Hc. points a; try contradiction; lia.
    + intros (?&?&?&Hc). apply Hcalm in Hc. points a; try contradiction; lia.
    + intros (?&?&?&Hc). apply Hcalm in Hc. points a; try contradiction; lia.
  - intros Hb. destruct (recommendation_label a) as [[E H]|[[E H]|[[E H]|[E H]]]];
      rewrite E; try discriminate.
    exfalso. points a; try contradiction; lia.
  - intros Hnan.
    destruct (recommendation_label a) as [[E H]|[[E H]|[[E H]|[E H]]]];
      rewrite E; try discriminate.
    exfalso.
    assert (Hm : rsi_merit a = 0) by (unfold rsi_merit; now rewrite Hnan).
    points a; lia.
  - intros Hb. destruct (recommendation_label a) as [[E H]|[[E H]|[[E H]|[E H]]]];
      rewrite E; auto.
    + exfalso. points a; try contradiction; lia.
    + right. right. split; [reflexivity|].
      points a; try contradiction; try lia;
        (conjuncts; try assumption; apply Hcalm; lia).
Qed.

(** X19.  On the same analysis, the recommendation and the risk level
    agree: a Strong Buy has low risk, or medium risk when the beta is above
    1.5; extreme risk always gives Sell; low risk never gives Sell. *)
Theorem recommendation_agrees_with_risk a :
  (_generate_recommendation a = "Strong Buy" ->
   (_assess_risk a = "low" /\ ~ beta_above 1.5 a)
   \/ (_assess_risk a = "medium" /\ beta_above 1.5 a))
  /\ (_assess_risk a = "extreme" -> _generate_recommendation a = "Sell")
  /\ (_assess_risk a = "low" -> _generate_recommendation a <> "Sell").
Proof.
  pose proof (calm_merit a) as Hcalm.
  conjuncts.
  - intros Hr.
    destruct (recommendation_label a) as [[E H]|[[E H]|[[E H]|[E H]]]];
      rewrite E in Hr; try discriminate.
    destruct (assess_risk_label a) as [[E' H']|[[E' H']|[[E' H']|[E' H']]]];
      rewrite E'; points a; try lia; auto.
  - intros Hr.
    destruct (assess_risk_label a) as [[E' H']|[[E' H']|[[E' H']|[E' H']]]];
      rewrite E' in Hr; try discriminate.
    destruct (recommendation_label a) as [[E H]|[[E H]|[[E H]|[E H]]]];
      rewrite E; try reflexivity; exfalso; points a; lia.
  - intros Hr.
    destruct (assess_risk_label a) as [[E' H']|[[E' H']|[[E' H']|[E' H']]]];
      rewrite E' in Hr; try discriminate.
    destruct (recommendation_label a) as [[E H]|[[E H]|[[E H]|[E H]]]];
      rewrite E; try discriminate. exfalso.
    points a; try lia.
Qed.

End AssessmentFacts.

(** ** Series and the RSI *)

Module SeriesFacts.
Import InvestmentAnalyzer SeriesSpec.



(** *** Series *)

Lemma rolling_mean_lookup (w : nat) (s : Pandas.series) (i : nat) :
  Pandas.rolling_mean w s !! i
  = (fun _ =>
       if (w <=? S i)%nat then
         Py.fdivf (Pandas.fsum (take w (drop (S i - w) s)))
                  (Py.Fin (inject_Z (Z.of_nat w)))
       else Py.NaN) <$> s !! i.
Proof. unfold Pandas.rolling_mean. apply list_lookup_imap. Qed.

Lemma rolling_mean_length (w : nat) (s : Pandas.series) :
  length (Pandas.rolling_mean w s) = length s.
Proof. unfold Pandas.rolling_mean. apply length_imap. Qed.

Lemma diff_from_length prev (s : Pandas.series) :
  length (Pandas.diff_from prev s) = length s.
Proof.
  revert prev. induction s as [|x s IH]; intros prev; simpl; [|rewrite IH];
    reflexivity.
Qed.

Lemma diff_length (s : Pandas.series) : length (Pandas.diff s) = length s.
Proof. destruct s; simpl; [|rewrite diff_from_length]; reflexivity. Qed.

Lemma diff_from_finite prev (s : Pandas.series) :
  finite prev -> Forall finite s -> Forall finite (Pandas.diff_from prev s).
Proof.
  intros Hp Hs. revert prev Hp.
  induction Hs as [|x s Hx _ IH]; intros prev Hp; simpl; constructor.
  - destruct Hp as [p ->], Hx as [q ->]. eexists. reflexivity.
  - now apply IH.
Qed.

Lemma diff_finite_or_nan (s : Pandas.series) :
  Forall finite s ->
  Forall (fun x => x = Py.NaN \/ finite x) (Pandas.diff s).
Proof.
  intros Hs. destruct Hs as [|x s Hx Hs]; simpl; constructor.
  - now left.
  - eapply Forall_impl; [apply diff_from_finite; eassumption|].
    intros y Hy. now right.
Qed.

Lemma gains_nonneg (delta : Pandas.series) :
  Forall (fun x => x = Py.NaN \/ finite x) delta ->
  Forall fin_nonneg
    (Pandas.where_ (fun d => Py.fltb (Py.Fin 0) d) (Py.Fin 0) delta).
Proof.
  intros H. unfold Pandas.where_. apply Forall_fmap.
  eapply Forall_impl; [exact H|]. intros x [->|[q ->]]; cbn.
  - exists 0%Q. split; [reflexivity|lra].
  - destruct (Py.Qltb 0 q) eqn:E.
    + apply Qltb_lt in E. exists q. split; [reflexivity|lra].
    + exists 0%Q. split; [reflexivity|lra].
Qed.

Lemma losses_nonneg (delta : Pandas.series) :
  Forall (fun x => x = Py.NaN \/ finite x) delta ->
  Forall fin_nonneg
    (map Py.fneg
         (Pandas.where_ (fun d => Py.fltb d (Py.Fin 0)) (Py.Fin 0) delta)).
Proof.
  intros H. unfold Pandas.where_. apply Forall_fmap, Forall_fmap.
  eapply Forall_impl; [exact H|]. intros x [->|[q ->]]; cbn.
  - exists (- 0)%Q. split; [reflexivity|lra].
  - destruct (Py.Qltb q 0) eqn:E.
    + apply Qltb_lt in E. exists (- q)%Q. split; [reflexivity|lra].
    + exists (- 0)%Q. split; [reflexivity|lra].
Qed.

Lemma fsum_nonneg (s : Pandas.series) :
  Forall fin_nonneg s -> fin_nonneg (Pandas.fsum s).
Proof.
  unfold Pandas.fsum.
  assert (H : forall acc, fin_nonneg acc -> Forall fin_nonneg s ->
                          fin_nonneg (foldl Py.fadd acc s)).
  { induction s as [|x s IH]; intros acc Hacc Hs; simpl; [exact Hacc|].
    apply Forall_cons in Hs as [Hx Hs]. apply IH; [|exact Hs].
    destruct Hacc as (a & -> & Ha), Hx as (q & -> & Hq).
    exists (a + q)%Q. split; [reflexivity|lra]. }
  intros Hs. apply H; [|exact Hs]. exists 0%Q. split; [reflexivity|lra].
Qed.

Lemma Forall_take_drop {A : Type} (P : A -> Prop) (l : list A) (n k : nat) :
  Forall P l -> Forall P (take n (drop k l)).
Proof. intros H. now apply Forall_take, Forall_drop. Qed.

Lemma rolling_mean_nonneg (w : nat) (s : Pandas.series) :
  (0 < w)%nat ->
  Forall fin_nonneg s ->
  Forall (fun x => x = Py.NaN \/ fin_nonneg x) (Pandas.rolling_mean w s).
Proof.
  intros Hw Hs. apply Forall_lookup. intros i x Hx.
  rewrite rolling_mean_lookup in Hx.
  destruct (s !! i) as [y|]; [|discriminate]. cbn in Hx. injection Hx as <-.
  destruct (w <=? S i)%nat; [|now left]. right.
  destruct (fsum_nonneg (take w (drop (S i - w) s))
              (Forall_take_drop _ _ _ _ Hs)) as (a & -> & Ha).
  cbn [Py.fdivf]. unfold Py.fdiv.
  assert (Hq : (0 < inject_Z (Z.of_nat w))%Q).
  { change 0%Q with (inject_Z 0). rewrite <- Zlt_Qlt. lia. }
  destruct (Qeq_bool (inject_Z (Z.of_nat w)) 0) eqn:E.
  { apply Qeq_bool_iff in E. lra. }
  eexists. split; [reflexivity|]. apply Qle_shift_div_l; lra.
Qed.

(** One value of the RSI out of the average gain and the average loss. *)
Lemma rsi_value (gain loss : Py.float) :
  gain = Py.NaN \/ fin_nonneg gain ->
  loss = Py.NaN \/ fin_nonneg loss ->
  nan_or_percentage
    (Py.fsub (Py.Fin 100)
       (Py.fdivf (Py.Fin 100) (Py.fadd (Py.Fin 1) (Py.fdivf gain loss)))).
Proof.
  intros [->|(g & -> & Hg)] [->|(l & -> & Hl)]; try (now left).
  cbn [Py.fdivf]. unfold Py.fdiv.
  destruct (Qeq_bool l 0) eqn:El.
  - destruct (Py.Qltb 0 g) eqn:E1.
    + right. cbn. eexists. split; [reflexivity|lra].
    + destruct (Py.Qltb g 0) eqn:E2; [apply Qltb_lt in E2; lra|]. now left.
  - right. cbn [Py.fadd Py.fdivf]. unfold Py.fdiv.
    assert (Hl' : (0 < l)%Q).
    { destruct (Qlt_le_dec 0 l) as [H|H]; [exact H|].
      assert (E : (l == 0)%Q) by lra. apply Qeq_bool_iff in E. congruence. }
    assert (Hr : (0 <= g / l)%Q) by (apply Qle_shift_div_l; lra).
    destruct (Qeq_bool (1 + g / l) 0) eqn:E1.
    { apply Qeq_bool_iff in E1. lra. }
    cbn. eexists. split; [reflexivity|].
    assert (Hpos : (0 < 100 / (1 + g / l))%Q) by (apply Qlt_shift_div_l; lra).
    assert (Hle : (100 / (1 + g / l) <= 100)%Q)
      by (apply Qle_shift_div_r; lra).
    lra.
Qed.

Lemma calculate_rsi_spec (closes : list Q) :
  let rsi := _calculate_rsi (Pandas.of_numbers closes) 14 in
  length rsi = length closes
  /\ Forall nan_or_percentage rsi
  /\ (forall i r, (i < 13)%nat -> rsi !! i = Some r -> r = Py.NaN).
Proof.
  intros rsi. unfold rsi, _calculate_rsi. cbn zeta.
  set (delta := Pandas.diff (Pandas.of_numbers closes)).
  set (gains := Pandas.where_ (fun d => Py.fltb (Py.Fin 0) d) (Py.Fin 0) delta).
  set (losses := map Py.fneg
         (Pandas.where_ (fun d => Py.fltb d (Py.Fin 0)) (Py.Fin 0) delta)).
  assert (Hdelta : Forall (fun x => x = Py.NaN \/ finite x) delta).
  { apply diff_finite_or_nan. unfold Pandas.of_numbers.
    apply Forall_fmap, Forall_forall. intros q _. now exists q. }
  assert (Hlen : length delta = length closes).
  { unfold delta. rewrite diff_length. apply length_map. }
  pose proof (rolling_mean_nonneg 14 gains ltac:(lia) (gains_nonneg _ Hdelta))
    as Hg.
  pose proof (rolling_mean_nonneg 14 losses ltac:(lia) (losses_nonneg _ Hdelta))
    as Hl.
  conjuncts.
  - rewrite length_map, length_zip_with, !rolling_mean_length.
    unfold gains, losses, Pandas.where_. rewrite !length_map. lia.
  - apply Forall_lookup. intros i r Hr.
    rewrite list_lookup_fmap, lookup_zip_with in Hr.
    destruct (Pandas.rolling_mean 14 gains !! i) as [g|] eqn:Eg;
      [|discriminate].
    destruct (Pandas.rolling_mean 14 losses !! i) as [l|] eqn:El;
      [|discriminate].
    cbn in Hr. injection Hr as <-.
    apply rsi_value.
    + exact (Forall_lookup_1 _ _ _ _ Hg Eg).
    + exact (Forall_lookup_1 _ _ _ _ Hl El).
  - intros i r Hi Hr.
    rewrite list_lookup_fmap, lookup_zip_with in Hr.
    destruct (Pandas.rolling_mean 14 gains !! i) as [g|] eqn:Eg;
      [|discriminate].
    destruct (Pandas.rolling_mean 14 losses !! i) as [l|] eqn:El;
      [|discriminate].
    cbn in Hr. injection Hr as <-.
    rewrite rolling_mean_lookup in Eg.
    assert (E : (14 <=? S i)%nat = false) by (apply Nat.leb_gt; lia).
    rewrite E in Eg.
    destruct (gains !! i); [|discriminate]. cbn in Eg.
    injection Eg as <-. reflexivity.
Qed.

(** X20.  [_calculate_rsi] with a period of 14 returns one value per
    closing price.  Each value is not-a-number or a number between 0 and
    100, and the first thirteen values are not-a-number. *)
Theorem rsi_is_nan_or_a_percentage (closes : list Q) :
  let rsi := _calculate_rsi (Pandas.of_numbers closes) 14 in
  length rsi = length closes
  /\ Forall nan_or_percentage rsi
  /\ (forall i r, (i < 13)%nat -> rsi !! i = Some r -> r = Py.NaN).
Proof. apply calculate_rsi_spec. Qed.

End SeriesFacts.

(** ** The analysis of one stock *)

Module AnalysisFacts.
Import InvestmentAnalyzer SeriesSpec AssessmentFacts SeriesFacts.


Lemma iloc_last_of_nonempty {A : Type} (l : list A) :
  l <> [] -> exists x, Pandas.iloc_last l = Py.Ok x /\ last l = Some x.
Proof.
  intros H. unfold Pandas.iloc_last.
  destruct (last l) as [x|] eqn:E; [eauto|].
  apply last_None in E. contradiction.
Qed.





(** X22.  [analyze_investment_opportunity] returns [None] exactly
    when the fetch raises, the history is empty, or the last close is
    zero. *)
Theorem analysis_fails_without_a_price m ticker_90d sym amount :
  analyze_investment_opportunity m ticker_90d sym amount = None
  <-> (exists e, ticker_90d sym = Py.Raise e)
      \/ exists data,
           ticker_90d sym = Py.Ok data
           /\ (hist_90d data = []
               \/ exists price, last (map fst (hist_90d data)) = Some price
                                /\ (price == 0)%Q).
Proof.
  unfold analyze_investment_opportunity, analyze_investment_opportunity_try.
  destruct (ticker_90d sym) as [data|e]; cbn [mbind Py.result_bind];
    [|split; [intros _; left; eauto|reflexivity]].
  cbn zeta.
  destruct (hist_90d data) as [|row rows] eqn:Eh.
  { split; [intros _; right; exists data; auto|reflexivity]. }
  cbn [MockPortfolio.is_empty]. rewrite <- Eh.
  assert (Hne : forall {A : Type} (l : list A),
            length l = length (hist_90d data) -> l <> []).
  { intros A l Hl Hnil. rewrite Hnil, Eh in Hl. discriminate. }
  destruct (iloc_last_of_nonempty (map fst (hist_90d data))
              (Hne _ _ (length_map _ _))) as (price & -> & Hp).
  cbn [mbind Py.result_bind].
  destruct (Qeq_dec price 0) as [Hz|Hnz].
  { assert (Hk : exists e, Py.int (Py.fdiv amount price) = Py.Raise e).
    { unfold Py.fdiv. pose proof Hz as Hb. apply Qeq_bool_iff in Hb.
      rewrite Hb.
      destruct (Py.Qltb 0 amount); [cbn; eauto|].
      destruct (Py.Qltb amount 0); cbn; eauto. }
    destruct Hk as (e & ->). cbn [mbind Py.result_bind Py.try_except].
    split; [intros _|reflexivity].
    right. exists data. split; [reflexivity|]. right. exists price.
    split; [exact Hp|exact Hz]. }
  assert (Hk : Py.int (Py.fdiv amount price)
               = Py.Ok (Py.trunc (amount / price))).
  { unfold Py.fdiv. destruct (Qeq_bool price 0) eqn:E; [|reflexivity].
    apply Qeq_bool_iff in E. contradiction. }
  rewrite Hk. cbn [mbind Py.result_bind].
  destruct (iloc_last_of_nonempty
              (Pandas.rolling_mean 7
                 (Pandas.of_numbers (map fst (hist_90d data)))))
    as (sma_7 & -> & _).
  { apply Hne. rewrite rolling_mean_length. unfold Pandas.of_numbers.
    now rewrite !length_map. }
  destruct (iloc_last_of_nonempty
              (Pandas.rolling_mean 30
                 (Pandas.of_numbers (map fst (hist_90d data)))))
    as (sma_30 & -> & _).
  { apply Hne. rewrite rolling_mean_length. unfold Pandas.of_numbers.
    now rewrite !length_map. }
  destruct (iloc_last_of_nonempty
              (_calculate_rsi (Pandas.of_numbers (map fst (hist_90d data)))
                              14))
    as (rsi & -> & _).
  { apply Hne. destruct (calculate_rsi_spec (map fst (hist_90d data)))
      as (Hlen & _). rewrite Hlen. apply length_map. }
  destruct (iloc_last_of_nonempty (map snd (hist_90d data))
              (Hne _ _ (length_map _ _))) as (volume & -> & _).
  cbn [mbind mret Py.result_bind Py.result_ret Py.try_except].
  split; [discriminate|].
  intros [(e & He)|(d & Hd & [Hd'|(p & Hp' & Hz)])].
  - discriminate.
  - injection Hd as <-. congruence.
  - injection Hd as <-. rewrite Hp in Hp'. injection Hp' as <-. contradiction.
Qed.

End AnalysisFacts.

(** ** The market overview *)

Module OverviewFacts.
Import InvestmentAnalyzer OverviewSpec.

Lemma assoc_get_map_fresh {A B : Type} (f : list A -> B) (r : string)
    (l : list (string * list A)) :
  r ∉ map fst l ->
  MockPortfolio.assoc_get r (map (fun '(k, v) => (k, f v)) l) = None.
Proof.
  induction l as [|[k v] l IH]; intros H; [reflexivity|].
  simpl in *. apply not_elem_of_cons in H as [Hne H].
  apply String.eqb_neq in Hne. rewrite Hne. now apply IH.
Qed.

Lemma assoc_get_map {A B : Type} (f : list A -> B) (r : string) (v : list A)
    (l : list (string * list A)) :
  NoDup (map fst l) -> (r, v) ∈ l ->
  MockPortfolio.assoc_get r (map (fun '(k, v) => (k, f v)) l) = Some (f v).
Proof.
  induction l as [|[k w] l IH]; intros Hnd Hin.
  - now apply not_elem_of_nil in Hin.
  - simpl in *. apply NoDup_cons in Hnd as [Hk Hnd].
    apply elem_of_cons in Hin as [[= -> ->]|Hin].
    + now rewrite String.eqb_refl.
    + destruct (String.eqb r k) eqn:E.
      * apply String.eqb_eq in E. subst k. exfalso. apply Hk.
        apply list_elem_of_fmap. now exists (r, v).
      * now apply IH.
Qed.

Lemma fdivf_count_sign (total : Py.float) (n : nat) :
  (1 <= n)%nat ->
  Py.fltb (Py.Fin 0) (Py.fdivf total (Py.Fin (inject_Z (Z.of_nat n))))
  = Py.fltb (Py.Fin 0) total.
Proof.
  intros Hn.
  assert (Hq : (0 < inject_Z (Z.of_nat n))%Q).
  { change 0%Q with (inject_Z 0). rewrite <- Zlt_Qlt. lia. }
  set (c := inject_Z (Z.of_nat n)) in *.
  assert (Ec : Qeq_bool c 0 = false).
  { destruct (Qeq_bool c 0) eqn:E; [|reflexivity].
    apply Qeq_bool_iff in E. lra. }
  assert (Elt : Py.Qltb c 0 = false) by (apply Qltb_ge; lra).
  destruct total as [t| | |]; cbn [Py.fdivf Py.fltb]; try reflexivity.
  - unfold Py.fdiv. rewrite Ec. cbn [Py.fltb].
    destruct (Py.Qltb 0 t) eqn:E.
    + apply Qltb_lt in E. apply Qltb_lt. apply Qlt_shift_div_l; lra.
    + apply Qltb_ge in E. apply Qltb_ge.
      apply Qle_shift_div_r; lra.
  - now rewrite Elt.
  - now rewrite Elt.
Qed.

Lemma length_omap_le {A B : Type} (f : A -> option B) (l : list A) :
  (length (omap f l) <= length l)%nat.
Proof.
  induction l as [|x l IH]; csimpl; [lia|].
  destruct (f x); simpl; lia.
Qed.

Lemma omap_ext_in {A B : Type} (f g : A -> option B) (l : list A) :
  (forall x, x ∈ l -> f x = g x) -> omap f l = omap g l.
Proof.
  induction l as [|x l IH]; intros H; [reflexivity|]. csimpl.
  rewrite (H x) by apply list_elem_of_here.
  rewrite IH; [reflexivity|]. intros y Hy. apply H.
  now apply list_elem_of_further.
Qed.

Lemma sublist_omap_fst {A B : Type} (f : string * A -> option (string * B))
    (l : list (string * A)) :
  (forall x y, f x = Some y -> y.1 = x.1) ->
  sublist (map fst (omap f l)) (map fst l).
Proof.
  intros Hf. induction l as [|x l IH]; csimpl; [constructor|].
  destruct (f x) as [y|] eqn:E; simpl.
  - rewrite (Hf x y E). now constructor.
  - now constructor.
Qed.

Lemma regional_performance_entries (market_data : market_data_t) :
  Forall trend_matches_average (get_regional_market_performance market_data).
Proof.
  unfold get_regional_market_performance.
  apply Forall_forall. intros [region p] Hin.
  apply list_elem_of_omap in Hin as ([r indices] & _ & Hp).
  destruct (MockPortfolio.assoc_get r market_data) as [quotes|];
    [|discriminate].
  cbn zeta in Hp.
  destruct (0 <? length quotes)%nat eqn:E; [|discriminate].
  apply Nat.ltb_lt in E. injection Hp as <- <-.
  unfold trend_matches_average.
  cbn [snd indices_count regional_trend avg_change_percent].
  split; [lia|]. rewrite fdivf_count_sign by lia. reflexivity.
Qed.

(** X23.  [get_market_overview] has one entry per region of the
    index table, in the order of the table, holding the quotes of the
    region's indices whose history could be read.
    [get_regional_market_performance] lists regions in the same order, and
    only regions with at least one quote; the count of a region is the
    number of its quotes, which is at least one and at most the number of its indices, and
    its trend is positive exactly when the average change is above zero.
    When no history can be read there is no region at all. *)
Theorem regional_performance_of_the_overview
    (index_history : string -> Py.result (list (Q * Q))) :
  let overview := get_market_overview index_history in
  let performance := get_regional_market_performance overview in
  map fst overview = map fst market_indices
  /\ Forall (fun '(region, quotes) =>
               exists indices,
                 (region, indices) ∈ market_indices
                 /\ quotes = quotes_of index_history indices)
            overview
  /\ sublist (map fst performance) (map fst market_indices)
  /\ Forall (fun '(region, p) =>
               exists indices,
                 (region, indices) ∈ market_indices
                 /\ indices_count p
                    = length (quotes_of index_history indices)
                 /\ (1 <= indices_count p <= length indices)%nat)
            performance
  /\ Forall trend_matches_average performance
  /\ ((forall index, exists e, index_history index = Py.Raise e) ->
      performance = []).
Proof.
  intros overview performance.
  assert (Hov : overview
    = map (fun '(region, indices) => (region, quotes_of index_history indices))
          market_indices) by reflexivity.
  assert (Hnd : NoDup (map fst market_indices)).
  { apply (bool_decide_unpack _). vm_compute. reflexivity. }
  assert (Hperf : performance
    = omap (fun '(region, indices) =>
              let quotes := quotes_of index_history indices in
              if (0 <? length quotes)%nat then
                Some (region,
                      {| avg_change_percent :=
                           Py.fdivf
                             (foldl (fun total '(_, data) =>
                                       Py.fadd total (change_percent data))
                                    (Py.Fin 0) quotes)
                             (Py.Fin (inject_Z (Z.of_nat (length quotes))));
                         regional_trend :=
                           if Py.fltb (Py.Fin 0)
                                (foldl (fun total '(_, data) =>
                                          Py.fadd total (change_percent data))
                                       (Py.Fin 0) quotes)
                           then "positive" else "negative";
                         indices_count := length quotes |})
              else None)
           market_indices).
  { unfold performance, get_regional_market_performance.
    apply omap_ext_in. intros [region indices] Hin. rewrite Hov.
    now rewrite (assoc_get_map (quotes_of index_history) region indices
                   market_indices Hnd Hin). }
  conjuncts.
  - rewrite Hov, map_map. apply map_ext. now intros [region indices].
  - rewrite Hov. apply Forall_forall. intros [region quotes] Hin.
    apply list_elem_of_fmap in Hin as ([r indices] & [= -> ->] & Hin).
    exists indices. auto.
  - rewrite Hperf. apply sublist_omap_fst.
    intros [region indices] [r p]. cbn zeta.
    destruct (0 <? length (quotes_of index_history indices))%nat;
      [|discriminate].
    now intros [= <- _].
  - rewrite Hperf. apply Forall_forall. intros [region p] Hin.
    apply list_elem_of_omap in Hin as ([r indices] & Hin & Hp).
    cbn zeta in Hp.
    destruct (0 <? length (quotes_of index_history indices))%nat eqn:E;
      [|discriminate].
    apply Nat.ltb_lt in E. injection Hp as <- <-.
    exists indices. cbn [indices_count].
    split; [exact Hin|]. split; [reflexivity|].
    split; [lia|apply length_omap_le].
  - apply regional_performance_entries.
  - intros Hfail. rewrite Hperf.
    assert (Hq : forall indices, quotes_of index_history indices = []).
    { intros indices. unfold quotes_of.
      induction indices as [|i l IH]; [reflexivity|]. csimpl.
      unfold index_quote_of. destruct (Hfail i) as (e & ->). exact IH. }
    cbn [market_indices omap list_omap]. now rewrite !Hq.
Qed.

End OverviewFacts.

(** ** The suggestions returned *)

Module SuggestionFacts.
Import InvestmentAnalyzer RankingSpec SuggestionSpec SeriesFacts OverviewFacts
  TierFacts SentimentFacts.

Lemma build_step_eq m amount (h : store) (refs : list addr) sym :
  build_step m amount (h, refs) sym
  = match built_suggestion m amount sym with
    | Some s => (h ++ [s], refs ++ [length h])
    | None => (h, refs)
    end.
Proof.
  unfold build_step, built_suggestion.
  destruct (ticker m sym) as [data|e]; [|reflexivity].
  cbn [mbind Py.result_bind].
  destruct (suggestion_of m amount sym data) as [[s|]|e]; reflexivity.
Qed.

Lemma build_suggestions_eq m amount symbols :
  build_suggestions m amount symbols
  = (built_suggestions m amount symbols,
     seq 0 (length (built_suggestions m amount symbols))).
Proof.
  unfold build_suggestions, built_suggestions.
  assert (H : forall (h : store),
    foldl (build_step m amount) (h, seq 0 (length h)) symbols
    = (h ++ omap (built_suggestion m amount) symbols,
       seq 0 (length (h ++ omap (built_suggestion m amount) symbols)))).
  { induction symbols as [|sym symbols IH]; intros h.
    - cbn. now rewrite app_nil_r.
    - cbn [foldl]. rewrite build_step_eq. csimpl.
      destruct (built_suggestion m amount sym) as [s|].
      + replace (seq 0 (length h) ++ [length h])
          with (seq 0 (length (h ++ [s]))).
        * rewrite IH. now rewrite <- app_assoc.
        * rewrite length_app. cbn [length]. rewrite seq_app. reflexivity.
      + apply IH. }
  exact (H []).
Qed.

Lemma enhance_loop_store news_lookup (refs : list addr) :
  forall (h : store) (acc : list addr),
    NoDup refs ->
    (forall r, r ∈ refs -> (r < length h)%nat) ->
    let res := enhance_loop news_lookup h refs acc in
    res.2 = acc ++ refs
    /\ forall i, res.1 !! i
                 = if decide (i ∈ refs)
                   then enhance_one news_lookup <$> h !! i
                   else h !! i.
Proof.
  induction refs as [|r refs IH]; intros h acc Hnd Hvalid; cbn zeta.
  - cbn. split; [now rewrite app_nil_r|]. intros i.
    destruct (decide (i ∈ [])) as [Hin|]; [|reflexivity].
    now apply not_elem_of_nil in Hin.
  - apply NoDup_cons in Hnd as [Hr Hnd]. cbn [enhance_loop].
    destruct (h !! r) as [s|] eqn:Es.
    + destruct (IH (<[r := enhance_one news_lookup s]> h) (acc ++ [r]) Hnd)
        as [Hout Hst].
      { intros r' Hr'. rewrite length_insert. apply Hvalid.
        now apply list_elem_of_further. }
      split; [now rewrite Hout, <- app_assoc|].
      intros i. rewrite Hst.
      destruct (decide (i = r)) as [->|Hne].
      * destruct (decide (r ∈ refs)) as [Hin|_]; [contradiction|].
        destruct (decide (r ∈ r :: refs)) as [_|Hn];
          [|exfalso; apply Hn; apply list_elem_of_here].
        rewrite list_lookup_insert_eq by (eapply lookup_lt_Some; eauto).
        now rewrite Es.
      * rewrite list_lookup_insert_ne by congruence.
        destruct (decide (i ∈ refs)) as [Hin|Hin];
          destruct (decide (i ∈ r :: refs)) as [Hin'|Hin']; try reflexivity.
        -- exfalso. apply Hin'. now apply list_elem_of_further.
        -- exfalso. apply elem_of_cons in Hin' as [->|Hin']; contradiction.
    + exfalso. apply lookup_ge_None in Es.
      specialize (Hvalid r (list_elem_of_here _ _)). lia.
Qed.

Lemma deref_seq (h : store) : deref h (seq 0 (length h)) = h.
Proof.
  unfold deref.
  induction h as [|s h IH] using rev_ind; [reflexivity|].
  rewrite length_app. cbn [length]. rewrite seq_app, omap_app. cbn [seq].
  csimpl. rewrite list_lookup_middle by reflexivity.
  f_equal. rewrite <- IH at 2. apply omap_ext_in.
  intros r Hr. apply elem_of_seq in Hr. apply lookup_app_l. lia.
Qed.

(** The list [get_investment_suggestions] returns: the built dictionaries,
    each enriched once, in the order of the sort. *)
Lemma get_investment_suggestions_eq m news amount include_growth_stocks :
  let built :=
    built_suggestions m amount (stock_symbols include_growth_stocks) in
  exists sorted,
    sorted ≡ₚ built
    /\ get_investment_suggestions m news amount include_growth_stocks
       = map (enhance_one (news_lookup_of news)) sorted.
Proof.
  intros built.
  unfold get_investment_suggestions, get_investment_suggestions_in_store.
  rewrite build_suggestions_eq. fold built. clearbody built.
  set (refs := list_sort (addr_lt built) (seq 0 (length built))).
  assert (Hperm : refs ≡ₚ seq 0 (length built))
    by apply SortFacts.list_sort_Permutation.
  clearbody refs.
  assert (Hnd : NoDup refs) by (rewrite Hperm; apply NoDup_seq).
  assert (Hvalid : forall r, r ∈ refs -> (r < length built)%nat).
  { intros r Hr. rewrite Hperm in Hr. apply elem_of_seq in Hr. lia. }
  destruct (enhance_loop_store (news_lookup_of news) refs built [] Hnd Hvalid)
    as [Hout Hst].
  change (fun sym name : string =>
            Py.Ok (NewsAnalyzer.get_stock_news_summary news sym (Some name)))
    with (news_lookup_of news).
  unfold enhance_suggestions_with_news.
  destruct (enhance_loop (news_lookup_of news) built refs []) as [h' out].
  cbn [fst snd] in Hout, Hst. rewrite app_nil_l in Hout. subst out.
  exists (deref built refs). split.
  - unfold deref. rewrite Hperm. fold (deref built (seq 0 (length built))).
    now rewrite deref_seq.
  - unfold deref.
    change (map (enhance_one (news_lookup_of news))
                (omap (fun r => built !! r) refs))
      with (enhance_one (news_lookup_of news)
            <$> omap (fun r => built !! r) refs).
    rewrite list_fmap_omap. apply omap_ext_in. intros r Hr.
    rewrite Hst. now destruct (decide (r ∈ refs)).
Qed.

(** A property of the built dictionaries that the enrichment keeps holds
    for every suggestion returned. *)
Lemma get_investment_suggestions_Forall (P : Suggestion -> Prop)
    m news amount include_growth_stocks :
  (forall sym s,
     sym ∈ stock_symbols include_growth_stocks ->
     built_suggestion m amount sym = Some s ->
     P (enhance_one (news_lookup_of news) s)) ->
  Forall P (get_investment_suggestions m news amount include_growth_stocks).
Proof.
  intros HP.
  destruct (get_investment_suggestions_eq m news amount include_growth_stocks)
    as (sorted & Hperm & ->).
  apply Forall_fmap. rewrite Hperm. unfold built_suggestions.
  apply Forall_forall. intros s Hs.
  apply list_elem_of_omap in Hs as (sym & Hsym & Hs). now apply (HP sym).
Qed.

Lemma built_suggestion_inv m amount sym s :
  built_suggestion m amount sym = Some s ->
  exists data, ticker m sym = Py.Ok data
               /\ suggestion_of m amount sym data = Py.Ok (Some s).
Proof.
  unfold built_suggestion. destruct (ticker m sym) as [data|e]; [|discriminate].
  cbn [mbind Py.result_bind].
  destruct (suggestion_of m amount sym data) as [[s'|]|e] eqn:E;
    try discriminate.
  cbn [Py.try_except]. intros [= ->]. exists data. split; [reflexivity|exact E].
Qed.

Lemma rev_two {A : Type} (l : list A) (x y : A) (older : list A) :
  rev l = x :: y :: older -> l = rev older ++ [y; x].
Proof.
  intros H. rewrite <- (rev_involutive l), H. simpl.
  now rewrite <- app_assoc.
Qed.

(** Everything a built dictionary records. *)
Lemma suggestion_of_fields m amount sym data s :
  suggestion_of m amount sym data = Py.Ok (Some s) ->
  (2 <= length (hist data))%nat
  /\ last (map fst (hist data)) = Some (price s)
  /\ Py.int (Py.fdiv amount (price s)) = Py.Ok (shares_affordable s)
  /\ symbol s = sym
  /\ investment_amount s = (inject_Z (shares_affordable s) * price s)%Q
  /\ (category s, region s, currency s)
     = category_region_currency sym global_stocks
  /\ is_growth_stock s = String.eqb (category s) "Growth"
  /\ risk_warning s = warning_text (is_growth_stock s) (region s)
  /\ risk_level s
     = classify_risk (volatility s) (is_growth_stock s) (region s)
  /\ news_sentiment s = None /\ news_score s = None
  /\ news_available s = None /\ recent_headlines s = None
  /\ recommendation_strength s = None.
Proof.
  unfold suggestion_of.
  destruct (category_region_currency sym global_stocks) as [[cat reg] cur].
  destruct (rev (hist data)) as [|[c v] older] eqn:Er; [discriminate|].
  destruct older as [|[c' v'] older]; [discriminate|].
  cbn [mbind mret Py.result_bind Py.result_ret].
  destruct (Py.int (Py.fdiv amount c)) as [k|e] eqn:Ek; [|discriminate].
  cbn [mbind Py.result_bind]. intros [= <-].
  cbn [price shares_affordable symbol investment_amount category region
       currency is_growth_stock risk_warning risk_level volatility
       news_sentiment news_score news_available recent_headlines
       recommendation_strength].
  apply rev_two in Er.
  conjuncts; try reflexivity; try assumption.
  - rewrite Er, length_app. simpl. lia.
  - rewrite Er, map_app. simpl.
    change [c'; c] with ([c'] ++ [c]). rewrite app_assoc. apply last_snoc.
Qed.

Lemma built_suggestion_quoted m amount sym :
  is_Some (built_suggestion m amount sym) <-> quoted m sym.
Proof.
  unfold built_suggestion, quoted. split.
  - intros [s Hs]. destruct (built_suggestion_inv m amount sym s Hs)
      as (data & Ht & Hsug).
    destruct (suggestion_of_fields _ _ _ _ _ Hsug)
      as (Hlen & Hlast & Hint & _).
    exists data, (price s). conjuncts; try assumption.
    intros Hz. unfold Py.fdiv in Hint. apply Qeq_bool_iff in Hz.
    rewrite Hz in Hint. destruct (Py.Qltb 0 amount); [discriminate|].
    destruct (Py.Qltb amount 0); discriminate.
  - intros (data & close & Ht & Hlen & Hlast & Hnz). rewrite Ht.
    cbn [mbind Py.result_bind]. unfold suggestion_of.
    destruct (category_region_currency sym global_stocks) as [[cat reg] cur].
    destruct (rev (hist data)) as [|[c v] older] eqn:Er.
    { apply (f_equal (@length _)) in Er. rewrite length_rev in Er.
      simpl in Er. lia. }
    destruct older as [|[c' v'] older].
    { apply (f_equal (@length _)) in Er. rewrite length_rev in Er.
      simpl in Er. lia. }
    apply rev_two in Er.
    assert (Ec : c = close).
    { rewrite Er, map_app in Hlast. simpl in Hlast.
      change [c'; c] with ([c'] ++ [c]) in Hlast.
      rewrite app_assoc, last_snoc in Hlast. congruence. }
    subst c. cbn [mbind mret Py.result_bind Py.result_ret].
    unfold Py.fdiv. destruct (Qeq_bool close 0) eqn:E.
    { apply Qeq_bool_iff in E. contradiction. }
    cbn. eauto.
Qed.

Lemma enhance_one_base news s :
  let s' := enhance_one (news_lookup_of news) s in
  symbol s' = symbol s /\ company_name s' = company_name s
  /\ price s' = price s /\ currency s' = currency s
  /\ region s' = region s /\ category s' = category s
  /\ risk_level s' = risk_level s /\ volatility s' = volatility s
  /\ is_growth_stock s' = is_growth_stock s
  /\ risk_warning s' = risk_warning s
  /\ shares_affordable s' = shares_affordable s
  /\ investment_amount s' = investment_amount s.
Proof. cbn zeta. conjuncts; reflexivity. Qed.

Lemma stock_symbols_NoDup flag : NoDup (stock_symbols flag).
Proof. destruct flag; apply (bool_decide_unpack _); vm_compute; reflexivity. Qed.

Lemma stock_symbols_labels flag sym :
  sym ∈ stock_symbols flag ->
  category_region_currency sym global_stocks
    ∈ (if flag then label_combinations else take 4 label_combinations).
Proof.
  revert sym. apply Forall_forall.
  destruct flag; apply (bool_decide_unpack _); vm_compute; reflexivity.
Qed.

Lemma warning_text_none g reg :
  warning_text g reg = None <-> g = false /\ (reg = "US" \/ reg = "UK").
Proof.
  unfold warning_text, Py.str_in. cbn [existsb].
  destruct (String.eqb reg "US") eqn:E1; [apply String.eqb_eq in E1|
    apply String.eqb_neq in E1];
  (destruct (String.eqb reg "UK") eqn:E2; [apply String.eqb_eq in E2|
    apply String.eqb_neq in E2]); destruct g; cbn; split;
    try discriminate; try tauto; intros [? [?|?]]; congruence.
Qed.

(** X24.  [get_investment_suggestions] returns exactly one
    suggestion for each symbol of its table that could be quoted, and none
    for any other symbol: at most 21 suggestions without growth stocks and
    at most 36 with them, and none when no symbol can be fetched. *)
Theorem ranking_lists_each_quoted_symbol_once
    m news amount include_growth_stocks :
  let out :=
    get_investment_suggestions m news amount include_growth_stocks in
  NoDup (map symbol out)
  /\ (forall sym,
        sym ∈ map symbol out
        <-> sym ∈ stock_symbols include_growth_stocks /\ quoted m sym)
  /\ (length out <= length (stock_symbols include_growth_stocks))%nat
  /\ length (stock_symbols false) = 21%nat
  /\ length (stock_symbols true) = 36%nat
  /\ ((forall sym, exists e, ticker m sym = Py.Raise e) -> out = []).
Proof.
  intros out.
  destruct (get_investment_suggestions_eq m news amount include_growth_stocks)
    as (sorted & Hperm & Hout).
  fold out in Hout.
  set (symbols := stock_symbols include_growth_stocks) in *.
  assert (Hsym : map symbol out ≡ₚ map symbol (built_suggestions m amount symbols)).
  { rewrite Hout, map_map.
    rewrite (map_ext _ symbol) by reflexivity. now rewrite Hperm. }
  assert (Hbuilt : map symbol (built_suggestions m amount symbols)
                   = omap (fun sym =>
                             match built_suggestion m amount sym with
                             | Some _ => Some sym
                             | None => None
                             end) symbols).
  { unfold built_suggestions.
    change (map symbol (omap (built_suggestion m amount) symbols))
      with (symbol <$> omap (built_suggestion m amount) symbols).
    rewrite list_fmap_omap. apply omap_ext_in. intros sym _.
    destruct (built_suggestion m amount sym) as [s|] eqn:E; [|reflexivity].
    destruct (built_suggestion_inv _ _ _ _ E) as (data & _ & Hs).
    destruct (suggestion_of_fields _ _ _ _ _ Hs) as (_ & _ & _ & Heq & _).
    cbn. now f_equal. }
  assert (Hsub : sublist (map symbol (built_suggestions m amount symbols))
                         symbols).
  { rewrite Hbuilt. clear. induction symbols as [|sym l IH]; csimpl;
      [constructor|].
    destruct (built_suggestion m amount sym); now constructor. }
  conjuncts.
  - rewrite Hsym. eapply sublist_NoDup; [|exact Hsub].
    apply stock_symbols_NoDup.
  - intros sym. rewrite Hsym, Hbuilt, list_elem_of_omap. split.
    + intros (sym' & Hin & Hs).
      destruct (built_suggestion m amount sym') as [s|] eqn:E;
        [|discriminate].
      injection Hs as <-. split; [exact Hin|].
      apply (built_suggestion_quoted m amount). rewrite E. eauto.
    + intros [Hin Hq]. exists sym. split; [exact Hin|].
      apply (built_suggestion_quoted m amount) in Hq as [s ->]. reflexivity.
  - rewrite <- (length_map symbol out), Hsym.
    now apply sublist_length.
  - reflexivity.
  - reflexivity.
  - intros Hfail.
    assert (E : built_suggestions m amount symbols = []).
    { unfold built_suggestions. clear -Hfail.
      induction symbols as [|sym l IH]; [reflexivity|]. csimpl.
      unfold built_suggestion at 1. destruct (Hfail sym) as (e & ->).
      exact IH. }
    rewrite E in Hperm. apply Permutation_nil_r in Hperm.
    rewrite Hout, Hperm. reflexivity.
Qed.


(** X26.  Category, region and currency of a returned suggestion form
    one of the seven combinations of the stock table, one of the first four
    without growth stocks.  The growth flag says whether the category is
    Growth, the risk level is the tier of the volatility, the flag and the
    region, and the warning is absent exactly for a stock that is not a
    growth stock and has region US or UK.  Without growth stocks every
    suggestion is a Blue Chip, and it carries the warning about
    international investments exactly when its region is neither US nor UK.
    A growth stock is never rated low. *)
Theorem suggestion_labels_fit_together m news amount include_growth_stocks :
  Forall (labels_consistent include_growth_stocks)
         (get_investment_suggestions m news amount include_growth_stocks)
  /\ (include_growth_stocks = false ->
      Forall (fun s => category s = "Blue Chip"
                       /\ is_growth_stock s = false
                       /\ risk_warning s
                          = if Py.str_in (region s) ["US"; "UK"] then None
                            else Some (" International investments may "
                                       +:+ "involve currency and political "
                                       +:+ "risks."))
             (get_investment_suggestions m news amount
                                         include_growth_stocks))
  /\ Forall (fun s => is_growth_stock s = true -> risk_level s <> "low")
            (get_investment_suggestions m news amount include_growth_stocks).
Proof.
  assert (Hall : Forall (labels_consistent include_growth_stocks)
    (get_investment_suggestions m news amount include_growth_stocks)).
  { apply get_investment_suggestions_Forall. intros sym s Hin Hs.
    destruct (built_suggestion_inv _ _ _ _ Hs) as (data & _ & Hsug).
    destruct (suggestion_of_fields _ _ _ _ _ Hsug)
      as (_ & _ & _ & _ & _ & Hlab & Hg & Hw & Hr & _).
    unfold labels_consistent.
    destruct (enhance_one_base news s)
      as (_ & _ & _ & -> & -> & -> & -> & -> & -> & -> & _).
    conjuncts; try assumption.
    - rewrite Hlab. now apply stock_symbols_labels.
    - rewrite Hw. apply warning_text_none. }
  split; [exact Hall|]. split.
  - intros ->. eapply Forall_impl; [exact Hall|].
    intros s (Hlab & Hg & Hw & _ & _).
    assert (Hc : category s = "Blue Chip").
    { cbn in Hlab.
      repeat (apply elem_of_cons in Hlab as [[= -> _ _]|Hlab];
              [reflexivity|]).
      now apply not_elem_of_nil in Hlab. }
    rewrite Hc in Hg. cbn in Hg. rewrite Hw, Hg.
    split; [exact Hc|]. split; [reflexivity|].
    unfold warning_text. now destruct (Py.str_in (region s) ["US"; "UK"]).
  - eapply Forall_impl; [exact Hall|].
    intros s (_ & _ & _ & _ & Hr) Hg. rewrite Hr, Hg.
    rewrite classify_risk_eq.
    destruct (Py.fltb (volatility s) (Py.Fin 0.2)),
      (Py.fltb (volatility s) (Py.Fin 0.3)),
      (Py.fltb (volatility s) (Py.Fin 0.5)),
      (Py.str_in (region s) ["US"; "UK"]); discriminate.
Qed.

Lemma summary_without_service news sym name :
  NewsAnalyzer.service news = None ->
  NewsAnalyzer.get_stock_news_summary news sym name
  = NewsSpec.no_news_summary sym.
Proof.
  intros H. unfold NewsAnalyzer.get_stock_news_summary.
  now rewrite (NewsFacts.search_without_service news sym name 7 H).
Qed.

Lemma summary_score_and_headlines news sym name :
  let s := NewsAnalyzer.get_stock_news_summary news sym name in
  (-1 <= NewsAnalyzer.sentiment_score s <= 1)%Q
  /\ (length (NewsAnalyzer.recent_headlines s) <= 3)%nat.
Proof.
  cbn zeta. unfold NewsAnalyzer.get_stock_news_summary.
  destruct (NewsAnalyzer.search_stock_news news sym name 7) as [|item rest].
  - cbn. split; [lra|lia].
  - cbn zeta. cbn [NewsAnalyzer.sentiment_score NewsAnalyzer.recent_headlines].
    split; [apply analyze_sentiment_average_bounds|].
    rewrite length_map, length_take. lia.
Qed.

Lemma enhance_one_news news s :
  recommendation_strength s = None ->
  enriched_with news (enhance_one (news_lookup_of news) s).
Proof.
  intros Hs. unfold enriched_with. cbn zeta.
  unfold enhance_one, news_lookup_of.
  cbn [mbind mret Py.result_bind Py.result_ret Py.try_except symbol
       company_name news_sentiment news_score news_available recent_headlines
       recommendation_strength].
  rewrite Hs. cbn [default]. conjuncts; reflexivity.
Qed.

(** X27.  Every suggestion returned carries the news keys of
    [get_stock_news_summary] for its symbol and company name: a score
    between -1 and 1 and at most three headlines.  A recommendation strength
    is present only for a positive sentiment, where it is 0.6, and for a
    negative one, where it is 0.4.  Without a search service every
    suggestion has neutral sentiment, score zero, no news and no
    strength. *)
Theorem enrichment_ties_strength_to_sentiment
    m news amount include_growth_stocks :
  let out :=
    get_investment_suggestions m news amount include_growth_stocks in
  Forall (enriched_with news) out
  /\ Forall (fun s =>
               exists score headlines,
                 news_score s = Some score
                 /\ (-1 <= score <= 1)%Q
                 /\ recent_headlines s = Some headlines
                 /\ (length headlines <= 3)%nat)
            out
  /\ (NewsAnalyzer.service news = None -> Forall without_news out)
  /\ Forall (fun s =>
               match recommendation_strength s with
               | Some strength =>
                   ((strength == 0.6)%Q /\ news_sentiment s = Some "positive")
                   \/ ((strength == 0.4)%Q
                       /\ news_sentiment s = Some "negative")
               | None =>
                   news_sentiment s <> Some "positive"
                   /\ news_sentiment s <> Some "negative"
               end)
            out.
Proof.
  intros out.
  assert (Hall : Forall (enriched_with news) out).
  { apply get_investment_suggestions_Forall. intros sym s _ Hs.
    destruct (built_suggestion_inv _ _ _ _ Hs) as (data & _ & Hsug).
    apply enhance_one_news.
    now destruct (suggestion_of_fields _ _ _ _ _ Hsug)
      as (_ & _ & _ & _ & _ & _ & _ & _ & _ & _ & _ & _ & _ & ?). }
  split; [exact Hall|]. conjuncts.
  - eapply Forall_impl; [exact Hall|].
    intros s (_ & Hscore & _ & Hhead & _).
    destruct (summary_score_and_headlines news (symbol s)
                (Some (company_name s))) as [Hb Hl].
    eexists. eexists. split; [exact Hscore|]. split; [exact Hb|].
    split; [exact Hhead|exact Hl].
  - intros Hnone. eapply Forall_impl; [exact Hall|].
    intros s. unfold enriched_with, without_news. cbn zeta.
    rewrite (summary_without_service news _ _ Hnone). cbn. tauto.
  - eapply Forall_impl; [exact Hall|].
    intros s (Hsent & _ & _ & _ & Hstr). rewrite Hstr, Hsent.
    destruct (String.eqb _ "positive") eqn:Epos.
    + apply String.eqb_eq in Epos. left. split; [|now rewrite Epos].
      vm_compute. reflexivity.
    + destruct (String.eqb _ "negative") eqn:Eneg.
      * apply String.eqb_eq in Eneg. right. split; [|now rewrite Eneg].
        vm_compute. reflexivity.
      * apply String.eqb_neq in Epos, Eneg. split; congruence.
Qed.

Lemma filter_none {A : Type} (f : A -> bool) (l : list A) :
  Forall (fun x => f x = false) l -> List.filter f l = [].
Proof.
  induction 1 as [|x l Hx _ IH]; [reflexivity|]. simpl. now rewrite Hx.
Qed.

Lemma suggestion_categories m news amount include_growth_stocks :
  Forall (fun s => category s = "Blue Chip" \/ category s = "Growth")
         (get_investment_suggestions m news amount include_growth_stocks).
Proof.
  apply get_investment_suggestions_Forall. intros sym s Hin Hs.
  destruct (built_suggestion_inv _ _ _ _ Hs) as (data & _ & Hsug).
  destruct (suggestion_of_fields _ _ _ _ _ Hsug)
    as (_ & _ & _ & _ & _ & Hlab & _).
  destruct (enhance_one_base news s) as (_ & _ & _ & _ & _ & -> & _).
  pose proof (stock_symbols_labels _ _ Hin) as Hc. rewrite <- Hlab in Hc.
  destruct include_growth_stocks; cbn in Hc;
    repeat (apply elem_of_cons in Hc as [[= -> _ _]|Hc]; [auto|]);
    now apply not_elem_of_nil in Hc.
Qed.

(** X28.  The suggestions carry the categories Blue Chip and Growth,
    while [generate_call_script] selects the categories blue_chip and growth:
    for the suggestions of [get_investment_suggestions] both selections are
    empty, and so are the two texts of stocks put into the prompt. *)
Theorem call_script_names_no_stock m news amount include_growth_stocks
    (numbered_line : nat -> Suggestion -> string)
    (bullet_line : Suggestion -> string) :
  let out :=
    get_investment_suggestions m news amount include_growth_stocks in
  Forall (fun s => category s = "Blue Chip" \/ category s = "Growth") out
  /\ VoiceInteraction.blue_chip_stocks out = []
  /\ VoiceInteraction.growth_stocks out = []
  /\ VoiceInteraction.blue_chip_text numbered_line out = ""
  /\ VoiceInteraction.growth_text bullet_line out = "".
Proof.
  intros out.
  pose proof (suggestion_categories m news amount include_growth_stocks)
    as Hcat. fold out in Hcat.
  assert (Hb : VoiceInteraction.blue_chip_stocks out = []).
  { apply filter_none. eapply Forall_impl; [exact Hcat|].
    intros s [-> | ->]; reflexivity. }
  assert (Hg : VoiceInteraction.growth_stocks out = []).
  { apply filter_none. eapply Forall_impl; [exact Hcat|].
    intros s [-> | ->]; reflexivity. }
  split; [exact Hcat|]. split; [exact Hb|]. split; [exact Hg|].
  unfold VoiceInteraction.blue_chip_text, VoiceInteraction.growth_text.
  rewrite Hb, Hg. split; reflexivity.
Qed.

End SuggestionFacts.

(** ** The callers *)

Module CallerFacts.
Import InvestmentAnalyzer RankingSpec SuggestionSpec FreshSpec
  FreshLedgerFacts FreshFundsFacts SuggestionFacts.


(** X30.  [check_and_call] builds a fresh monitor each time.  With
    draws in the ranges of their generators and the initial buys stamped
    before the check, it always finds unused funds, between 21599.60 and
    48500, and asks for blue-chip suggestions for exactly that amount; it
    returns [True] exactly when there is a suggestion, a script is generated
    and is not empty, and the call returns an identifier that is not
    empty. *)
Theorem fresh_check_reaches_the_suggestions
    clock draws now m news generate_script make_call :
  draws_in_range draws ->
  (forall k, (2 <= k <= 6)%nat -> clock k < now) ->
  exists data,
    identify_unused_funds now (PortfolioMonitor.__init__ clock draws)
    = Some data
    /\ (21599.6 <= unused_funds data <= 48500)%Q
    /\ let opportunities :=
         get_investment_suggestions m news (unused_funds data) false in
       CallNow.check_and_call clock draws now m news generate_script make_call
       = match opportunities with
         | [] => false
         | _ =>
             match generate_script opportunities (unused_funds data) with
             | Some script =>
                 if String.eqb script "" then false
                 else match make_call script with
                      | Some call_id => negb (String.eqb call_id "")
                      | None => false
                      end
             | None => false
             end
         end.
Proof.
  intros Hrange Hclock.
  destruct (fresh_unused_funds clock draws now Hrange Hclock)
    as (data & Hdata & _ & Hbounds).
  exists data. split; [exact Hdata|]. split; [exact Hbounds|].
  cbn zeta. unfold CallNow.check_and_call. cbn zeta. rewrite Hdata.
  assert (Hpos : Py.Qltb 0 (unused_funds data) = true)
    by (apply Qltb_lt; lra).
  rewrite Hpos.
  now destruct (get_investment_suggestions m news (unused_funds data) false).
Qed.

Lemma fresh_check_reaches_the_suggestions_witness :
  exists data,
    identify_unused_funds (SampleTime.sample_now + 10)
      (PortfolioMonitor.__init__ FreshSpec.sample_clock FreshSpec.sample_draws) = Some data
    /\ (21599.6 <= unused_funds data <= 48500)%Q.
Proof.
  destruct (fresh_check_reaches_the_suggestions FreshSpec.sample_clock FreshSpec.sample_draws
              (SampleTime.sample_now + 10) RankingSpec.sample_market
              NewsSpec.analyzer_without_service
              (fun _ _ => Some "script") (fun _ => Some "call"))
    as (data & Hdata & Hbounds & _).
  - intros i. cbn. split; [apply list_elem_of_here|]. split; lra.
  - intros k Hk. unfold FreshSpec.sample_clock. lia.
  - exists data. split; [exact Hdata|exact Hbounds].
Defined.

End CallerFacts.

